(** * FileScooper: a shallow embedding of [filescooper.py]

    The development follows the Python source function by function.
    Python [str] and [bytes] values are Rocq strings (sequences of bytes,
    text in UTF-8), Python [int] is [Z], a Python [set] of strings is a
    [gset string], a [dict] with string keys a [gmap string _].  What the
    program only consumes from outside (the network, the random source, the
    clock, [urllib], float parsing, the case mapping of Unicode,
    operating-system errors) is gathered in a record of oracles, [Env];
    what it changes (files, directories, sleeps, requests, printed lines)
    is an explicit [world] threaded through the calls. *)

From Stdlib Require Import ZArith Ascii String List Lia DecimalString DecimalZ.
From stdpp Require Import gmap strings.

Local Open Scope Z_scope.

(** ** Python string primitives *)

Module Str.

(** [len(s)] for a [bytes]: its bytes *)
Fixpoint len (s : string) : nat :=
  match s with
  | "" => 0%nat
  | String _ s' => S (len s')
  end.

(** [s.startswith(p)] *)
Fixpoint startswith (p s : string) : bool :=
  match p, s with
  | "", _ => true
  | String a p', String b s' => bool_decide (a = b) && startswith p' s'
  | String _ _, "" => false
  end.

(** [s.endswith(p)] *)
Definition endswith (p s : string) : bool :=
  startswith (String.rev p) (String.rev s).

(** [c in s] for a one-character [c] *)
Fixpoint contains (c : ascii) (s : string) : bool :=
  match s with
  | "" => false
  | String a s' => bool_decide (a = c) || contains c s'
  end.

(** [s.partition(c)]: the text before and after the first [c], when
    there is one. *)
Fixpoint partition (c : ascii) (s : string) : option (string * string) :=
  match s with
  | "" => None
  | String a s' =>
      if bool_decide (a = c) then Some ("", s')
      else match partition c s' with
           | Some (b, t) => Some (String a b, t)
           | None => None
           end
  end.

(** [s.rpartition(c)]: the text before and after the last [c], when
    there is one; [rpartition c s = Some (b, t)] is [b = s[:i]] and
    [t = s[i+1:]] for [i = s.rfind(c) >= 0]. *)
Fixpoint rpartition (c : ascii) (s : string) : option (string * string) :=
  match s with
  | "" => None
  | String a s' =>
      match rpartition c s' with
      | Some (b, t) => Some (String a b, t)
      | None => if bool_decide (a = c) then Some ("", s') else None
      end
  end.

(** [s.split(c)] *)
Fixpoint split_go (c : ascii) (cur : string) (s : string) : list string :=
  match s with
  | "" => [String.rev cur]
  | String a s' =>
      if bool_decide (a = c) then String.rev cur :: split_go c "" s'
      else split_go c (String a cur) s'
  end.
Definition split (c : ascii) (s : string) : list string := split_go c "" s.

(** [s.lstrip(c)] for a one-character [c] *)
Fixpoint lstrip (c : ascii) (s : string) : string :=
  match s with
  | String a s' => if bool_decide (a = c) then lstrip c s' else s
  | "" => ""
  end.

(** A [str] is held as its UTF-8 bytes.  The characters [str.strip()]
    removes are those of [str.isspace]: U+0009 to U+000D, U+001C to U+0020,
    U+0085, U+00A0, U+1680, U+2000 to U+200A, U+2028, U+2029, U+202F,
    U+205F and U+3000, of one, two or three bytes. *)
Definition space1 (a : ascii) : bool :=
  let a := nat_of_ascii a in
  ((9 <=? a)%nat && (a <=? 13)%nat) || ((28 <=? a)%nat && (a <=? 32)%nat).

Definition space2 (a b : ascii) : bool :=
  let a := nat_of_ascii a in
  let b := nat_of_ascii b in
  (a =? 194)%nat && ((b =? 133)%nat || (b =? 160)%nat).

Definition space3 (a b c : ascii) : bool :=
  let a := nat_of_ascii a in
  let b := nat_of_ascii b in
  let c := nat_of_ascii c in
  ((a =? 225)%nat && (b =? 154)%nat && (c =? 128)%nat)
  || ((a =? 226)%nat && (b =? 128)%nat
      && (((128 <=? c)%nat && (c <=? 138)%nat)
          || (c =? 168)%nat || (c =? 169)%nat || (c =? 175)%nat))
  || ((a =? 226)%nat && (b =? 129)%nat && (c =? 159)%nat)
  || ((a =? 227)%nat && (b =? 128)%nat && (c =? 128)%nat).

(** [s.lstrip()] *)
Fixpoint lstrip_space (s : string) : string :=
  match s with
  | String a s1 =>
      if space1 a then lstrip_space s1
      else
        match s1 with
        | String b s2 =>
            if space2 a b then lstrip_space s2
            else
              match s2 with
              | String c s3 => if space3 a b c then lstrip_space s3 else s
              | "" => s
              end
        | "" => s
        end
  | "" => ""
  end.

(** [s.rstrip()], on the reversed string: the bytes of a character come
    last byte first. *)
Fixpoint rstrip_space_rev (s : string) : string :=
  match s with
  | String c s1 =>
      if space1 c then rstrip_space_rev s1
      else
        match s1 with
        | String b s2 =>
            if space2 b c then rstrip_space_rev s2
            else
              match s2 with
              | String a s3 => if space3 a b c then rstrip_space_rev s3 else s
              | "" => s
              end
        | "" => s
        end
  | "" => ""
  end.

(** [s.strip()] *)
Definition strip (s : string) : string :=
  String.rev (rstrip_space_rev (String.rev (lstrip_space s))).

(** [s.isascii()], and [s.lower()] and [s.upper()] for such an [s]: on
    ASCII text only the letters A to Z, or a to z, change. *)
Fixpoint is_ascii (s : string) : bool :=
  match s with
  | "" => true
  | String a s' => (nat_of_ascii a <? 128)%nat && is_ascii s'
  end.

Definition ascii_lower_char (a : ascii) : ascii :=
  let n := nat_of_ascii a in
  if (65 <=? n)%nat && (n <=? 90)%nat then ascii_of_nat (n + 32) else a.

Definition ascii_upper_char (a : ascii) : ascii :=
  let n := nat_of_ascii a in
  if (97 <=? n)%nat && (n <=? 122)%nat then ascii_of_nat (n - 32) else a.

Fixpoint map (f : ascii → ascii) (s : string) : string :=
  match s with
  | "" => ""
  | String a s' => String (f a) (map f s')
  end.

Definition ascii_lower : string → string := map ascii_lower_char.
Definition ascii_upper : string → string := map ascii_upper_char.

(** [s[n:]] and [s[:-n]], counted in bytes *)
Fixpoint drop (n : nat) (s : string) : string :=
  match n, s with
  | O, _ => s
  | S n', String _ s' => drop n' s'
  | S _, "" => ""
  end.
Definition drop_end (n : nat) (s : string) : string :=
  String.rev (drop n (String.rev s)).

(** [str(n)] for an [int] *)
Definition of_Z (n : Z) : string := NilEmpty.string_of_int (Z.to_int n).

Fixpoint spaces (n : nat) : string :=
  match n with
  | O => ""
  | S n' => String " " (spaces n')
  end.

(** [len(s)] for a [str]: its characters.  Every byte starts one but the
    continuation bytes, 128 to 191. *)
Fixpoint chars (s : string) : nat :=
  match s with
  | "" => O
  | String a s' =>
      let n := nat_of_ascii a in
      if (128 <=? n)%nat && (n <=? 191)%nat then chars s' else S (chars s')
  end.

(** [f"{s:<30}"]: [s] padded with spaces on the right to the width, which
    counts characters. *)
Definition ljust (width : nat) (s : string) : string :=
  s +:+ spaces (width - chars s).

End Str.

(** ** [os.path] (POSIX flavour) *)

(** [os.path.basename(p)]: [p[p.rfind('/') + 1:]]. *)
Definition os_path_basename (p : string) : string :=
  match Str.rpartition "/" p with
  | Some (_, t) => t
  | None => p
  end.

(** [True] when every character is a dot. *)
Fixpoint all_dots (s : string) : bool :=
  match s with
  | "" => true
  | String a s' => bool_decide (a = "."%char) && all_dots s'
  end.

(** [os.path.splitext(p)]: the extension starts at the last dot of the
    last path component, provided a character other than a dot precedes
    that dot within the component; otherwise the extension is empty. *)
Definition os_path_splitext (p : string) : string * string :=
  let '(head, name) :=
    match Str.rpartition "/" p with
    | Some (h, t) => (h +:+ "/", t)
    | None => ("", p)
    end in
  match Str.rpartition "." name with
  | Some (stem, e) =>
      if all_dots stem then (p, "") else (head +:+ stem, String "." e)
  | None => (p, "")
  end.

(** [os.path.join(a, b)] *)
Definition os_path_join (a b : string) : string :=
  if Str.startswith "/" b then b
  else if bool_decide (a = "") || Str.endswith "/" a then a +:+ b
  else a +:+ "/" +:+ b.

(** ** Sizes and colours *)

(** Nearest integer to [num / den] ([0 <= num], [0 < den]), ties to even:
    the rounding of Python's [format] on an exactly represented float. *)
Definition round_half_even (num den : Z) : Z :=
  let q := num / den in
  let r := num mod den in
  if 2 * r <? den then q
  else if den <? 2 * r then q + 1
  else if Z.even q then q else q + 1.

(** [f"{x:.1f}"] for [x = num / den]. *)
Definition fmt_1f (num den : Z) : string :=
  let t := round_half_even (10 * Z.abs num) den in
  (if num <? 0 then "-" else "") +:+ Str.of_Z (t / 10) +:+ "." +:+ Str.of_Z (t mod 10).

(** The loop of [format_size]: [num_bytes] is [num / den] and each pass
    divides by 1024.  The float quotients of the source are exact as long
    as the byte count is below [2^53], so the rational computation here
    gives the same text. *)
Fixpoint format_size_units (units : list string) (num den : Z) : string :=
  match units with
  | [] => fmt_1f num den +:+ " PB"
  | unit :: rest =>
      if num <? 1024 * den then fmt_1f num den +:+ " " +:+ unit
      else format_size_units rest num (den * 1024)
  end.

Definition format_size (num_bytes : Z) : string :=
  format_size_units ["B"; "KB"; "MB"; "GB"; "TB"] num_bytes 1.

Record Color := {
  BOLD : string;
  GREEN : string;
  YELLOW : string;
  RED : string;
  RESET : string
}.

Definition Color_init (enable : bool) : Color :=
  if enable then
    {| BOLD := String "027" "[1m";
       GREEN := String "027" "[92m";
       YELLOW := String "027" "[93m";
       RED := String "027" "[91m";
       RESET := String "027" "[0m" |}
  else
    {| BOLD := ""; GREEN := ""; YELLOW := ""; RED := ""; RESET := "" |}.

Definition colorize_status (code : Z) (color : Color) : string :=
  if (200 <=? code) && (code <? 300) then GREEN color +:+ Str.of_Z code +:+ RESET color
  else if (300 <=? code) && (code <? 400) then YELLOW color +:+ Str.of_Z code +:+ RESET color
  else RED color +:+ Str.of_Z code +:+ RESET color.


(** ** Collision-free file names *)

(** [os.path.exists(p)], where [fs] lists by path what is there: for a
    run, the files and the directories ([entries] below). *)
Definition os_path_exists (fs : gmap string string) (p : string) : bool :=
  bool_decide (is_Some (fs !! p)).

(** The [n]-th name tried by [get_unique_filename]: [f"{base}_{counter}{ext}"]. *)
Definition numbered (base ext : string) (counter : Z) : string :=
  base +:+ "_" +:+ Str.of_Z counter +:+ ext.

(** The [while] loop of [get_unique_filename]; [None] when the fuel is
    spent before a free name is found. *)
Fixpoint unique_loop (fuel : nat) (fs : gmap string string)
    (output_dir base ext : string) (counter : Z) (unique_filename : string)
    : option string :=
  match fuel with
  | O => None
  | S fuel' =>
      if os_path_exists fs (os_path_join output_dir unique_filename)
      then unique_loop fuel' fs output_dir base ext (counter + 1) (numbered base ext counter)
      else Some unique_filename
  end.

(** The directory is finite and the numbered names are pairwise distinct, so
    two more passes than there are files always end the loop
    ([unique_loop_total] below); the default is never taken. *)
Definition get_unique_filename (fs : gmap string string)
    (output_dir base_filename : string) : string :=
  let '(base, ext) := os_path_splitext base_filename in
  default base_filename
    (unique_loop (S (S (size fs))) fs output_dir base ext 1 base_filename).

(** ** The outside world *)

(** What [requests.get] does: a response, whatever its status code, or an
    exception of the transport (connection error, timeout, TLS or DNS
    failure), kept as its text [str(e)]. *)
Inductive http_result :=
  | Response (status_code : Z) (content : string)
  | RequestException (e : string).

(** The [random_ua] argument of [download_file]: [False], ['desktop'] or
    ['mobile']. *)
Inductive ua_mode := UaFalse | UaDesktop | UaMobile.

(** A value returned by [download_file]: the triple of a success, the
    [str] of a skip or of a failure, or [None] when the loop body never
    runs. *)
Inductive py_value :=
  | PyTuple (line : string) (status_code : Z) (content_length : Z)
  | PyStr (line : string)
  | PyNone.

(** The libraries and the environment the program calls into.  Each
    exception is kept as its text. *)
Record Env := {
  (** [requests.get(url, headers=…, timeout=15, proxies=…, verify=False)];
      the last argument counts the requests made before this one. *)
  requests_get : string → gmap string string → option (gmap string string) → nat → http_result;
  (** [random.choice(seq)]; the first argument counts the earlier draws. *)
  random_choice : nat → list string → string;
  (** [urlparse(url).path], or the [ValueError] it raises. *)
  urlparse_path : string → string + string;
  (** [os.makedirs(path, exist_ok=True)]: the [OSError], if any. *)
  os_makedirs : string → option string;
  (** [open(path, mode)]: the [OSError], if any; no file is created then. *)
  open_error : string → option string;
  (** [f.write(content)] to the file just opened at the path, and the
      closing of the file: the [OSError], if any, with what the file holds
      then. *)
  write_error : string → string → option (string * string);
  (** The lines of a text file as iteration over it yields them, or the
      exception raised by opening or decoding it. *)
  file_lines : string → string + list string;
  (** [int(float(s) * multiplier)], or the exception of [float] or [int]. *)
  int_float_times : string → Z → string + Z;
  (** [datetime.now().strftime("%Y-%m-%d_%H-%M-%S")] *)
  timestamp : string;
  (** The order in which [as_completed] hands out the finished futures. *)
  as_completed : list py_value → list py_value;
  (** [s.lower()] and [s.upper()]: the case mapping of the interpreter's
      Unicode tables. *)
  str_lower : string → string;
  str_upper : string → string;
  (** On ASCII text the mapping is that of the letters A to Z and a to z. *)
  str_lower_ascii : ∀ s, Str.is_ascii s = true → str_lower s = Str.ascii_lower s;
  str_upper_ascii : ∀ s, Str.is_ascii s = true → str_upper s = Str.ascii_upper s;
  (** Four facts of [str.lower] on any text: the empty string stays empty;
      a leading dot is mapped to itself and does not change the mapping of
      what follows (a dot has no case, and it is not a letter that could
      make a sigma after it a final one, the one mapping that looks at
      what comes before); text without a dot is mapped to text without a
      dot; and the result is lower-case, so mapping it again changes
      nothing. *)
  str_lower_empty : str_lower "" = "";
  str_lower_dot : ∀ s, str_lower (String "." s) = String "." (str_lower s);
  str_lower_no_dot : ∀ s, Str.contains "." s = false → Str.contains "." (str_lower s) = false;
  str_lower_lower : ∀ s, str_lower (str_lower s) = str_lower s
}.

(** ** Extension filter *)

(** [os.path.splitext(filename)[1].lower().lstrip('.')] *)
Definition file_extension (env : Env) (filename : string) : string :=
  Str.lstrip "." (str_lower env (os_path_splitext filename).2).

Definition allowed_extension (env : Env) (filename : string)
    (allowed_types : gset string) : bool :=
  if bool_decide (allowed_types = {["*"]}) then true
  else bool_decide (file_extension env filename ∈ allowed_types).

(** ** The state of a run *)

(** What a run changes.  Paths are compared as text. *)
Record world := {
  fs : gmap string string;                      (* files: path ↦ content *)
  dirs : gset string;                           (* directories *)
  slept : list Z;                               (* arguments of [time.sleep], oldest first *)
  sent : list (string * gmap string string);    (* requests made: URL and headers *)
  draws : nat;                                  (* calls of [random.choice] *)
  stdout : list string                          (* one entry per [print] *)
}.

Definition write_file (path content : string) (w : world) : world :=
  {| fs := <[path := content]> (fs w); dirs := dirs w; slept := slept w; sent := sent w;
     draws := draws w; stdout := stdout w |}.

(** [os.makedirs(path, exist_ok=True)] when it returns. *)
Definition make_dir (path : string) (w : world) : world :=
  {| fs := fs w; dirs := {[path]} ∪ dirs w; slept := slept w; sent := sent w;
     draws := draws w; stdout := stdout w |}.

(** What [os.path.exists] finds: the files, the directories, and the
    entries [.] and [..] every directory has.  Only the paths matter; a
    directory is listed with no content. *)
Definition entries (w : world) : gmap string string :=
  fs w ∪ gset_to_gmap ""
           (dirs w
            ∪ set_map (C := gset string) (λ d, os_path_join d ".") (dirs w)
            ∪ set_map (C := gset string) (λ d, os_path_join d "..") (dirs w)).

Definition append_file (path content : string) (w : world) : world :=
  write_file path (default "" (fs w !! path) +:+ content) w.

Definition time_sleep (seconds : Z) (w : world) : world :=
  {| fs := fs w; dirs := dirs w; slept := slept w ++ [seconds]; sent := sent w;
     draws := draws w; stdout := stdout w |}.

Definition record_request (url : string) (headers : gmap string string) (w : world) : world :=
  {| fs := fs w; dirs := dirs w; slept := slept w; sent := sent w ++ [(url, headers)];
     draws := draws w; stdout := stdout w |}.

Definition record_draw (w : world) : world :=
  {| fs := fs w; dirs := dirs w; slept := slept w; sent := sent w;
     draws := S (draws w); stdout := stdout w |}.

Definition print (line : string) (w : world) : world :=
  {| fs := fs w; dirs := dirs w; slept := slept w; sent := sent w;
     draws := draws w; stdout := stdout w ++ [line] |}.

Definition DESKTOP_USER_AGENTS : list string :=
  ["Mozilla/5.0 (Windows NT 10.0; Win64; x64) AppleWebKit/537.36 (KHTML, like Gecko) Chrome/122.0.0.0 Safari/537.36";
   "Mozilla/5.0 (Macintosh; Intel Mac OS X 13_4) AppleWebKit/605.1.15 (KHTML, like Gecko) Version/16.4 Safari/605.1.15";
   "Mozilla/5.0 (X11; Linux x86_64) AppleWebKit/537.36 (KHTML, like Gecko) Chrome/121.0.0.0 Safari/537.36";
   "Mozilla/5.0 (Windows NT 10.0; rv:115.0) Gecko/20100101 Firefox/115.0";
   "Mozilla/5.0 (Macintosh; Intel Mac OS X 12_7) AppleWebKit/605.1.15 (KHTML, like Gecko) Version/16.0 Safari/605.1.15"].

Definition MOBILE_USER_AGENTS : list string :=
  ["Mozilla/5.0 (iPhone; CPU iPhone OS 17_0 like Mac OS X) AppleWebKit/605.1.15 (KHTML, like Gecko) Version/17.0 Mobile/15E148 Safari/604.1";
   "Mozilla/5.0 (Linux; Android 13; Pixel 6) AppleWebKit/537.36 (KHTML, like Gecko) Chrome/122.0.0.0 Mobile Safari/537.36";
   "Mozilla/5.0 (Linux; Android 12; SM-G991B) AppleWebKit/537.36 (KHTML, like Gecko) Chrome/120.0.0.0 Mobile Safari/537.36";
   "Mozilla/5.0 (iPad; CPU OS 16_5 like Mac OS X) AppleWebKit/605.1.15 (KHTML, like Gecko) Version/16.0 Mobile/15E148 Safari/604.1"].

(** ** [download_file] *)

(** The arguments of [download_file] that [main] fixes once for the run. *)
Record policy := {
  output_dir : string;
  proxies : option (gmap string string);
  retries : Z;
  color : Color;
  allowed_types : gset string;
  min_size : option Z;
  max_size : option Z;
  random_ua : ua_mode
}.

(** How the body of the [try] ends: at one of its [return]s or with an
    exception. *)
Inductive completion :=
  | Return (v : py_value)
  | Raise (e : string).

(** [min_size and content_length < min_size]: [None] and [0] are both
    false in Python. *)
Definition too_small (min_size : option Z) (content_length : Z) : bool :=
  match min_size with
  | Some m => negb (m =? 0) && (content_length <? m)
  | None => false
  end.

(** [max_size and content_length > max_size] *)
Definition too_large (max_size : option Z) (content_length : Z) : bool :=
  match max_size with
  | Some m => negb (m =? 0) && (m <? content_length)
  | None => false
  end.

(** The first statement of the [try]: the user agent of this attempt. *)
Definition pick_user_agent (env : Env) (mode : ua_mode)
    (headers : gmap string string) (w : world) : gmap string string * world :=
  match mode with
  | UaDesktop =>
      (<["User-Agent" := random_choice env (draws w) DESKTOP_USER_AGENTS]> headers, record_draw w)
  | UaMobile =>
      (<["User-Agent" := random_choice env (draws w) MOBILE_USER_AGENTS]> headers, record_draw w)
  | UaFalse => (headers, w)
  end.

(** The body of the [try] block, lines 100-131.  The headers are returned
    too: the [dict] is changed in place and the next attempt starts from it.
    [open(filepath, 'wb')] creates the file, which was not there, before
    anything is written: when the write or the closing fails, the file
    stays, with what reached it. *)
Definition attempt_body (env : Env) (url : string) (headers : gmap string string)
    (p : policy) (w : world) : completion * gmap string string * world :=
  let '(headers, w) := pick_user_agent env (random_ua p) headers w in
  let response := requests_get env url headers (proxies p) (length (sent w)) in
  let w := record_request url headers w in
  match response with
  | RequestException e => (Raise e, headers, w)
  | Response status_code content =>
      let status_colored := colorize_status status_code (color p) in
      let content_length := Z.of_nat (Str.len content) in
      if too_small (min_size p) content_length then
        (Return (PyStr ("[!] Skipped (too small < " +:+ format_size (default 0 (min_size p))
                        +:+ "): " +:+ url)), headers, w)
      else if too_large (max_size p) content_length then
        (Return (PyStr ("[!] Skipped (too large > " +:+ format_size (default 0 (max_size p))
                        +:+ "): " +:+ url)), headers, w)
      else
        match urlparse_path env url with
        | inl e => (Raise e, headers, w)
        | inr path =>
            let filename := os_path_basename path in
            if bool_decide (filename = "") then
              (Return (PyStr ("[!] Skipped (no filename): " +:+ url)), headers, w)
            else if negb (allowed_extension env filename (allowed_types p)) then
              (Return (PyStr ("[!] Skipped (not allowed type): " +:+ url)), headers, w)
            else
              match os_makedirs env (output_dir p) with
              | Some e => (Raise e, headers, w)
              | None =>
                  let w := make_dir (output_dir p) w in
                  let filename := get_unique_filename (entries w) (output_dir p) filename in
                  let filepath := os_path_join (output_dir p) filename in
                  match open_error env filepath with
                  | Some e => (Raise e, headers, w)
                  | None =>
                      match write_error env filepath content with
                      | Some (e, partial) => (Raise e, headers, write_file filepath partial w)
                      | None =>
                          let w := write_file filepath content w in
                          let size_str := format_size (Z.of_nat (Str.len content)) in
                          (Return (PyTuple ("[✓] " +:+ Str.ljust 30 filename +:+ " → "
                                            +:+ status_colored +:+ " (" +:+ size_str +:+ ")  ("
                                            +:+ url +:+ ")")
                                           status_code content_length), headers, w)
                      end
                  end
              end
        end
  end.

(** [for attempt in range(1, retries + 1)]: [n] passes are left and this
    one is number [attempt].  An exception in the body is caught; below the
    retry count the task sleeps [2 ** attempt] seconds and goes on,
    otherwise it returns the failure line.  When the range is empty the
    function falls off its end and returns [None]. *)
Fixpoint attempts (n : nat) (attempt : Z) (env : Env) (url : string)
    (headers : gmap string string) (p : policy) (w : world) : py_value * world :=
  match n with
  | O => (PyNone, w)
  | S n' =>
      match attempt_body env url headers p w with
      | (Return v, _, w) => (v, w)
      | (Raise e, headers, w) =>
          if attempt <? retries p then
            attempts n' (attempt + 1) env url headers p (time_sleep (2 ^ attempt) w)
          else
            (PyStr ("[✗] Failed to download " +:+ url +:+ " after "
                    +:+ Str.of_Z (retries p) +:+ " attempt(s): " +:+ e), w)
      end
  end.

Definition download_file (env : Env) (url : string) (headers : gmap string string)
    (p : policy) (w : world) : py_value * world :=
  attempts (Z.to_nat (retries p)) 1 env url headers p w.

(** ** [main] *)

(** The [argparse] namespace. *)
Record Namespace := {
  args_urls : option (list string);
  args_file : option string;
  args_output : string;
  args_header : list string;
  args_proxy : option string;
  args_threads : Z;
  args_retries : Z;
  args_log_file : option string;
  args_no_color : bool;
  args_types : string;
  args_random_useragent : bool;
  args_min_size : option string;
  args_max_size : option string;
  args_mobile_useragent : bool
}.

(** Truth value of an optional string: [None] and [''] are false. *)
Definition given (o : option string) : bool :=
  match o with
  | Some s => negb (bool_decide (s = ""))
  | None => false
  end.

Definition nl : string := String "010" "".

Definition parse_headers (header_list : list string) : gmap string string :=
  foldl (λ headers item,
           match Str.partition ":" item with
           | Some (key, value) => <[Str.strip key := Str.strip value]> headers
           | None => headers
           end) ∅ header_list.

Definition read_urls_from_file (env : Env) (filepath : string) (w : world)
    : list string * world :=
  match file_lines env filepath with
  | inr lines =>
      (filter (λ line, line ≠ "") (Str.strip <$> lines), w)
  | inl e =>
      ([], print ("[✗] Failed to read file '" +:+ filepath +:+ "': " +:+ e) w)
  end.

(** [parse_size]: [inl] is the exception of the float conversion. *)
Definition parse_size (env : Env) (size_str : option string) : string + option Z :=
  if negb (given size_str) then inr None
  else
    let size_str := str_upper env (Str.strip (default "" size_str)) in
    let '(multiplier, size_str) :=
      if Str.endswith "KB" size_str then (1024, Str.drop_end 2 size_str)
      else if Str.endswith "MB" size_str then (1024 ^ 2, Str.drop_end 2 size_str)
      else if Str.endswith "GB" size_str then (1024 ^ 3, Str.drop_end 2 size_str)
      else (1, size_str) in
    match int_float_times env size_str multiplier with
    | inl e => inl e
    | inr n => inr (Some n)
    end.

(** [setup_log_file]: the path of the opened log file, which starts empty,
    or the [OSError]. *)
Definition setup_log_file (env : Env) (log_path : option string) (w : world)
    : (string + string) * world :=
  match os_makedirs env "logs" with
  | Some e => (inl e, w)
  | None =>
      let w := make_dir "logs" w in
      let log_path :=
        if negb (given log_path)
        then os_path_join "logs" ("filescooper_" +:+ timestamp env +:+ ".log")
        else default "" log_path in
      match open_error env log_path with
      | Some e => (inl e, w)
      | None => (inr log_path, write_file log_path "" w)
      end
  end.

(** The tasks of the pool.  The workers are run one task after the other,
    in the order of submission, each task on its own copy of the headers;
    the interleaving of several workers is outside this model. *)
Fixpoint run_tasks (env : Env) (urls : list string) (headers : gmap string string)
    (p : policy) (w : world) : list py_value * world :=
  match urls with
  | [] => ([], w)
  | url :: rest =>
      let '(v, w) := download_file env url headers p w in
      let '(vs, w) := run_tasks env rest headers p w in
      (v :: vs, w)
  end.

(** The accumulators of the loop over the finished futures. *)
Record totals := {
  results : list string;
  total_downloaded : Z;
  total_bytes : Z
}.

(** [for future in progress_bar], lines 207-213.  The statement
    [result, status, size = future.result()] unpacks a triple; on a [str]
    (every line [download_file] returns has more than three characters)
    it raises [ValueError], on [None] it raises [TypeError], and the
    exception leaves the loop and [main]. *)
Fixpoint consume (futures : list py_value) (log_path : string) (acc : totals)
    (w : world) : option string * totals * world :=
  match futures with
  | [] => (None, acc, w)
  | PyTuple result status size :: rest =>
      let w := append_file log_path (result +:+ nl) w in
      let counted := (status =? 200) && (0 <? size) in
      consume rest log_path
        {| results := results acc ++ [result];
           total_downloaded := if counted then total_downloaded acc + 1 else total_downloaded acc;
           total_bytes := if counted then total_bytes acc + size else total_bytes acc |} w
  | PyStr _ :: _ =>
      (Some "ValueError: too many values to unpack (expected 3)", acc, w)
  | PyNone :: _ =>
      (Some "TypeError: cannot unpack non-iterable NoneType object", acc, w)
  end.

Definition print_all (lines : list string) (w : world) : world :=
  foldl (λ w line, print line w) w lines.

(** One group of the summary: its heading, its lines and an empty line,
    when the group is not empty. *)
Definition print_group (heading : string) (lines : list string) (w : world) : world :=
  match lines with
  | [] => w
  | _ => print "" (print_all lines (print heading w))
  end.

(** Lines 214-243: the three groups, the summary and the totals. *)
Definition report (args : Namespace) (color : Color) (log_name : string)
    (acc : totals) (w : world) : world :=
  let successes := filter (λ r, Str.startswith "[✓]" r = true) (results acc) in
  let skips := filter (λ r, Str.startswith "[!]" r = true) (results acc) in
  let failures := filter (λ r, Str.startswith "[✗]" r = true) (results acc) in
  let w := print (nl +:+ "📄 " +:+ BOLD color +:+ "Download Summary:" +:+ RESET color +:+ nl) w in
  let w := print_group (GREEN color +:+ "✅ Successfully downloaded:" +:+ RESET color +:+ nl) successes w in
  let w := print_group (YELLOW color +:+ "⚠️ Skipped files:" +:+ RESET color +:+ nl) skips w in
  let w := print_group (RED color +:+ "❌ Failed downloads:" +:+ RESET color +:+ nl) failures w in
  let w := print ("📁 Saved to: " +:+ args_output args +:+ "/") w in
  let w := print ("📝 Log saved to: " +:+ log_name) w in
  if bool_decide (total_downloaded acc = 0) then w
  else print ("📦 Total downloaded: " +:+ Str.of_Z (total_downloaded acc) +:+ " file(s), "
              +:+ format_size (total_bytes acc)) w.

(** What a run of [main] leaves behind: the world, the URLs submitted to
    the pool, the values of the futures, the accumulators of the loop when
    it was reached, and the exception that ended [main], if any. *)
Record run := {
  final : world;
  submitted : list string;
  outcomes : list py_value;
  aggregate : option totals;
  raised : option string
}.

Definition stopped (w : world) (e : option string) : run :=
  {| final := w; submitted := []; outcomes := []; aggregate := None; raised := e |}.

Definition main (env : Env) (args : Namespace) (w : world) : run :=
  let headers := parse_headers (args_header args) in
  let proxies :=
    if given (args_proxy args)
    then Some ({["http" := default "" (args_proxy args);
                 "https" := default "" (args_proxy args)]} : gmap string string)
    else None in
  let color := Color_init (negb (args_no_color args)) in
  let allowed_types : gset string :=
    list_to_set ((λ t, str_lower env (Str.strip t)) <$> Str.split "," (args_types args)) in
  let urls := default [] (args_urls args) in
  let '(urls, w) :=
    if given (args_file args) then
      let '(more, w) := read_urls_from_file env (default "" (args_file args)) w in
      (urls ++ more, w)
    else (urls, w) in
  if args_random_useragent args && args_mobile_useragent args then
    stopped (print "[!] You cannot use --random-useragent and --mobile-useragent at the same time." w) None
  else
  match parse_size env (args_min_size args) with
  | inl e => stopped w (Some e)
  | inr min_size =>
  match parse_size env (args_max_size args) with
  | inl e => stopped w (Some e)
  | inr max_size =>
  match urls with
  | [] => stopped (print "[!] No URLs provided. Use -u or -f." w) None
  | _ =>
  let w := print (nl +:+ "📥 Downloading " +:+ Str.of_Z (Z.of_nat (length urls))
                  +:+ " file(s) with " +:+ Str.of_Z (args_threads args)
                  +:+ " threads..." +:+ nl) w in
  match setup_log_file env (args_log_file args) w with
  | (inl e, w) => stopped w (Some e)
  | (inr log_file, w) =>
  if args_threads args <=? 0 then
    stopped w (Some "ValueError: max_workers must be greater than 0")
  else
  let p := {| output_dir := args_output args; proxies := proxies;
              retries := args_retries args; color := color;
              allowed_types := allowed_types;
              min_size := min_size; max_size := max_size;
              random_ua := if args_random_useragent args then UaDesktop
                           else if args_mobile_useragent args then UaMobile
                           else UaFalse |} in
  let '(futures, w) := run_tasks env urls headers p w in
  match consume (as_completed env futures) log_file
          {| results := []; total_downloaded := 0; total_bytes := 0 |} w with
  | (Some e, acc, w) =>
      {| final := w; submitted := urls; outcomes := futures;
         aggregate := Some acc; raised := Some e |}
  | (None, acc, w) =>
      {| final := report args color log_file acc w; submitted := urls;
         outcomes := futures; aggregate := Some acc; raised := None |}
  end
  end
  end
  end
  end.

(** ** Notions used to state the properties *)

(** The response the next attempt of a task receives. *)
Definition attempt_response (env : Env) (url : string) (headers : gmap string string)
    (p : policy) (w : world) : http_result :=
  let '(headers, w) := pick_user_agent env (random_ua p) headers w in
  requests_get env url headers (proxies p) (length (sent w)).


(** The name under which an attempt made from [w] saves the file
    [filename]: the one [get_unique_filename] picks once [os.makedirs] has
    returned. *)
Definition saved_as (p : policy) (w : world) (filename : string) : string :=
  get_unique_filename (entries (make_dir (output_dir p) w)) (output_dir p) filename.

(** No write to a file fails. *)
Definition writes_succeed (env : Env) : Prop :=
  ∀ path content, write_error env path content = None.

(** The value is the line of a skip for size: line 110, line 112. *)
Definition skipped_too_small (v : py_value) : bool :=
  match v with
  | PyStr line => Str.startswith "[!] Skipped (too small < " line
  | _ => false
  end.

Definition skipped_too_large (v : py_value) : bool :=
  match v with
  | PyStr line => Str.startswith "[!] Skipped (too large > " line
  | _ => false
  end.

Definition skipped_for_size (v : py_value) : bool :=
  skipped_too_small v || skipped_too_large v.

(** The body of the [try] ended with a skip for size. *)
Definition size_skip (c : completion) : bool :=
  match c with
  | Return v => skipped_for_size v
  | Raise _ => false
  end.

Definition with_min_size (m : option Z) (p : policy) : policy :=
  {| output_dir := output_dir p; proxies := proxies p; retries := retries p;
     color := color p; allowed_types := allowed_types p;
     min_size := m; max_size := max_size p; random_ua := random_ua p |}.

Definition with_max_size (m : option Z) (p : policy) : policy :=
  {| output_dir := output_dir p; proxies := proxies p; retries := retries p;
     color := color p; allowed_types := allowed_types p;
     min_size := min_size p; max_size := m; random_ua := random_ua p |}.

(** The extension in the words of the specification: the substring after
    the last dot, lowercased, without the dot (empty without any dot). *)
Definition claimed_extension (env : Env) (filename : string) : string :=
  match Str.rpartition "." filename with
  | Some (_, e) => str_lower env e
  | None => ""
  end.

(** The same with the provision of [os.path.splitext]: a name with nothing
    but dots before its last dot has no extension. *)
Definition splitext_extension (env : Env) (filename : string) : string :=
  match Str.rpartition "." filename with
  | Some (stem, e) => if all_dots stem then "" else str_lower env e
  | None => ""
  end.

(** The seconds slept by a task that fails [r] times: [2 ** attempt] after
    each attempt but the last. *)
Definition backoff (r : Z) : list Z := (λ attempt, 2 ^ attempt) <$> seqZ 1 (r - 1).

Definition total (l : list Z) : Z := foldr Z.add 0 l.

(** The content of the file at [path], empty when there is none. *)
Definition file_content (w : world) (path : string) : string :=
  default "" (fs w !! path).

(** A success: the value is the triple of line 131. *)
Definition is_success (v : py_value) : bool :=
  match v with
  | PyTuple _ _ _ => true
  | _ => false
  end.

(** A success that counts toward the totals: status 200 and a body that is
    not empty. *)
Definition qualifies (v : py_value) : bool :=
  match v with
  | PyTuple _ status size => (status =? 200) && (0 <? size)
  | _ => false
  end.

Definition byte_size (v : py_value) : Z :=
  match v with
  | PyTuple _ _ size => size
  | _ => 0
  end.

Definition line_of (v : py_value) : string :=
  match v with
  | PyTuple line _ _ => line
  | PyStr line => line
  | PyNone => ""
  end.

(** ** A concrete environment for the scenarios *)

Module Demo.

(** [n] bytes of content. *)
Fixpoint blob (n : nat) : string :=
  match n with
  | O => ""
  | S n' => String "x" (blob n')
  end.

(** Skips the authority of a URL: up to the first of [/], [?], [#]. *)
Fixpoint after_netloc (s : string) : string :=
  match s with
  | "" => ""
  | String a s' =>
      if bool_decide (a = "/"%char) || bool_decide (a = "?"%char) || bool_decide (a = "#"%char)
      then s else after_netloc s'
  end.

(** [urlparse(url).path] for URLs of the shape
    [scheme://host/path?query#fragment]. *)
Definition url_path (url : string) : string :=
  let rest := match Str.partition ":" url with Some (_, r) => r | None => url end in
  let rest := if Str.startswith "//" rest then after_netloc (Str.drop 2 rest) else rest in
  let rest := match Str.partition "#" rest with Some (b, _) => b | None => rest end in
  match Str.partition "?" rest with Some (b, _) => b | None => rest end.

(** The server: two scripts, a directory listing, a created resource, and
    one URL whose every request times out. *)
Definition get (url : string) : http_result :=
  if bool_decide (url = "http://example.com/a.js") then Response 200 (blob 500)
  else if bool_decide (url = "http://example.com/.js") then Response 200 (blob 40)
  else if bool_decide (url = "http://example.com/c.js") then Response 201 (blob 300)
  else if bool_decide (url = "http://example.com/") then Response 200 (blob 120)
  else if bool_decide (url = "http://example.com/static/") then Response 200 (blob 500)
  else if bool_decide (url = "http://example.com/b.js") then RequestException "Read timed out. (read timeout=15)"
  else Response 404 "Not Found".

(** [int(float(s) * multiplier)] on the decimal integers. *)
Definition int_float (s : string) (multiplier : Z) : string + Z :=
  match s, NilEmpty.int_of_string s with
  | String _ _, Some d => inr (Z.of_int d * multiplier)
  | _, _ => inl ("ValueError: could not convert string to float: '" +:+ s +:+ "'")
  end.

(** [str.lower] and [str.upper] on the text of the scenarios, which stays
    within Latin-1 (U+0000 to U+00FF).  There the letters A to Z go to a to
    z, and U+00C0 to U+00DE, but the sign U+00D7, go 32 places up: in
    UTF-8 the byte 195 followed by 128 to 158, but 151. *)
Definition lower_latin (b : ascii) : ascii :=
  let n := nat_of_ascii b in
  if (128 <=? n)%nat && (n <=? 158)%nat && negb (n =? 151)%nat
  then ascii_of_nat (n + 32) else b.

(** [after_195]: the byte before was 195, the first byte of U+00C0 to
    U+00FF. *)
Fixpoint lower_from (after_195 : bool) (s : string) : string :=
  match s with
  | "" => ""
  | String a s' =>
      if after_195 then String (lower_latin a) (lower_from false s')
      else String (Str.ascii_lower_char a) (lower_from (bool_decide (a = "195"%char)) s')
  end.

Definition lower : string → string := lower_from false.

(** Upwards, a to z go to A to Z and U+00E0 to U+00FE, but the sign
    U+00F7, go 32 places down; U+00DF becomes [SS], U+00FF becomes U+0178
    and U+00B5 becomes U+039C. *)
Fixpoint upper (s : string) : string :=
  match s with
  | "" => ""
  | String a s1 =>
      match s1 with
      | String b s2 =>
          let m := nat_of_ascii a in
          let n := nat_of_ascii b in
          if (m =? 195)%nat then
            if (n =? 159)%nat then String "S" (String "S" (upper s2))
            else if (n =? 191)%nat then String "197" (String "184" (upper s2))
            else if (160 <=? n)%nat && (n <=? 190)%nat && negb (n =? 183)%nat
            then String a (String (ascii_of_nat (n - 32)) (upper s2))
            else String a (String b (upper s2))
          else if (m =? 194)%nat && (n =? 181)%nat
          then String "206" (String "156" (upper s2))
          else String (Str.ascii_upper_char a) (upper s1)
      | "" => String (Str.ascii_upper_char a) ""
      end
  end.

(** The environment of the scenarios.  The facts of [str.lower] and
    [str.upper] are shown of [lower] and [upper] on the spot. *)
Definition env : Env.
Proof.
  refine
    {| requests_get := λ url _ _ _, get url;
       random_choice := λ _ agents, default "" (head agents);
       urlparse_path := λ url, inr (url_path url);
       os_makedirs := λ _, None;
       open_error := λ _, None;
       write_error := λ _ _, None;
       file_lines := λ path, inl ("[Errno 2] No such file or directory: '" +:+ path +:+ "'");
       int_float_times := int_float;
       timestamp := "2025-01-01_12-00-00";
       as_completed := λ futures, futures;
       str_lower := lower;
       str_upper := upper;
       str_lower_ascii := _;
       str_upper_ascii := _;
       str_lower_empty := eq_refl;
       str_lower_dot := λ s, eq_refl;
       str_lower_no_dot := _;
       str_lower_lower := _ |}.
  - intros s. unfold lower, Str.ascii_lower.
    induction s as [|a s IH]; [done|]. cbn.
    intros [Ha Hs]%andb_true_iff. f_equal.
    rewrite bool_decide_eq_false_2; [by apply IH|].
    intros ->. discriminate Ha.
  - intros s. unfold Str.ascii_upper.
    induction s as [|a s IH]; [done|].
    cbn [Str.is_ascii]. intros [Ha Hs]%andb_true_iff. specialize (IH Hs).
    destruct s as [|b s]; [done|].
    change (Str.map Str.ascii_upper_char (String a (String b s)))
      with (String (Str.ascii_upper_char a) (Str.map Str.ascii_upper_char (String b s))).
    rewrite <- IH. clear IH Hs.
    by destruct a as [[] [] [] [] [] [] [] []].
  - enough (∀ after s, Str.contains "." s = false → Str.contains "." (lower_from after s) = false)
      as H by (intros s; apply H).
    intros after s. revert after. induction s as [|a s IH]; intros after; [done|].
    cbn. intros [Ha Hs]%orb_false_iff. apply bool_decide_eq_false in Ha.
    destruct after; cbn; rewrite (IH _ Hs), orb_false_r; apply bool_decide_eq_false_2;
      intros E; apply Ha; by destruct a as [[] [] [] [] [] [] [] []].
  - enough (∀ after s, lower_from after (lower_from after s) = lower_from after s)
      as H by (intros s; apply H).
    intros after s. revert after. induction s as [|a s IH]; intros after; [done|].
    destruct after; cbn.
    + f_equal; [by destruct a as [[] [] [] [] [] [] [] []]|apply IH].
    + f_equal; [by destruct a as [[] [] [] [] [] [] [] []]|].
      replace (bool_decide (Str.ascii_lower_char a = "195"%char))
        with (bool_decide (a = "195"%char)); [apply IH|].
      by destruct a as [[] [] [] [] [] [] [] []].
Defined.

(** An empty directory and nothing done yet. *)
Definition w0 : world :=
  {| fs := ∅; dirs := ∅; slept := []; sent := []; draws := 0; stdout := [] |}.

Definition plain : policy :=
  {| output_dir := "downloads"; proxies := None; retries := 3;
     color := Color_init false; allowed_types := {["js"]};
     min_size := None; max_size := None; random_ua := UaFalse |}.

Definition with_types (types : gset string) (p : policy) : policy :=
  {| output_dir := output_dir p; proxies := proxies p; retries := retries p;
     color := color p; allowed_types := types;
     min_size := min_size p; max_size := max_size p; random_ua := random_ua p |}.

Definition with_retries (r : Z) (p : policy) : policy :=
  {| output_dir := output_dir p; proxies := proxies p; retries := r;
     color := color p; allowed_types := allowed_types p;
     min_size := min_size p; max_size := max_size p; random_ua := random_ua p |}.

(** The command line [-u <urls> --retries 1 --no-color --types '*' -t 2]. *)
Definition args (urls : list string) : Namespace :=
  {| args_urls := Some urls; args_file := None; args_output := "downloads";
     args_header := []; args_proxy := None; args_threads := 2; args_retries := 1;
     args_log_file := Some "run.log"; args_no_color := true; args_types := "*";
     args_random_useragent := false; args_min_size := None; args_max_size := None;
     args_mobile_useragent := false |}.

Definition both_agents (a : Namespace) : Namespace :=
  {| args_urls := args_urls a; args_file := args_file a; args_output := args_output a;
     args_header := args_header a; args_proxy := args_proxy a;
     args_threads := args_threads a; args_retries := args_retries a;
     args_log_file := args_log_file a; args_no_color := args_no_color a;
     args_types := args_types a; args_random_useragent := true;
     args_min_size := args_min_size a; args_max_size := args_max_size a;
     args_mobile_useragent := true |}.

(** The three URLs of the end-to-end scenario: a script, a URL that times
    out, a URL without a final path segment. *)
Definition scenario : list string :=
  ["http://example.com/a.js"; "http://example.com/b.js"; "http://example.com/"].

(** A created resource (status 201), a script (status 200, 500 bytes) and a
    directory. *)
Definition mixed : list string :=
  ["http://example.com/c.js"; "http://example.com/a.js"; "http://example.com/"].

(** The set built from [--types '*,js']. *)
Definition star_js : gset string := {["*"; "js"]}.

(** The set built from [--types 'css,']. *)
Definition css_or_none : gset string := {["css"; ""]}.

End Demo.

(** ** Further environments and command lines for the scenarios *)

Module Scene.

(** The environment of [Demo] on a disk where the output directory cannot
    be created. *)
Definition read_only : Env :=
  {| requests_get := requests_get Demo.env;
     random_choice := random_choice Demo.env;
     urlparse_path := urlparse_path Demo.env;
     os_makedirs := λ path,
       if bool_decide (path = "downloads")
       then Some "[Errno 13] Permission denied: 'downloads'" else None;
     open_error := open_error Demo.env;
     write_error := write_error Demo.env;
     file_lines := file_lines Demo.env;
     int_float_times := int_float_times Demo.env;
     timestamp := timestamp Demo.env;
     as_completed := as_completed Demo.env;
     str_lower := str_lower Demo.env;
     str_upper := str_upper Demo.env;
     str_lower_ascii := str_lower_ascii Demo.env;
     str_upper_ascii := str_upper_ascii Demo.env;
     str_lower_empty := str_lower_empty Demo.env;
     str_lower_dot := str_lower_dot Demo.env;
     str_lower_no_dot := str_lower_no_dot Demo.env;
     str_lower_lower := str_lower_lower Demo.env |}.

(** The environment of [Demo] with a URL file of five lines, three of
    them blank; U+00A0, the no-break space, is one of the blanks. *)
Definition with_url_file : Env :=
  {| requests_get := requests_get Demo.env;
     random_choice := random_choice Demo.env;
     urlparse_path := urlparse_path Demo.env;
     os_makedirs := os_makedirs Demo.env;
     open_error := open_error Demo.env;
     write_error := write_error Demo.env;
     file_lines := λ path,
       if bool_decide (path = "urls.txt")
       then inr ["http://example.com/a.js" +:+ nl; nl; "   " +:+ nl;
                 String "194" (String "160" "") +:+ nl;
                 "  http://example.com/c.js " +:+ String "194" (String "160" "")]
       else file_lines Demo.env path;
     int_float_times := int_float_times Demo.env;
     timestamp := timestamp Demo.env;
     as_completed := as_completed Demo.env;
     str_lower := str_lower Demo.env;
     str_upper := str_upper Demo.env;
     str_lower_ascii := str_lower_ascii Demo.env;
     str_upper_ascii := str_upper_ascii Demo.env;
     str_lower_empty := str_lower_empty Demo.env;
     str_lower_dot := str_lower_dot Demo.env;
     str_lower_no_dot := str_lower_no_dot Demo.env;
     str_lower_lower := str_lower_lower Demo.env |}.

(** [Demo.args] with [--min-size] and [--max-size]. *)
Definition sized (lo hi : option string) (a : Namespace) : Namespace :=
  {| args_urls := args_urls a; args_file := args_file a; args_output := args_output a;
     args_header := args_header a; args_proxy := args_proxy a;
     args_threads := args_threads a; args_retries := args_retries a;
     args_log_file := args_log_file a; args_no_color := args_no_color a;
     args_types := args_types a; args_random_useragent := args_random_useragent a;
     args_min_size := lo; args_max_size := hi;
     args_mobile_useragent := args_mobile_useragent a |}.

(** A world in which the log file of an earlier run is still there. *)
Definition after_a_run : world :=
  {| fs := {["run.log" := "old line" +:+ nl; "downloads/a.js" := "old"]};
     dirs := {["downloads"; "logs"]};
     slept := []; sent := []; draws := 0; stdout := [] |}.

(** The environment of [Demo] behind a connection that drops the first
    request of the run. *)
Definition flaky : Env :=
  {| requests_get := λ url headers proxies n,
       match n with
       | O => RequestException "Connection reset by peer"
       | S _ => requests_get Demo.env url headers proxies n
       end;
     random_choice := random_choice Demo.env;
     urlparse_path := urlparse_path Demo.env;
     os_makedirs := os_makedirs Demo.env;
     open_error := open_error Demo.env;
     write_error := write_error Demo.env;
     file_lines := file_lines Demo.env;
     int_float_times := int_float_times Demo.env;
     timestamp := timestamp Demo.env;
     as_completed := as_completed Demo.env;
     str_lower := str_lower Demo.env;
     str_upper := str_upper Demo.env;
     str_lower_ascii := str_lower_ascii Demo.env;
     str_upper_ascii := str_upper_ascii Demo.env;
     str_lower_empty := str_lower_empty Demo.env;
     str_lower_dot := str_lower_dot Demo.env;
     str_lower_no_dot := str_lower_no_dot Demo.env;
     str_lower_lower := str_lower_lower Demo.env |}.

(** The environment of [Demo] on a disk where the write to
    [downloads/a.js] stops after 100 bytes. *)
Definition full_disk : Env :=
  {| requests_get := requests_get Demo.env;
     random_choice := random_choice Demo.env;
     urlparse_path := urlparse_path Demo.env;
     os_makedirs := os_makedirs Demo.env;
     open_error := open_error Demo.env;
     write_error := λ path _,
       if bool_decide (path = "downloads/a.js")
       then Some ("[Errno 28] No space left on device", Demo.blob 100) else None;
     file_lines := file_lines Demo.env;
     int_float_times := int_float_times Demo.env;
     timestamp := timestamp Demo.env;
     as_completed := as_completed Demo.env;
     str_lower := str_lower Demo.env;
     str_upper := str_upper Demo.env;
     str_lower_ascii := str_lower_ascii Demo.env;
     str_upper_ascii := str_upper_ascii Demo.env;
     str_lower_empty := str_lower_empty Demo.env;
     str_lower_dot := str_lower_dot Demo.env;
     str_lower_no_dot := str_lower_no_dot Demo.env;
     str_lower_lower := str_lower_lower Demo.env |}.

End Scene.
Example basename_file : os_path_basename "/static/js/app.min.JS" = "app.min.JS".
Proof. reflexivity. Qed.
Example basename_dir : os_path_basename "/static/js/" = "".
Proof. reflexivity. Qed.
Example splitext_two_dots : os_path_splitext "app.min.JS" = ("app.min", ".JS").
Proof. reflexivity. Qed.
Example splitext_dotfile : os_path_splitext ".bashrc" = (".bashrc", "").
Proof. reflexivity. Qed.
Example splitext_dir_dot : os_path_splitext "a.b/c" = ("a.b/c", "").
Proof. reflexivity. Qed.
Example splitext_in_dir : os_path_splitext "a.b/..c.d" = ("a.b/..c", ".d").
Proof. reflexivity. Qed.
Example extension_upper : file_extension Demo.env "app.min.JS" = "js".
Proof. reflexivity. Qed.
Example extension_upper_any env : file_extension env "app.min.JS" = "js".
Proof. unfold file_extension. cbn [os_path_splitext snd]. by rewrite str_lower_ascii. Qed.
Example join_plain : os_path_join "downloads" "a.js" = "downloads/a.js".
Proof. reflexivity. Qed.
Example join_slash : os_path_join "downloads/" "a.js" = "downloads/a.js".
Proof. reflexivity. Qed.
Example strip_both : Str.strip "  js " = "js".
Proof. reflexivity. Qed.
Example strip_no_break_space :
  Str.strip (String "194" (String "160" "10KB") +:+ String "226" (String "128" (String "137" "")))
  = "10KB".
Proof. reflexivity. Qed.
Example strip_inner : Str.strip (String "009" "a b" +:+ nl) = "a b".
Proof. reflexivity. Qed.
Example ljust_characters :
  Str.ljust 6 (String "195" (String "169" ".js")) = String "195" (String "169" ".js") +:+ "  ".
Proof. reflexivity. Qed.
Example split_types : Str.split "," "js, css,PNG" = ["js"; " css"; "PNG"].
Proof. reflexivity. Qed.
Example allowed_js : allowed_extension Demo.env "app.JS" {["js"; "css"]} = true.
Proof. vm_compute. reflexivity. Qed.
Example allowed_star_mixed : allowed_extension Demo.env "app.png" {["*"; "js"]} = false.
Proof. vm_compute. reflexivity. Qed.
Example extension_accented :
  file_extension Demo.env "x.É" = "é" ∧ allowed_extension Demo.env "x.É" {["é"]} = true.
Proof. vm_compute. done. Qed.
Example upper_sharp_s : str_upper Demo.env "straße 10kb" = "STRASSE 10KB".
Proof. reflexivity. Qed.
Example format_500 : format_size 500 = "500.0 B".
Proof. reflexivity. Qed.
Example format_1280 : format_size 1280 = "1.2 KB".
Proof. reflexivity. Qed.
Example format_1536 : format_size 1536 = "1.5 KB".
Proof. reflexivity. Qed.
Example format_5MB : format_size (5 * 1024 * 1024) = "5.0 MB".
Proof. reflexivity. Qed.
Example format_1023_99 : format_size (1024 * 1024 - 1) = "1024.0 KB".
Proof. reflexivity. Qed.
Example unique_free :
  get_unique_filename ∅ "downloads" "app.js" = "app.js".
Proof. vm_compute. reflexivity. Qed.
Example unique_taken :
  get_unique_filename {["downloads/app.js" := "x"]} "downloads" "app.js" = "app_1.js".
Proof. vm_compute. reflexivity. Qed.
Example unique_taken_twice :
  get_unique_filename {["downloads/app.js" := "x"; "downloads/app_1.js" := "y"]}
    "downloads" "app.js" = "app_2.js".
Proof. vm_compute. reflexivity. Qed.

(** ** Lemmas on the string primitives *)

Section StringLemmas.

Implicit Types (c a : ascii) (s b t p : string).

Lemma append_cons a s t : String a s +:+ t = String a (s +:+ t).
Proof. reflexivity. Qed.

Lemma append_nil_l s : "" +:+ s = s.
Proof. reflexivity. Qed.

Lemma append_nil_r s : s +:+ "" = s.
Proof. induction s as [|a s IH]; [reflexivity|]. by rewrite append_cons, IH. Qed.

Lemma append_assoc s t p : (s +:+ t) +:+ p = s +:+ (t +:+ p).
Proof. induction s as [|a s IH]; [reflexivity|]. by rewrite !append_cons, IH. Qed.

Lemma len_append s t : Str.len (s +:+ t) = (Str.len s + Str.len t)%nat.
Proof. induction s as [|a s IH]; [reflexivity|]. rewrite append_cons. cbn. by rewrite IH. Qed.

(** Cancellation of a common suffix. *)
Lemma append_inj_r s t p : s +:+ p = t +:+ p → s = t.
Proof.
  revert t. induction s as [|a s IH]; intros [|a' t] H;
    rewrite ?append_cons, ?append_nil_l in H.
  - reflexivity.
  - apply (f_equal Str.len) in H. cbn in H. rewrite len_append in H. lia.
  - apply (f_equal Str.len) in H. cbn in H. rewrite len_append in H. lia.
  - injection H as -> H. f_equal. by apply IH.
Qed.

Lemma rpartition_None c s : Str.rpartition c s = None ↔ Str.contains c s = false.
Proof.
  induction s as [|a s IH]; cbn; [done|].
  destruct (Str.rpartition c s) as [[b t]|].
  - split; [done|]. intros [_ H]%orb_false_iff. apply IH in H. done.
  - destruct IH as [IH _]. rewrite (IH eq_refl), orb_false_r.
    case_bool_decide; done.
Qed.

Lemma rpartition_Some c s b t :
  Str.rpartition c s = Some (b, t) → s = b +:+ String c t ∧ Str.contains c t = false.
Proof.
  revert b. induction s as [|a s IH]; intros b; cbn; [done|].
  destruct (Str.rpartition c s) as [[b' t']|] eqn:E.
  - intros [= <- <-]. destruct (IH b' eq_refl) as [-> H]. done.
  - case_bool_decide as Ha; [|done]. intros [= <- <-]. subst a.
    split; [reflexivity|]. by apply rpartition_None.
Qed.

(** The last [c] of [b ++ c ++ t] is the one shown when [t] has none. *)
Lemma rpartition_append c b t :
  Str.contains c t = false → Str.rpartition c (b +:+ String c t) = Some (b, t).
Proof.
  intros Ht. induction b as [|a b IH]; rewrite ?append_cons, ?append_nil_l; cbn.
  - apply rpartition_None in Ht. rewrite Ht. by rewrite bool_decide_eq_true_2.
  - by rewrite IH.
Qed.

Lemma contains_append c s t :
  Str.contains c (s +:+ t) = Str.contains c s || Str.contains c t.
Proof.
  induction s as [|a s IH]; [reflexivity|].
  rewrite append_cons. cbn. by rewrite IH, orb_assoc.
Qed.


(** [os.path.splitext] on a name without directory part. *)
Lemma splitext_plain s :
  Str.contains "/" s = false →
  os_path_splitext s =
    match Str.rpartition "." s with
    | Some (stem, e) => if all_dots stem then (s, "") else (stem, String "." e)
    | None => (s, "")
    end.
Proof.
  intros H%rpartition_None. unfold os_path_splitext. rewrite H.
  destruct (Str.rpartition "." s) as [[stem e]|]; [|done].
  by destruct (all_dots stem).
Qed.

Lemma splitext_append p :
  (os_path_splitext p).1 +:+ (os_path_splitext p).2 = p.
Proof.
  unfold os_path_splitext.
  destruct (Str.rpartition "/" p) as [[h n]|] eqn:Es.
  - apply rpartition_Some in Es as [-> _].
    destruct (Str.rpartition "." n) as [[stem e]|] eqn:Ed; cbn.
    + destruct (all_dots stem); cbn; [apply append_nil_r|].
      apply rpartition_Some in Ed as [-> _].
      rewrite !append_assoc. reflexivity.
    + apply append_nil_r.
  - destruct (Str.rpartition "." p) as [[stem e]|] eqn:Ed; cbn.
    + destruct (all_dots stem); cbn; [apply append_nil_r|].
      by apply rpartition_Some in Ed as [-> _].
    + apply append_nil_r.
Qed.

Lemma lstrip_no_dot t : Str.contains "." t = false → Str.lstrip "." t = t.
Proof.
  destruct t as [|a t]; [done|]. cbn. intros [Ha%bool_decide_eq_false _]%orb_false_iff.
  by rewrite bool_decide_eq_false_2.
Qed.

(** The extension as the filter reads it: [("." + e).lower().lstrip(".")]
    is [e.lower()] when [e] holds no dot. *)
Lemma lstrip_lower_dot env e :
  Str.contains "." e = false →
  Str.lstrip "." (str_lower env (String "." e)) = str_lower env e.
Proof.
  intros He. rewrite str_lower_dot.
  change (Str.lstrip "." (String "." (str_lower env e))) with (Str.lstrip "." (str_lower env e)).
  by apply lstrip_no_dot, str_lower_no_dot.
Qed.

Lemma of_Z_inj (m n : Z) : Str.of_Z m = Str.of_Z n → m = n.
Proof.
  unfold Str.of_Z. intros H. apply DecimalZ.to_int_inj.
  apply (f_equal NilEmpty.int_of_string) in H.
  rewrite !NilEmpty.isi in H. congruence.
Qed.

End StringLemmas.

(** ** [get_unique_filename] ends and returns a free name *)

Section UniqueFilename.

Variables (fs : gmap string string) (output_dir base ext : string).

Local Abbreviation path_of name := (os_path_join output_dir name).
Local Abbreviation loop fuel := (unique_loop fuel fs output_dir base ext).

Lemma numbered_inj i j : numbered base ext i = numbered base ext j → i = j.
Proof.
  unfold numbered. intros H%String.app_inj. rewrite !append_cons, !append_nil_l in H.
  injection H as H%append_inj_r. by apply of_Z_inj.
Qed.

Lemma numbered_startswith_slash i j :
  Str.startswith "/" (numbered base ext i) = Str.startswith "/" (numbered base ext j).
Proof. unfold numbered. by destruct base. Qed.

Lemma join_numbered_inj i j :
  path_of (numbered base ext i) = path_of (numbered base ext j) → i = j.
Proof.
  unfold os_path_join. rewrite (numbered_startswith_slash i j).
  destruct (Str.startswith "/" (numbered base ext j)); [apply numbered_inj|].
  destruct (_ || _).
  - intros H%String.app_inj. by apply numbered_inj.
  - intros H%String.app_inj. rewrite !append_cons, !append_nil_l in H.
    injection H as H. by apply numbered_inj.
Qed.

(** A loop that runs out of fuel has found every name it tried. *)
Lemma unique_loop_None fuel counter u :
  loop fuel counter u = None →
  ((0 < fuel)%nat → os_path_exists fs (path_of u) = true) ∧
  ∀ j, counter ≤ j < counter + Z.of_nat fuel - 1 →
       os_path_exists fs (path_of (numbered base ext j)) = true.
Proof.
  revert counter u. induction fuel as [|fuel IH]; intros counter u; cbn.
  - intros _. split; [lia|]. intros j Hj. lia.
  - destruct (os_path_exists fs (path_of u)) eqn:Eu; [|done].
    intros H. apply IH in H as [Hc Hrest]. split; [done|].
    intros j Hj. destruct (decide (j = counter)) as [->|Hne].
    + apply Hc. lia.
    + apply Hrest. lia.
Qed.

(** What a loop that ends returns: a name that does not exist, which is
    the current one or the first free numbered one. *)
Lemma unique_loop_Some fuel counter u r :
  loop fuel counter u = Some r →
  os_path_exists fs (path_of r) = false ∧
  (r = u ∨
   os_path_exists fs (path_of u) = true ∧
   ∃ k, counter ≤ k ∧ r = numbered base ext k ∧
        ∀ j, counter ≤ j < k → os_path_exists fs (path_of (numbered base ext j)) = true).
Proof.
  revert counter u. induction fuel as [|fuel IH]; intros counter u; cbn; [done|].
  destruct (os_path_exists fs (path_of u)) eqn:Eu.
  - intros H. apply IH in H as [Hfree Hr]. split; [done|]. right. split; [done|].
    destruct Hr as [->|(Hc & k & Hk & -> & Hbelow)].
    + exists counter. split; [lia|]. split; [done|]. intros j Hj. lia.
    + exists k. split; [lia|]. split; [done|]. intros j Hj.
      destruct (decide (j = counter)) as [->|Hne]; [done|]. apply Hbelow. lia.
  - intros [= <-]. split; [done|]. by left.
Qed.

(** Two more passes than there are files are enough. *)
Lemma unique_loop_total u :
  is_Some (loop (S (S (size fs))) 1 u).
Proof.
  destruct (loop (S (S (size fs))) 1 u) as [r|] eqn:E; [by eexists|].
  exfalso. apply unique_loop_None in E as [_ Hall].
  set (names := (λ j, path_of (numbered base ext j)) <$> seqZ 1 (Z.of_nat (S (size fs)))).
  assert (NoDup names) as Hnd.
  { apply NoDup_fmap_2; [|apply NoDup_seqZ]. intros i j. apply join_numbered_inj. }
  assert (list_to_set names ⊆ dom fs) as Hsub.
  { intros x [j [-> Hj%elem_of_seqZ]]%elem_of_list_to_set%list_elem_of_fmap.
    apply elem_of_dom. specialize (Hall j).
    unfold os_path_exists in Hall. eapply bool_decide_eq_true_1, Hall. lia. }
  apply subseteq_size in Hsub.
  rewrite size_list_to_set, size_dom in Hsub by done.
  unfold names in Hsub. rewrite length_fmap, length_seqZ in Hsub. lia.
Qed.

End UniqueFilename.

Lemma get_unique_filename_loop fs output_dir base_filename :
  unique_loop (S (S (size fs))) fs output_dir
    (os_path_splitext base_filename).1 (os_path_splitext base_filename).2 1 base_filename
  = Some (get_unique_filename fs output_dir base_filename).
Proof.
  unfold get_unique_filename. destruct (os_path_splitext base_filename) as [base ext]; cbn [fst snd].
  destruct (unique_loop_total fs output_dir base ext base_filename) as [r ->]. done.
Qed.

(** The name returned does not exist in the directory. *)
Lemma get_unique_filename_fresh fs output_dir base_filename :
  os_path_exists fs (os_path_join output_dir (get_unique_filename fs output_dir base_filename)) = false.
Proof.
  pose proof (get_unique_filename_loop fs output_dir base_filename) as H.
  by apply unique_loop_Some in H as [? _].
Qed.

(** A free base name is returned as it is. *)
Lemma get_unique_filename_free fs output_dir base_filename :
  os_path_exists fs (os_path_join output_dir base_filename) = false →
  get_unique_filename fs output_dir base_filename = base_filename.
Proof.
  intros Hfree. pose proof (get_unique_filename_loop fs output_dir base_filename) as H.
  cbn in H. rewrite Hfree in H. congruence.
Qed.

(** A taken base name gives the first free numbered name. *)
Lemma get_unique_filename_taken fs output_dir base_filename :
  os_path_exists fs (os_path_join output_dir base_filename) = true →
  ∃ k, 1 ≤ k ∧
    get_unique_filename fs output_dir base_filename
      = numbered (os_path_splitext base_filename).1 (os_path_splitext base_filename).2 k ∧
    ∀ j, 1 ≤ j < k →
      os_path_exists fs (os_path_join output_dir
        (numbered (os_path_splitext base_filename).1 (os_path_splitext base_filename).2 j)) = true.
Proof.
  intros Htaken. pose proof (get_unique_filename_loop fs output_dir base_filename) as H.
  apply unique_loop_Some in H as [Hfree [Heq|(_ & k & Hk & Hr & Hbelow)]].
  - rewrite Heq in Hfree. congruence.
  - by exists k.
Qed.

Lemma get_unique_filename_first fs output_dir base_filename :
  os_path_exists fs (os_path_join output_dir base_filename) = true →
  os_path_exists fs (os_path_join output_dir
    (numbered (os_path_splitext base_filename).1 (os_path_splitext base_filename).2 1)) = false →
  get_unique_filename fs output_dir base_filename
    = numbered (os_path_splitext base_filename).1 (os_path_splitext base_filename).2 1.
Proof.
  intros Htaken Hfree. pose proof (get_unique_filename_loop fs output_dir base_filename) as H.
  cbn in H. rewrite Htaken, Hfree in H. congruence.
Qed.

(** [os.path.splitext] on a name of the shape [name.ext]. *)
Lemma splitext_name_ext name e :
  Str.contains "." e = false → Str.contains "/" e = false →
  all_dots (os_path_basename name) = false →
  os_path_splitext (name +:+ String "." e) = (name, String "." e).
Proof.
  intros Hdot Hslash Hname. unfold os_path_splitext, os_path_basename in *.
  destruct (Str.rpartition "/" name) as [[h n]|] eqn:Es.
  - apply rpartition_Some in Es as [-> Hn].
    rewrite append_assoc, append_cons.
    rewrite rpartition_append by (by rewrite contains_append, Hn; cbn; rewrite Hslash).
    rewrite rpartition_append by done. rewrite Hname.
    by rewrite append_assoc.
  - apply rpartition_None in Es.
    assert (Str.rpartition "/" (name +:+ String "." e) = None) as ->.
    { apply rpartition_None. by rewrite contains_append, Es; cbn; rewrite Hslash. }
    rewrite rpartition_append by done. by rewrite Hname.
Qed.

(** ** The scenarios, evaluated *)

Example demo_paths :
  Demo.url_path "http://example.com/static/js/app.js?v=3#top" = "/static/js/app.js"
  ∧ Demo.url_path "http://example.com/static/" = "/static/"
  ∧ Demo.url_path "http://example.com" = "".
Proof. done. Qed.

Example download_success :
  (download_file Demo.env "http://example.com/a.js" ∅ Demo.plain Demo.w0).1
  = PyTuple "[✓] a.js                           → 200 (500.0 B)  (http://example.com/a.js)" 200 500.
Proof. vm_compute. reflexivity. Qed.

Example download_failure :
  (download_file Demo.env "http://example.com/b.js" ∅ Demo.plain Demo.w0).1
  = PyStr "[✗] Failed to download http://example.com/b.js after 3 attempt(s): Read timed out. (read timeout=15)".
Proof. vm_compute. reflexivity. Qed.

Example download_no_filename :
  (download_file Demo.env "http://example.com/" ∅ Demo.plain Demo.w0).1
  = PyStr "[!] Skipped (no filename): http://example.com/".
Proof. vm_compute. reflexivity. Qed.

Example download_twice :
  let '(_, w1) := download_file Demo.env "http://example.com/a.js" ∅ Demo.plain Demo.w0 in
  let '(_, w2) := download_file Demo.env "http://example.com/a.js" ∅ Demo.plain w1 in
  dom (fs w2) = {["downloads/a.js"; "downloads/a_1.js"]}.
Proof. vm_compute. reflexivity. Qed.

Example parse_size_zero :
  parse_size Demo.env (Some "0") = inr (Some 0)
  ∧ parse_size Demo.env (Some "10kb") = inr (Some 10240)
  ∧ parse_size Demo.env (Some "") = inr None
  ∧ parse_size Demo.env None = inr None.
Proof. vm_compute. done. Qed.

(** ** The extension filter *)

Lemma splitext_no_dot p :
  Str.contains "." p = false → os_path_splitext p = (p, "").
Proof.
  intros Hp. unfold os_path_splitext.
  destruct (Str.rpartition "/" p) as [[h n]|] eqn:Es.
  - apply rpartition_Some in Es as [E _]. rewrite E in Hp.
    rewrite contains_append in Hp. apply orb_false_iff in Hp as [_ Hn]. cbn in Hn.
    apply rpartition_None in Hn. by rewrite Hn.
  - apply rpartition_None in Hp. by rewrite Hp.
Qed.


(** Where the two readings of the extension agree: some character other
    than a dot precedes the last dot. *)
Lemma splitext_extension_claimed env filename stem e :
  Str.rpartition "." filename = Some (stem, e) → all_dots stem = false →
  splitext_extension env filename = claimed_extension env filename.
Proof. unfold splitext_extension, claimed_extension. by intros -> ->. Qed.

Lemma not_wildcard (S : gset string) other :
  other ∈ S → other ≠ "*" → S ≠ {["*"]}.
Proof. intros Hin Hne ->. by apply elem_of_singleton in Hin. Qed.

Lemma allowed_extension_not_wildcard env filename (S : gset string) :
  S ≠ {["*"]} →
  allowed_extension env filename S = bool_decide (file_extension env filename ∈ S).
Proof. intros H. unfold allowed_extension. by rewrite bool_decide_eq_false_2. Qed.

(** C9: the wildcard is the singleton set and nothing else.  The set
    [{"*"}] allows every filename; a set that holds ["*"] and another entry
    filters by plain membership of the extension, and there a filename
    without a dot has the extension [""] and is allowed exactly when [""]
    is in the set. *)
Theorem wildcard_only_singleton env (S : gset string) (other filename : string) :
  "*" ∈ S → other ∈ S → other ≠ "*" →
  allowed_extension env filename {["*"]} = true
  ∧ allowed_extension env filename S = bool_decide (file_extension env filename ∈ S)
  ∧ (Str.contains "." filename = false →
     file_extension env filename = ""
     ∧ (allowed_extension env filename S = true ↔ "" ∈ S)).
Proof.
  intros _ Hother Hne. pose proof (not_wildcard S other Hother Hne) as HS.
  split; [|split].
  - unfold allowed_extension. by rewrite bool_decide_eq_true_2.
  - by apply allowed_extension_not_wildcard.
  - intros Hdot. assert (file_extension env filename = "") as Hext.
    { unfold file_extension. rewrite splitext_no_dot by done. cbn [snd].
      by rewrite str_lower_empty. }
    split; [done|]. rewrite allowed_extension_not_wildcard, Hext by done.
    apply bool_decide_eq_true.
Qed.

Lemma wildcard_only_singleton_witness :
  allowed_extension Demo.env "README" {["*"]} = true
  ∧ allowed_extension Demo.env "README" Demo.star_js
    = bool_decide (file_extension Demo.env "README" ∈ Demo.star_js)
  ∧ (Str.contains "." "README" = false →
     file_extension Demo.env "README" = ""
     ∧ (allowed_extension Demo.env "README" Demo.star_js = true ↔ "" ∈ Demo.star_js)).
Proof.
  apply (wildcard_only_singleton Demo.env Demo.star_js "js" "README").
  - apply (bool_decide_unpack _). vm_compute. exact I.
  - apply (bool_decide_unpack _). vm_compute. exact I.
  - discriminate.
Defined.

(** ** One attempt of [download_file] *)

Lemma too_small_spec lo S :
  too_small (Some lo) S = true ↔ lo ≠ 0 ∧ S < lo.
Proof.
  unfold too_small. rewrite andb_true_iff, negb_true_iff, Z.eqb_neq, Z.ltb_lt. done.
Qed.

Lemma too_large_spec hi S :
  too_large (Some hi) S = true ↔ hi ≠ 0 ∧ hi < S.
Proof.
  unfold too_large. rewrite andb_true_iff, negb_true_iff, Z.eqb_neq, Z.ltb_lt. done.
Qed.

(** An attempt that returns ends the loop, whatever its number. *)
Lemma attempts_returns env url headers p w v headers' w' n attempt :
  attempt_body env url headers p w = (Return v, headers', w') →
  attempts (S n) attempt env url headers p w = (v, w').
Proof. intros Hbody. cbn [attempts]. by rewrite Hbody. Qed.

(** The first attempt that returns ends the task. *)
Lemma download_file_returns env url headers p w v headers' w' :
  1 ≤ retries p →
  attempt_body env url headers p w = (Return v, headers', w') →
  download_file env url headers p w = (v, w').
Proof.
  intros Hr Hbody. unfold download_file.
  destruct (Z.to_nat (retries p)) as [|n] eqn:En; [lia|].
  by apply attempts_returns with headers'.
Qed.


(** Case analysis on one attempt whose request got the response [H]. *)
Ltac open_attempt H :=
  unfold attempt_body, attempt_response in *;
  destruct (pick_user_agent _ _ _ _) as [? ?];
  rewrite H.

Lemma attempt_too_small env url headers p w status content :
  attempt_response env url headers p w = Response status content →
  too_small (min_size p) (Z.of_nat (Str.len content)) = true →
  ∃ headers' w',
    attempt_body env url headers p w
    = (Return (PyStr ("[!] Skipped (too small < " +:+ format_size (default 0 (min_size p))
                      +:+ "): " +:+ url)), headers', w').
Proof. intros H Hs. open_attempt H. rewrite Hs. by eexists _, _. Qed.

Lemma attempt_too_large env url headers p w status content :
  attempt_response env url headers p w = Response status content →
  too_small (min_size p) (Z.of_nat (Str.len content)) = false →
  too_large (max_size p) (Z.of_nat (Str.len content)) = true →
  ∃ headers' w',
    attempt_body env url headers p w
    = (Return (PyStr ("[!] Skipped (too large > " +:+ format_size (default 0 (max_size p))
                      +:+ "): " +:+ url)), headers', w').
Proof. intros H Hs Hl. open_attempt H. rewrite Hs, Hl. by eexists _, _. Qed.



(** Past the size checks no attempt ends with a skip for size. *)
Lemma attempt_past_size env url headers p w status content :
  attempt_response env url headers p w = Response status content →
  too_small (min_size p) (Z.of_nat (Str.len content)) = false →
  too_large (max_size p) (Z.of_nat (Str.len content)) = false →
  size_skip (attempt_body env url headers p w).1.1 = false.
Proof.
  intros H Hs Hl. open_attempt H. rewrite Hs, Hl.
  destruct (urlparse_path env url) as [e|path]; [done|].
  case_bool_decide; [done|].
  destruct (allowed_extension _ _ _); [|done]. cbn [negb].
  destruct (os_makedirs env _); [done|].
  destruct (open_error env _); [done|].
  by destruct (write_error env _ _) as [[e partial]|].
Qed.


(** The state of a task after a first request that was dropped: one
    request sent, two seconds slept. *)
Example after_a_dropped_request :
  attempt_body Scene.flaky "http://example.com/static/" ∅ Demo.plain Demo.w0
  = (Raise "Connection reset by peer", ∅,
     record_request "http://example.com/static/" ∅ Demo.w0).
Proof. reflexivity. Qed.


(** A task whose first request is dropped and whose second is answered:
    two requests, one sleep of two seconds, and the skip. *)
Example no_filename_skip_on_retry :
  let r := download_file Scene.flaky "http://example.com/static/" ∅ Demo.plain Demo.w0 in
  r.1 = PyStr "[!] Skipped (no filename): http://example.com/static/"
  ∧ length (sent r.2) = 2%nat ∧ slept r.2 = [2].
Proof. vm_compute. done. Qed.

(** A path that ends in a slash has no final segment. *)
Lemma basename_trailing_slash p : os_path_basename (p +:+ "/") = "".
Proof. unfold os_path_basename. by rewrite rpartition_append. Qed.




(** Upper case in the extension of the filename makes no difference, and a
    skip on the second attempt is a skip all the same. *)
Example disallowed_extension_upper_case :
  (download_file Demo.env "http://example.com/a.JS" ∅
     (Demo.with_types Demo.css_or_none Demo.plain) Demo.w0).1
  = PyStr "[!] Skipped (not allowed type): http://example.com/a.JS"
  ∧ (download_file Scene.flaky "http://example.com/a.js" ∅
       (Demo.with_types Demo.css_or_none Demo.plain) Demo.w0).1
    = PyStr "[!] Skipped (not allowed type): http://example.com/a.js".
Proof. vm_compute. done. Qed.


(** ** Size bounds *)

Lemma size_skip_too_small url size_str :
  skipped_for_size (PyStr ("[!] Skipped (too small < " +:+ size_str +:+ "): " +:+ url)) = true.
Proof. reflexivity. Qed.

Lemma size_skip_too_large url size_str :
  skipped_for_size (PyStr ("[!] Skipped (too large > " +:+ size_str +:+ "): " +:+ url)) = true.
Proof. reflexivity. Qed.

(** Without bounds the attempt is the one that goes on past the checks. *)
Lemma attempt_unbounded env url headers p w status content :
  attempt_response env url headers p w = Response status content →
  too_small (min_size p) (Z.of_nat (Str.len content)) = false →
  too_large (max_size p) (Z.of_nat (Str.len content)) = false →
  attempt_body env url headers p w
  = attempt_body env url headers (with_min_size None (with_max_size None p)) w.
Proof.
  intros H Hs Hl. unfold attempt_body, attempt_response in *. cbn.
  destruct (pick_user_agent _ _ _ _) as [h' w']. rewrite H, Hs, Hl. reflexivity.
Qed.

(** C4 (amended): for configured bounds [lo] and [hi] and a response whose
    body has [S] bytes, the attempt ends with a skip for size exactly when
    [S < lo], or [hi] is not 0 and [S > hi]: a maximum of 0 switches the
    upper check off.  With [lo <= hi] a body of exactly [lo] or [hi] bytes is
    not skipped, and an attempt that is not skipped for size goes on as if
    no bound were configured, to the filename and extension checks.  A skip
    for size ends the task. *)
Theorem size_bounds_skip env url headers p w status content lo hi :
  min_size p = Some lo → max_size p = Some hi →
  attempt_response env url headers p w = Response status content →
  (size_skip (attempt_body env url headers p w).1.1 = true
     ↔ Z.of_nat (Str.len content) < lo ∨ (hi ≠ 0 ∧ hi < Z.of_nat (Str.len content)))
  ∧ (lo ≤ hi → Z.of_nat (Str.len content) = lo ∨ Z.of_nat (Str.len content) = hi →
     size_skip (attempt_body env url headers p w).1.1 = false)
  ∧ (size_skip (attempt_body env url headers p w).1.1 = false →
     attempt_body env url headers p w
     = attempt_body env url headers (with_min_size None (with_max_size None p)) w)
  ∧ (1 ≤ retries p →
     size_skip (attempt_body env url headers p w).1.1 = true →
     skipped_for_size (download_file env url headers p w).1 = true).
Proof.
  intros Hlo Hhi H.
  set (S := Z.of_nat (Str.len content)). assert (0 ≤ S) as HS by (unfold S; lia).
  assert (size_skip (attempt_body env url headers p w).1.1
          = too_small (Some lo) S || too_large (Some hi) S) as Hskip.
  { destruct (too_small (Some lo) S) eqn:Es.
    - rewrite <- Hlo in Es.
      destruct (attempt_too_small _ _ _ _ _ _ _ H Es) as (h' & w' & ->). reflexivity.
    - rewrite <- Hlo in Es. destruct (too_large (Some hi) S) eqn:El; rewrite <- Hhi in El.
      + destruct (attempt_too_large _ _ _ _ _ _ _ H Es El) as (h' & w' & ->). reflexivity.
      + by apply attempt_past_size with status content. }
  assert (size_skip (attempt_body env url headers p w).1.1 = true
          ↔ S < lo ∨ (hi ≠ 0 ∧ hi < S)) as Hiff.
  { rewrite Hskip, orb_true_iff, too_small_spec, too_large_spec. split.
    - intros [[_ ?]|?]; [by left|by right].
    - intros [?|?]; [left; lia|by right]. }
  split; [done|]. split; [|split].
  - intros Hle HS'. apply not_true_is_false. intros E.
    apply Hiff in E. lia.
  - rewrite Hskip. intros [Es El]%orb_false_iff.
    apply attempt_unbounded with status content; [done|by rewrite Hlo|by rewrite Hhi].
  - intros Hr Hsk.
    destruct (attempt_body env url headers p w) as [[[v|e] h'] w'] eqn:Hbody; [|done].
    by rewrite (download_file_returns _ _ _ _ _ _ _ _ Hr Hbody).
Qed.

Lemma size_bounds_skip_witness :
  (size_skip (attempt_body Demo.env "http://example.com/a.js" ∅
                (with_min_size (Some 500) (with_max_size (Some 2048) Demo.plain)) Demo.w0).1.1 = true
     ↔ Z.of_nat (Str.len (Demo.blob 500)) < 500
       ∨ (2048 ≠ 0 ∧ 2048 < Z.of_nat (Str.len (Demo.blob 500))))
  ∧ (500 ≤ 2048 →
     Z.of_nat (Str.len (Demo.blob 500)) = 500 ∨ Z.of_nat (Str.len (Demo.blob 500)) = 2048 →
     size_skip (attempt_body Demo.env "http://example.com/a.js" ∅
                  (with_min_size (Some 500) (with_max_size (Some 2048) Demo.plain)) Demo.w0).1.1 = false)
  ∧ (size_skip (attempt_body Demo.env "http://example.com/a.js" ∅
                  (with_min_size (Some 500) (with_max_size (Some 2048) Demo.plain)) Demo.w0).1.1 = false →
     attempt_body Demo.env "http://example.com/a.js" ∅
       (with_min_size (Some 500) (with_max_size (Some 2048) Demo.plain)) Demo.w0
     = attempt_body Demo.env "http://example.com/a.js" ∅
         (with_min_size None (with_max_size None
            (with_min_size (Some 500) (with_max_size (Some 2048) Demo.plain)))) Demo.w0)
  ∧ (1 ≤ retries (with_min_size (Some 500) (with_max_size (Some 2048) Demo.plain)) →
     size_skip (attempt_body Demo.env "http://example.com/a.js" ∅
                  (with_min_size (Some 500) (with_max_size (Some 2048) Demo.plain)) Demo.w0).1.1 = true →
     skipped_for_size (download_file Demo.env "http://example.com/a.js" ∅
                         (with_min_size (Some 500) (with_max_size (Some 2048) Demo.plain)) Demo.w0).1 = true).
Proof.
  apply (size_bounds_skip Demo.env "http://example.com/a.js" ∅
           (with_min_size (Some 500) (with_max_size (Some 2048) Demo.plain)) Demo.w0
           200 (Demo.blob 500) 500 2048); reflexivity.
Defined.

(** C4 as stated fails for a maximum of 0: the 500-byte body is larger
    than the bound, yet the attempt is not skipped for size and the file is
    saved. *)
Lemma size_bounds_skip_counterexample :
  attempt_response Demo.env "http://example.com/a.js" ∅
    (with_min_size (Some 10) (with_max_size (Some 0) Demo.plain)) Demo.w0
  = Response 200 (Demo.blob 500)
  ∧ 0 < Z.of_nat (Str.len (Demo.blob 500))
  ∧ size_skip (attempt_body Demo.env "http://example.com/a.js" ∅
                 (with_min_size (Some 10) (with_max_size (Some 0) Demo.plain)) Demo.w0).1.1 = false
  ∧ (download_file Demo.env "http://example.com/a.js" ∅
       (with_min_size (Some 10) (with_max_size (Some 0) Demo.plain)) Demo.w0).1
    = PyTuple "[✓] a.js                           → 200 (500.0 B)  (http://example.com/a.js)" 200 500.
Proof. vm_compute. done. Qed.

(** ** The retry loop *)

Section Attempts.

Variables (env : Env) (url : string).

(** Two policies with the same retry count and the same attempts give the
    same task. *)
Lemma attempts_ext p1 p2 :
  retries p1 = retries p2 →
  (∀ headers w, attempt_body env url headers p1 w = attempt_body env url headers p2 w) →
  ∀ n attempt headers w,
    attempts n attempt env url headers p1 w = attempts n attempt env url headers p2 w.
Proof.
  intros Hr Hbody n. induction n as [|n IH]; intros attempt headers w; cbn; [done|].
  rewrite Hbody, Hr.
  destruct (attempt_body env url headers p2 w) as [[[v|e] h'] w']; [done|].
  destruct (attempt <? retries p2); [apply IH|done].
Qed.

(** A property of every value the task can return. *)
Lemma attempts_invariant (P : py_value → Prop) p :
  P PyNone →
  (∀ e, P (PyStr ("[✗] Failed to download " +:+ url +:+ " after "
                  +:+ Str.of_Z (retries p) +:+ " attempt(s): " +:+ e))) →
  (∀ headers w v headers' w',
     attempt_body env url headers p w = (Return v, headers', w') → P v) →
  ∀ n attempt headers w, P (attempts n attempt env url headers p w).1.
Proof.
  intros Hnone Hfail Hret n. induction n as [|n IH]; intros attempt headers w; cbn; [done|].
  destruct (attempt_body env url headers p w) as [[[v|e] h'] w'] eqn:Hbody.
  - by eapply Hret.
  - destruct (attempt <? retries p); [apply IH|apply Hfail].
Qed.

(** The requests made so far are counted by [sent]; choosing a user agent
    leaves the count alone. *)
Lemma pick_user_agent_sent mode headers w :
  sent (pick_user_agent env mode headers w).2 = sent w.
Proof. by destruct mode. Qed.

(** An attempt whose request raises. *)
Lemma attempt_raises p headers w e :
  attempt_response env url headers p w = RequestException e →
  ∃ headers' w',
    attempt_body env url headers p w = (Raise e, headers', w')
    ∧ length (sent w') = S (length (sent w))
    ∧ slept w' = slept w ∧ fs w' = fs w.
Proof.
  intros H. pose proof (pick_user_agent_sent (random_ua p) headers w) as Hsent.
  unfold attempt_body, attempt_response in *.
  destruct (pick_user_agent env (random_ua p) headers w) as [h' w'] eqn:Hpick.
  rewrite H. eexists _, _. split; [done|]. cbn in *.
  rewrite length_app, Hsent. cbn. split; [lia|].
  by destruct (random_ua p); injection Hpick as <- <-.
Qed.

(** The loop when every request raises: [n] attempts are left, numbered
    from [attempt] to [retries]. *)
Lemma attempts_all_raise p (err : nat → string) :
  (∀ headers n, requests_get env url headers (proxies p) n = RequestException (err n)) →
  ∀ n attempt headers w,
    attempt + Z.of_nat n = retries p →
    let '(v, w') := attempts (S n) attempt env url headers p w in
    v = PyStr ("[✗] Failed to download " +:+ url +:+ " after "
               +:+ Str.of_Z (retries p) +:+ " attempt(s): " +:+ err (length (sent w) + n)%nat)
    ∧ length (sent w') = (length (sent w) + S n)%nat
    ∧ slept w' = slept w ++ ((λ a, 2 ^ a) <$> seqZ attempt (Z.of_nat n))
    ∧ fs w' = fs w.
Proof.
  intros Herr n. induction n as [|n IH]; intros attempt headers w Hn.
  - assert (attempt_response env url headers p w = RequestException (err (length (sent w)))) as H.
    { unfold attempt_response.
      pose proof (pick_user_agent_sent (random_ua p) headers w) as Hsent.
      destruct (pick_user_agent _ _ _ _) as [h' w']. cbn in Hsent. by rewrite Herr, Hsent. }
    apply attempt_raises in H as (h' & w' & Hbody & Hlen & Hslept & Hfs).
    cbn. rewrite Hbody.
    assert ((attempt <? retries p) = false) as -> by (apply Z.ltb_ge; lia).
    rewrite Nat.add_0_r, Hlen, Hslept, app_nil_r. repeat split; [lia|done].
  - assert (attempt_response env url headers p w = RequestException (err (length (sent w)))) as H.
    { unfold attempt_response.
      pose proof (pick_user_agent_sent (random_ua p) headers w) as Hsent.
      destruct (pick_user_agent _ _ _ _) as [h' w']. cbn in Hsent. by rewrite Herr, Hsent. }
    apply attempt_raises in H as (h' & w' & Hbody & Hlen & Hslept & Hfs).
    change (attempts (S (S n)) attempt env url headers p w)
      with (match attempt_body env url headers p w with
            | (Return v, _, w) => (v, w)
            | (Raise e, headers, w) =>
                if attempt <? retries p then
                  attempts (S n) (attempt + 1) env url headers p (time_sleep (2 ^ attempt) w)
                else
                  (PyStr ("[✗] Failed to download " +:+ url +:+ " after "
                          +:+ Str.of_Z (retries p) +:+ " attempt(s): " +:+ e), w)
            end).
    rewrite Hbody.
    assert ((attempt <? retries p) = true) as -> by (apply Z.ltb_lt; lia).
    specialize (IH (attempt + 1) h' (time_sleep (2 ^ attempt) w')).
    destruct (attempts (S n) (attempt + 1) env url h' p (time_sleep (2 ^ attempt) w')) as [v w''].
    destruct IH as (-> & Hlen' & Hslept' & Hfs'); [lia|]. cbn in *.
    rewrite Hlen', Hslept', Hlen, Hslept, Hfs', Hfs.
    replace (S (length (sent w)) + n)%nat with (length (sent w) + S n)%nat by lia.
    split; [done|]. split; [lia|]. split; [|done].
    rewrite (seqZ_cons attempt) by lia. cbn.
    rewrite <- app_assoc. cbn.
    replace (Z.pred (Z.of_nat (S n))) with (Z.of_nat n) by lia.
    by replace (Z.succ attempt) with (attempt + 1) by lia.
Qed.

End Attempts.

(** The sleeps add up to [2^1 + ... + 2^(r-1) = 2^r - 2]. *)
Lemma total_powers n k :
  0 ≤ k → total ((λ a, 2 ^ a) <$> seqZ k (Z.of_nat n)) = 2 ^ (k + Z.of_nat n) - 2 ^ k.
Proof.
  revert k. induction n as [|n IH]; intros k Hk.
  - rewrite seqZ_nil by lia. rewrite Z.add_0_r. unfold total. cbn [fmap list_fmap foldr]. lia.
  - rewrite seqZ_cons by lia. cbn [fmap list_fmap total foldr].
    replace (Z.pred (Z.of_nat (S n))) with (Z.of_nat n) by lia.
    change (foldr Z.add 0 ((λ a, 2 ^ a) <$> seqZ (Z.succ k) (Z.of_nat n)))
      with (total ((λ a, 2 ^ a) <$> seqZ (Z.succ k) (Z.of_nat n))).
    rewrite IH by lia.
    replace (Z.succ k + Z.of_nat n) with (k + Z.of_nat (S n)) by lia.
    replace (Z.succ k) with (k + 1) by lia.
    rewrite (Z.pow_add_r 2 k 1) by lia. lia.
Qed.


(** C2: with a retry count [r >= 1], a task whose every request raises
    makes exactly [r] requests, sleeps [2^1, ..., 2^(r-1)] seconds between
    them ([2^r - 2] in total, nothing when [r = 1]) and returns the failure
    line with the URL, the count [r] and the text of the exception of the
    last request as it was raised. *)
Theorem retry_count_contract env url headers p w r (err : nat → string) :
  retries p = r → 1 ≤ r →
  (∀ headers n, requests_get env url headers (proxies p) n = RequestException (err n)) →
  length (sent (download_file env url headers p w).2) = (length (sent w) + Z.to_nat r)%nat
  ∧ slept (download_file env url headers p w).2 = slept w ++ backoff r
  ∧ total (backoff r) = 2 ^ r - 2
  ∧ (r = 1 → backoff r = [])
  ∧ (download_file env url headers p w).1
    = PyStr ("[✗] Failed to download " +:+ url +:+ " after " +:+ Str.of_Z r
             +:+ " attempt(s): " +:+ err (length (sent w) + Z.to_nat r - 1)%nat).
Proof.
  intros Hr Hpos Herr. unfold download_file.
  destruct (Z.to_nat (retries p)) as [|n] eqn:En; [lia|].
  pose proof (attempts_all_raise env url p err Herr n 1 headers w) as H.
  destruct (attempts (S n) 1 env url headers p w) as [v w'].
  destruct H as (-> & Hlen & Hslept & _); [lia|]. cbn [fst snd].
  rewrite Hlen, Hslept, <- Hr, En. unfold backoff.
  replace (retries p - 1) with (Z.of_nat n) by lia.
  split; [done|]. split; [done|]. split.
  { rewrite total_powers by lia. replace (1 + Z.of_nat n) with (retries p) by lia. lia. }
  split.
  { intros H1. replace n with 0%nat by lia. done. }
  by replace (length (sent w) + S n - 1)%nat with (length (sent w) + n)%nat by lia.
Qed.

Lemma retry_count_contract_witness :
  length (sent (download_file Demo.env "http://example.com/b.js" ∅ Demo.plain Demo.w0).2)
  = (length (sent Demo.w0) + Z.to_nat 3)%nat
  ∧ slept (download_file Demo.env "http://example.com/b.js" ∅ Demo.plain Demo.w0).2
    = slept Demo.w0 ++ backoff 3
  ∧ total (backoff 3) = 2 ^ 3 - 2
  ∧ (3 = 1 → backoff 3 = [])
  ∧ (download_file Demo.env "http://example.com/b.js" ∅ Demo.plain Demo.w0).1
    = PyStr ("[✗] Failed to download " +:+ "http://example.com/b.js" +:+ " after " +:+ Str.of_Z 3
             +:+ " attempt(s): "
             +:+ (λ _ : nat, "Read timed out. (read timeout=15)")
                   (length (sent Demo.w0) + Z.to_nat 3 - 1)%nat).
Proof.
  apply (retry_count_contract Demo.env "http://example.com/b.js" ∅ Demo.plain Demo.w0 3
           (λ _, "Read timed out. (read timeout=15)")).
  - reflexivity.
  - lia.
  - intros headers n. reflexivity.
Defined.

Example backoff_three : backoff 3 = [2; 4] ∧ backoff 1 = [].
Proof. done. Qed.

(** ** A bound of zero *)

Lemma attempt_body_max_zero env url headers p w :
  attempt_body env url headers (with_max_size (Some 0) p) w
  = attempt_body env url headers (with_max_size None p) w.
Proof. reflexivity. Qed.

Lemma attempt_body_min_zero env url headers p w :
  attempt_body env url headers (with_min_size (Some 0) p) w
  = attempt_body env url headers (with_min_size None p) w.
Proof. reflexivity. Qed.

Lemma attempt_never_too_large env url headers p w v headers' w' :
  max_size p = Some 0 →
  attempt_body env url headers p w = (Return v, headers', w') →
  skipped_too_large v = false.
Proof.
  intros Hmax. unfold attempt_body. rewrite Hmax.
  destruct (pick_user_agent _ _ _ _) as [h0 w0].
  destruct (requests_get _ _ _ _ _) as [status content|e]; [|done].
  destruct (too_small _ _); [by intros [= <- _ _]|]. cbn [too_large Z.eqb negb andb].
  destruct (urlparse_path env url) as [e|path]; [done|].
  case_bool_decide; [by intros [= <- _ _]|].
  destruct (allowed_extension _ _ _); [|by intros [= <- _ _]]. cbn [negb].
  destruct (os_makedirs env _); [done|].
  destruct (open_error env _); [done|].
  destruct (write_error env _ _) as [[e partial]|]; [done|]. by intros [= <- _ _].
Qed.

Lemma attempt_never_too_small env url headers p w v headers' w' :
  min_size p = Some 0 →
  attempt_body env url headers p w = (Return v, headers', w') →
  skipped_too_small v = false.
Proof.
  intros Hmin. unfold attempt_body. rewrite Hmin.
  destruct (pick_user_agent _ _ _ _) as [h0 w0].
  destruct (requests_get _ _ _ _ _) as [status content|e]; [|done].
  cbn [too_small Z.eqb negb andb].
  destruct (too_large _ _); [by intros [= <- _ _]|].
  destruct (urlparse_path env url) as [e|path]; [done|].
  case_bool_decide; [by intros [= <- _ _]|].
  destruct (allowed_extension _ _ _); [|by intros [= <- _ _]]. cbn [negb].
  destruct (os_makedirs env _); [done|].
  destruct (open_error env _); [done|].
  destruct (write_error env _ _) as [[e partial]|]; [done|]. by intros [= <- _ _].
Qed.

(** C10: a bound of exactly 0 is not enforced.  With a maximum of 0 the
    task is the task without a maximum and never returns a skip as too
    large, whatever the size of the body; with a minimum of 0 it is the task
    without a minimum and never returns a skip as too small. *)
Theorem zero_bound_disables_check env url headers p w :
  download_file env url headers (with_max_size (Some 0) p) w
  = download_file env url headers (with_max_size None p) w
  ∧ download_file env url headers (with_min_size (Some 0) p) w
    = download_file env url headers (with_min_size None p) w
  ∧ skipped_too_large (download_file env url headers (with_max_size (Some 0) p) w).1 = false
  ∧ skipped_too_small (download_file env url headers (with_min_size (Some 0) p) w).1 = false
  ∧ ∀ S, too_large (Some 0) S = false ∧ too_small (Some 0) S = false.
Proof.
  split; [|split; [|split; [|split]]].
  - apply attempts_ext; [done|]. intros. apply attempt_body_max_zero.
  - apply attempts_ext; [done|]. intros. apply attempt_body_min_zero.
  - unfold download_file.
    apply (attempts_invariant env url (λ v, skipped_too_large v = false)); [done|done|].
    intros h0 w0 v h' w'. by apply attempt_never_too_large.
  - unfold download_file.
    apply (attempts_invariant env url (λ v, skipped_too_small v = false)); [done|done|].
    intros h0 w0 v h' w'. by apply attempt_never_too_small.
  - done.
Qed.

Example zero_maximum_keeps_file :
  (download_file Demo.env "http://example.com/a.js" ∅
     (with_max_size (Some 0) Demo.plain) Demo.w0).1
  = PyTuple "[✓] a.js                           → 200 (500.0 B)  (http://example.com/a.js)" 200 500
  ∧ (download_file Demo.env "http://example.com/a.js" ∅
       (with_max_size (Some 100) Demo.plain) Demo.w0).1
    = PyStr "[!] Skipped (too large > 100.0 B): http://example.com/a.js".
Proof. vm_compute. done. Qed.

(** ** Collision-free names, twice in a row *)

Lemma numbered_one base ext : numbered base ext 1 = base +:+ "_1" +:+ ext.
Proof. reflexivity. Qed.

(** C7 (amended): for every directory and every base filename, split by
    [os.path.splitext] into [base] and [ext]: when the filename is absent it
    is returned as it is; resolving again once it exists returns
    [base_1ext] provided that name is absent, and in any case the first
    absent [base_kext], [k >= 1]; the name returned does not exist, so the
    second write leaves the first file as it was. *)
Theorem collision_resolution (files : gmap string string)
    (output_dir filename content : string) :
  os_path_exists files (os_path_join output_dir filename) = false →
  let base := (os_path_splitext filename).1 in
  let ext := (os_path_splitext filename).2 in
  let first := get_unique_filename files output_dir filename in
  let files1 := <[os_path_join output_dir first := content]> files in
  let second := get_unique_filename files1 output_dir filename in
  first = filename
  ∧ (os_path_exists files1 (os_path_join output_dir (base +:+ "_1" +:+ ext)) = false →
     second = base +:+ "_1" +:+ ext)
  ∧ (∃ k, 1 ≤ k ∧ second = numbered base ext k
          ∧ ∀ j, 1 ≤ j < k →
              os_path_exists files1 (os_path_join output_dir (numbered base ext j)) = true)
  ∧ os_path_exists files1 (os_path_join output_dir second) = false
  ∧ ∀ content2,
      <[os_path_join output_dir second := content2]> files1 !! os_path_join output_dir filename
      = Some content.
Proof.
  intros Hfree base ext first files1 second.
  assert (first = filename) as Hfirst by by apply get_unique_filename_free.
  assert (os_path_exists files1 (os_path_join output_dir filename) = true) as Htaken.
  { unfold os_path_exists, files1. rewrite Hfirst, lookup_insert_eq.
    by apply bool_decide_eq_true_2. }
  pose proof (get_unique_filename_fresh files1 output_dir filename) as Hfresh.
  fold second in Hfresh.
  split; [done|]. split; [|split; [|split; [done|]]].
  - intros H1. by apply get_unique_filename_first.
  - by apply get_unique_filename_taken.
  - intros content2. rewrite lookup_insert_ne.
    + unfold files1. by rewrite Hfirst, lookup_insert_eq.
    + intros E. rewrite E in Hfresh. congruence.
Qed.

Lemma collision_resolution_witness :
  let files : gmap string string := {["downloads/b.js" := "old"]} in
  let base := (os_path_splitext "app.js").1 in
  let ext := (os_path_splitext "app.js").2 in
  let first := get_unique_filename files "downloads" "app.js" in
  let files1 := <[os_path_join "downloads" first := "one"]> files in
  let second := get_unique_filename files1 "downloads" "app.js" in
  first = "app.js"
  ∧ (os_path_exists files1 (os_path_join "downloads" (base +:+ "_1" +:+ ext)) = false →
     second = base +:+ "_1" +:+ ext)
  ∧ (∃ k, 1 ≤ k ∧ second = numbered base ext k
          ∧ ∀ j, 1 ≤ j < k →
              os_path_exists files1 (os_path_join "downloads" (numbered base ext j)) = true)
  ∧ os_path_exists files1 (os_path_join "downloads" second) = false
  ∧ ∀ content2,
      <[os_path_join "downloads" second := content2]> files1 !! os_path_join "downloads" "app.js"
      = Some "one".
Proof.
  apply (collision_resolution {["downloads/b.js" := "old"]} "downloads" "app.js" "one").
  vm_compute. reflexivity.
Defined.

(** The shape [name.ext] of the claim: the second name is [name_1.ext]. *)
Corollary collision_resolution_name_ext (files : gmap string string)
    (output_dir name e content : string) :
  Str.contains "." e = false → Str.contains "/" e = false →
  all_dots (os_path_basename name) = false →
  let filename := name +:+ String "." e in
  os_path_exists files (os_path_join output_dir filename) = false →
  os_path_exists files (os_path_join output_dir (name +:+ "_1" +:+ String "." e)) = false →
  get_unique_filename files output_dir filename = filename
  ∧ get_unique_filename (<[os_path_join output_dir filename := content]> files) output_dir filename
    = name +:+ "_1" +:+ String "." e.
Proof.
  intros Hdot Hslash Hname filename Hfree Hfree1.
  pose proof (get_unique_filename_free _ _ _ Hfree) as Hfirst. split; [done|].
  pose proof (splitext_name_ext name e Hdot Hslash Hname) as Hsplit. fold filename in Hsplit.
  assert (os_path_join output_dir filename
          ≠ os_path_join output_dir (name +:+ "_1" +:+ String "." e)) as Hne.
  { change (name +:+ "_1" +:+ String "." e) with (numbered name (String "." e) 1).
    unfold os_path_join, filename.
    assert (Str.startswith "/" (numbered name (String "." e) 1)
            = Str.startswith "/" (name +:+ String "." e)) as -> by by destruct name.
    assert (name +:+ String "." e ≠ numbered name (String "." e) 1) as Hn.
    { unfold numbered. intros E%String.app_inj. discriminate. }
    destruct (Str.startswith "/" _); [done|].
    destruct (_ || _).
    - by intros E%String.app_inj.
    - intros E%String.app_inj. rewrite !append_cons, !append_nil_l in E. by injection E. }
  rewrite get_unique_filename_first.
  - by rewrite Hsplit.
  - unfold os_path_exists. rewrite lookup_insert_eq. by apply bool_decide_eq_true_2.
  - rewrite Hsplit. cbn [fst snd]. rewrite numbered_one.
    unfold os_path_exists in *. by rewrite lookup_insert_ne.
Qed.

(** C7 as stated fails in a directory that already holds [app_1.js]: the
    second name is [app_2.js], not [app_1.js]. *)
Lemma collision_resolution_counterexample :
  let files : gmap string string := {["downloads/app_1.js" := "old"]} in
  os_path_exists files (os_path_join "downloads" "app.js") = false
  ∧ get_unique_filename files "downloads" "app.js" = "app.js"
  ∧ get_unique_filename (<[os_path_join "downloads" "app.js" := "one"]> files) "downloads" "app.js"
    = "app_2.js"
  ∧ "app_2.js" ≠ "app_1.js".
Proof. vm_compute. done. Qed.

(** ** [main]: the user-agent flags *)

(** C8: with both user-agent flags set, [main] prints the explanation and
    returns: no URL is submitted to the pool, no outcome is produced, no
    request is made, no file is written, and no exception is raised. *)
Theorem user_agent_conflict_aborts env args w :
  args_random_useragent args = true →
  args_mobile_useragent args = true →
  raised (main env args w) = None
  ∧ submitted (main env args w) = []
  ∧ outcomes (main env args w) = []
  ∧ aggregate (main env args w) = None
  ∧ last (stdout (final (main env args w)))
    = Some "[!] You cannot use --random-useragent and --mobile-useragent at the same time."
  ∧ sent (final (main env args w)) = sent w
  ∧ slept (final (main env args w)) = slept w
  ∧ fs (final (main env args w)) = fs w.
Proof.
  intros Hd Hm. unfold main. rewrite Hd, Hm. cbn [andb].
  destruct (given (args_file args)).
  - unfold read_urls_from_file.
    destruct (file_lines env _) as [e|lines]; cbn;
      rewrite ?last_snoc; repeat split; done.
  - cbn. rewrite last_snoc. repeat split; done.
Qed.

Lemma user_agent_conflict_aborts_witness :
  raised (main Demo.env (Demo.both_agents (Demo.args Demo.scenario)) Demo.w0) = None
  ∧ submitted (main Demo.env (Demo.both_agents (Demo.args Demo.scenario)) Demo.w0) = []
  ∧ outcomes (main Demo.env (Demo.both_agents (Demo.args Demo.scenario)) Demo.w0) = []
  ∧ aggregate (main Demo.env (Demo.both_agents (Demo.args Demo.scenario)) Demo.w0) = None
  ∧ last (stdout (final (main Demo.env (Demo.both_agents (Demo.args Demo.scenario)) Demo.w0)))
    = Some "[!] You cannot use --random-useragent and --mobile-useragent at the same time."
  ∧ sent (final (main Demo.env (Demo.both_agents (Demo.args Demo.scenario)) Demo.w0)) = sent Demo.w0
  ∧ slept (final (main Demo.env (Demo.both_agents (Demo.args Demo.scenario)) Demo.w0)) = slept Demo.w0
  ∧ fs (final (main Demo.env (Demo.both_agents (Demo.args Demo.scenario)) Demo.w0)) = fs Demo.w0.
Proof.
  apply (user_agent_conflict_aborts Demo.env (Demo.both_agents (Demo.args Demo.scenario)) Demo.w0);
    reflexivity.
Defined.

(** ** [main]: the loop over the finished futures *)

(** The loop runs to its end exactly when every future holds a triple. *)
Lemma consume_completes futures log_path acc w :
  (consume futures log_path acc w).1.1 = None ↔ Forall (λ v, is_success v = true) futures.
Proof.
  revert acc w. induction futures as [|v futures IH]; intros acc w; cbn.
  - split; [constructor|done].
  - destruct v as [line status size| |]; cbn.
    + rewrite IH. split; [by constructor|by inversion 1].
    + split; [done|]. inversion 1; done.
    + split; [done|]. inversion 1; done.
Qed.

(** On triples only, the loop counts what the specification says: every
    line is kept and logged in order, and the two totals grow by the number
    and the sizes of the successes with status 200 and a body that is not
    empty. *)
Lemma consume_successes futures log_path acc w :
  Forall (λ v, is_success v = true) futures →
  ∃ acc' w',
    consume futures log_path acc w = (None, acc', w')
    ∧ results acc' = results acc ++ (line_of <$> futures)
    ∧ total_downloaded acc' = total_downloaded acc + Z.of_nat (length (filter (λ v, qualifies v = true) futures))
    ∧ total_bytes acc' = total_bytes acc + total (byte_size <$> filter (λ v, qualifies v = true) futures)
    ∧ file_content w' log_path
      = file_content w log_path +:+ foldr (λ v rest, line_of v +:+ nl +:+ rest) "" futures.
Proof.
  intros Hall. revert acc w. induction Hall as [|v futures Hv Hall IH]; intros acc w.
  - eexists _, _. split; [done|]. cbn. rewrite app_nil_r, append_nil_r. repeat split; lia.
  - destruct v as [line status size| |]; try done. cbn [consume].
    match goal with |- context [consume futures log_path ?a ?x] =>
      destruct (IH a x) as (acc' & w' & Heq & Hres & Hcount & Hbytes & Hlog) end.
    exists acc', w'. split; [done|]. rewrite Hres, Hcount, Hbytes, Hlog.
    cbn [results total_downloaded total_bytes].
    rewrite filter_cons. cbn [qualifies fmap list_fmap line_of foldr].
    assert (file_content (append_file log_path (line +:+ nl) w) log_path
            = file_content w log_path +:+ line +:+ nl) as ->.
    { unfold file_content, append_file, write_file. cbn [fs]. by rewrite lookup_insert_eq. }
    rewrite <- app_assoc, !append_assoc. cbn [app].
    destruct ((status =? 200) && (0 <? size)) eqn:E.
    + rewrite decide_True by done. cbn [length fmap list_fmap total foldr byte_size].
      fold (total (byte_size <$> filter (λ v, qualifies v = true) futures)).
      repeat split; lia.
    + rewrite decide_False by (by intros ?). repeat split; lia.
Qed.

(** A [str] among the futures ends the loop at once: its line is neither
    kept nor logged, and what follows is not looked at. *)
Lemma consume_raises done_before line rest log_path acc w :
  Forall (λ v, is_success v = true) done_before →
  ∃ acc' w',
    consume (done_before ++ PyStr line :: rest) log_path acc w
    = (Some "ValueError: too many values to unpack (expected 3)", acc', w')
    ∧ results acc' = results acc ++ (line_of <$> done_before)
    ∧ file_content w' log_path
      = file_content w log_path +:+ foldr (λ v rest, line_of v +:+ nl +:+ rest) "" done_before.
Proof.
  intros Hall. revert acc w. induction Hall as [|v futures Hv Hall IH]; intros acc w.
  - eexists _, _. split; [done|]. cbn. by rewrite app_nil_r, append_nil_r.
  - destruct v as [l status size| |]; try done. cbn [consume app].
    match goal with |- context [consume _ log_path ?a ?x] =>
      destruct (IH a x) as (acc' & w' & Heq & Hres & Hlog) end.
    exists acc', w'. split; [done|]. rewrite Hres, Hlog.
    cbn [results fmap list_fmap line_of foldr].
    assert (file_content (append_file log_path (l +:+ nl) w) log_path
            = file_content w log_path +:+ l +:+ nl) as ->.
    { unfold file_content, append_file, write_file. cbn [fs]. by rewrite lookup_insert_eq. }
    by rewrite <- app_assoc, !append_assoc.
Qed.

(** A run whose tasks all succeed: both lines are listed and logged, the
    success with status 201 is listed but not counted. *)
Example main_all_successes :
  let r := main Demo.env (Demo.args ["http://example.com/c.js"; "http://example.com/a.js"]) Demo.w0 in
  raised r = None
  ∧ stdout (final r)
    = [nl +:+ "📥 Downloading 2 file(s) with 2 threads..." +:+ nl;
       nl +:+ "📄 Download Summary:" +:+ nl;
       "✅ Successfully downloaded:" +:+ nl;
       "[✓] c.js                           → 201 (300.0 B)  (http://example.com/c.js)";
       "[✓] a.js                           → 200 (500.0 B)  (http://example.com/a.js)";
       "";
       "📁 Saved to: downloads/";
       "📝 Log saved to: run.log";
       "📦 Total downloaded: 1 file(s), 500.0 B"]
  ∧ file_content (final r) "run.log"
    = "[✓] c.js                           → 201 (300.0 B)  (http://example.com/c.js)" +:+ nl
      +:+ "[✓] a.js                           → 200 (500.0 B)  (http://example.com/a.js)" +:+ nl.
Proof. vm_compute. done. Qed.

(** C1 (the code departs from the claim): the end-to-end scenario of the
    specification, one success, one failure after a timeout, one skip for
    want of a filename.  The pool runs the three tasks to their outcomes,
    but the loop over the futures unpacks each value into three names: the
    [str] of the failure raises [ValueError], which ends [main].  Only the
    success reached the log, neither the failure nor the skip is logged or
    shown, and no report is printed. *)
Theorem main_aborts_on_failed_outcome :
  outcomes (main Demo.env (Demo.args Demo.scenario) Demo.w0)
  = [PyTuple "[✓] a.js                           → 200 (500.0 B)  (http://example.com/a.js)" 200 500;
     PyStr "[✗] Failed to download http://example.com/b.js after 1 attempt(s): Read timed out. (read timeout=15)";
     PyStr "[!] Skipped (no filename): http://example.com/"]
  ∧ raised (main Demo.env (Demo.args Demo.scenario) Demo.w0)
    = Some "ValueError: too many values to unpack (expected 3)"
  ∧ file_content (final (main Demo.env (Demo.args Demo.scenario) Demo.w0)) "run.log"
    = "[✓] a.js                           → 200 (500.0 B)  (http://example.com/a.js)" +:+ nl
  ∧ stdout (final (main Demo.env (Demo.args Demo.scenario) Demo.w0))
    = [nl +:+ "📥 Downloading 3 file(s) with 2 threads..." +:+ nl].
Proof. vm_compute. done. Qed.

(** C3 (the code departs from the claim): a success with status 201, a
    success with status 200 and 500 bytes, and a skip.  The claim gives the
    totals 1 file and 500 bytes and the 201 line in the list of successes;
    the loop raises [ValueError] at the skip, so [main] prints neither the
    list of successes nor the totals.  On runs of successes alone the
    totals are the claimed sums ([consume_successes], [main_all_successes]). *)
Theorem main_reports_no_totals :
  outcomes (main Demo.env (Demo.args Demo.mixed) Demo.w0)
  = [PyTuple "[✓] c.js                           → 201 (300.0 B)  (http://example.com/c.js)" 201 300;
     PyTuple "[✓] a.js                           → 200 (500.0 B)  (http://example.com/a.js)" 200 500;
     PyStr "[!] Skipped (no filename): http://example.com/"]
  ∧ raised (main Demo.env (Demo.args Demo.mixed) Demo.w0)
    = Some "ValueError: too many values to unpack (expected 3)"
  ∧ stdout (final (main Demo.env (Demo.args Demo.mixed) Demo.w0))
    = [nl +:+ "📥 Downloading 3 file(s) with 2 threads..." +:+ nl].
Proof. vm_compute. done. Qed.

(** * Further properties of the code *)

(** ** [parse_headers] *)

Lemma partition_None c s :
  Str.contains c s = false → Str.partition c s = None.
Proof.
  induction s as [|a s IH]; cbn; [done|].
  intros [Ha%bool_decide_eq_false Hs]%orb_false_iff.
  rewrite bool_decide_eq_false_2 by done. by rewrite IH.
Qed.

(** The first [c] of [b ++ c ++ t] is the one shown when [b] has none. *)
Lemma partition_append c b t :
  Str.contains c b = false → Str.partition c (b +:+ String c t) = Some (b, t).
Proof.
  induction b as [|a b IH]; rewrite ?append_cons, ?append_nil_l; cbn.
  - intros _. by rewrite bool_decide_eq_true_2.
  - intros [Ha%bool_decide_eq_false Hb]%orb_false_iff.
    rewrite bool_decide_eq_false_2 by done. by rewrite IH.
Qed.

(** X1: an item of [-H] without a colon is ignored, wherever it stands in
    the list: the headers are those of the list without it. *)
Theorem parse_headers_skips_item (before after : list string) (item : string) :
  Str.contains ":" item = false →
  parse_headers (before ++ item :: after) = parse_headers (before ++ after).
Proof.
  intros H%partition_None. unfold parse_headers.
  rewrite !foldl_app. cbn [foldl]. by rewrite H.
Qed.

Lemma parse_headers_skips_item_witness :
  parse_headers (["Accept: */*"] ++ "no colon here" :: ["X-Token: abc"])
  = parse_headers (["Accept: */*"] ++ ["X-Token: abc"]).
Proof. apply (parse_headers_skips_item ["Accept: */*"] ["X-Token: abc"] "no colon here"). reflexivity. Defined.

(** X2: the item [key:value] that comes last decides the header: the item
    is cut at its first colon (the value may hold colons), key and value are
    stripped of white space as [str.strip] does, the entry replaces an
    earlier one for the same key, and every other header stays as it was. *)
Theorem parse_headers_last_wins (items : list string) (key value : string) :
  Str.contains ":" key = false →
  parse_headers (items ++ [key +:+ ":" +:+ value]) !! Str.strip key = Some (Str.strip value)
  ∧ ∀ other, other ≠ Str.strip key →
      parse_headers (items ++ [key +:+ ":" +:+ value]) !! other = parse_headers items !! other.
Proof.
  intros Hkey. unfold parse_headers. rewrite foldl_app. cbn [foldl].
  change (key +:+ ":" +:+ value) with (key +:+ String ":" value).
  rewrite partition_append by done. split.
  - apply lookup_insert_eq.
  - intros other Hne. by rewrite lookup_insert_ne.
Qed.

Lemma parse_headers_last_wins_witness :
  parse_headers (["Referer: http://a/"; "Cookie: old=1"] ++ ["Cookie " +:+ ":" +:+ " t=12:30 "])
    !! Str.strip "Cookie " = Some (Str.strip " t=12:30 ")
  ∧ ∀ other, other ≠ Str.strip "Cookie " →
      parse_headers (["Referer: http://a/"; "Cookie: old=1"] ++ ["Cookie " +:+ ":" +:+ " t=12:30 "])
        !! other
      = parse_headers ["Referer: http://a/"; "Cookie: old=1"] !! other.
Proof.
  apply (parse_headers_last_wins ["Referer: http://a/"; "Cookie: old=1"] "Cookie " " t=12:30 ").
  reflexivity.
Defined.

Example parse_headers_cookie :
  parse_headers ["Referer: http://a/"; "Cookie: old=1"; "Cookie : t=12:30 "]
  = {["Referer" := "http://a/"; "Cookie" := "t=12:30"]}.
Proof. vm_compute. reflexivity. Qed.

(** A value between two no-break spaces, U+00A0. *)
Example parse_headers_no_break_space :
  parse_headers ["X-Token:" +:+ String "194" (String "160" "abc") +:+ String "194" (String "160" "")]
  = {["X-Token" := "abc"]}.
Proof. vm_compute. reflexivity. Qed.

(** ** [read_urls_from_file] *)

(** X3: every URL read from a file is the text of one of its lines,
    stripped of white space as [str.strip] does, and is not empty (blank
    lines are dropped), and a read that yields a URL has printed nothing. *)
Theorem read_urls_never_blank env filepath w url :
  url ∈ (read_urls_from_file env filepath w).1 →
  url ≠ ""
  ∧ (read_urls_from_file env filepath w).2 = w
  ∧ ∃ lines line,
      file_lines env filepath = inr lines ∧ line ∈ lines ∧ url = Str.strip line.
Proof.
  unfold read_urls_from_file. destruct (file_lines env filepath) as [e|lines]; cbn.
  - by intros ?%elem_of_nil.
  - intros [Hne [line [-> Hline]]%list_elem_of_fmap]%list_elem_of_filter.
    split; [done|]. split; [done|]. by exists lines, line.
Qed.

Lemma read_urls_never_blank_witness :
  "http://example.com/c.js" ≠ ""
  ∧ (read_urls_from_file Scene.with_url_file "urls.txt" Demo.w0).2 = Demo.w0
  ∧ ∃ lines line,
      file_lines Scene.with_url_file "urls.txt" = inr lines ∧ line ∈ lines
      ∧ "http://example.com/c.js" = Str.strip line.
Proof.
  apply (read_urls_never_blank Scene.with_url_file "urls.txt" Demo.w0 "http://example.com/c.js").
  vm_compute. apply list_elem_of_further, list_elem_of_here.
Defined.

Example read_urls_from_lines :
  (read_urls_from_file Scene.with_url_file "urls.txt" Demo.w0).1
  = ["http://example.com/a.js"; "http://example.com/c.js"]
  ∧ read_urls_from_file Demo.env "urls.txt" Demo.w0
    = ([], print "[✗] Failed to read file 'urls.txt': [Errno 2] No such file or directory: 'urls.txt'" Demo.w0).
Proof. vm_compute. done. Qed.

(** ** [format_size] *)

(** X4: a size below 1024 bytes is shown as the integer itself with one
    decimal [0] and the unit [B]. *)
Theorem format_size_bytes (n : Z) :
  0 ≤ n < 1024 → format_size n = Str.of_Z n +:+ ".0 B".
Proof.
  intros Hn. unfold format_size. cbn [format_size_units].
  rewrite (proj2 (Z.ltb_lt n (1024 * 1))) by lia.
  unfold fmt_1f, round_half_even.
  rewrite (proj2 (Z.ltb_ge n 0)) by lia.
  rewrite Z.abs_eq, Z.mod_1_r, Z.div_1_r by lia.
  change (2 * 0 <? 1) with true. cbn match.
  replace (10 * n / 10) with n by (apply Z.div_unique with 0; lia).
  replace ((10 * n) mod 10) with 0 by (apply Z.mod_unique with n; lia).
  rewrite append_nil_l, !append_assoc. reflexivity.
Qed.

Lemma format_size_bytes_witness : format_size 500 = Str.of_Z 500 +:+ ".0 B".
Proof. apply (format_size_bytes 500). lia. Defined.

(** X5: the unit is chosen before the value is rounded to one decimal, so
    the last 51 sizes below one megabyte are shown as [1024.0 KB], not as
    [1.0 MB]. *)
Theorem format_size_unit_before_rounding (n : Z) :
  1024 * 1024 - 51 ≤ n < 1024 * 1024 → format_size n = "1024.0 KB".
Proof.
  intros Hn. unfold format_size. cbn [format_size_units].
  rewrite (proj2 (Z.ltb_ge n (1024 * 1))) by lia.
  rewrite (proj2 (Z.ltb_lt n (1024 * (1 * 1024)))) by lia.
  unfold fmt_1f, round_half_even.
  rewrite (proj2 (Z.ltb_ge n 0)) by lia.
  rewrite Z.abs_eq by lia.
  assert (10 * n / (1 * 1024) = 10239) as ->
    by (symmetry; apply Z.div_unique with (10 * n - 10239 * 1024); lia).
  assert ((10 * n) mod (1 * 1024) = 10 * n - 10239 * 1024) as ->
    by (symmetry; apply Z.mod_unique with 10239; lia).
  rewrite (proj2 (Z.ltb_ge (2 * (10 * n - 10239 * 1024)) (1 * 1024))) by lia.
  rewrite (proj2 (Z.ltb_lt (1 * 1024) (2 * (10 * n - 10239 * 1024)))) by lia.
  reflexivity.
Qed.

Lemma format_size_unit_before_rounding_witness : format_size 1048575 = "1024.0 KB".
Proof. apply (format_size_unit_before_rounding 1048575). lia. Defined.

(** ** What a task does to the world *)

Lemma pick_user_agent_world env mode headers w :
  sent (pick_user_agent env mode headers w).2 = sent w
  ∧ slept (pick_user_agent env mode headers w).2 = slept w
  ∧ stdout (pick_user_agent env mode headers w).2 = stdout w
  ∧ fs (pick_user_agent env mode headers w).2 = fs w.
Proof. by destruct mode. Qed.

Lemma pick_user_agent_dirs env mode headers w :
  dirs (pick_user_agent env mode headers w).2 = dirs w.
Proof. by destruct mode. Qed.

Lemma not_exists_lookup (files : gmap string string) path :
  os_path_exists files path = false → files !! path = None.
Proof.
  unfold os_path_exists. intros H%bool_decide_eq_false. by apply eq_None_not_Some.
Qed.

(** A path that [os.path.exists] does not find is not the path of a file. *)
Lemma entries_None w path : entries w !! path = None → fs w !! path = None.
Proof. unfold entries. by intros [H _]%lookup_union_None. Qed.

(** The name an attempt saves under is free. *)
Lemma saved_as_free p w filename :
  fs w !! os_path_join (output_dir p) (saved_as p w filename) = None.
Proof.
  change (fs w) with (fs (make_dir (output_dir p) w)).
  apply entries_None, not_exists_lookup, get_unique_filename_fresh.
Qed.

(** One attempt: one request, no sleep, nothing printed, and no file
    changed or removed.  A file is written with the triple, under a name
    that was free; a skip writes nothing; an exception leaves the files as
    they were unless it is the one of a failed write. *)
Lemma attempt_body_effects env url headers p w :
  length (sent (attempt_body env url headers p w).2) = S (length (sent w))
  ∧ slept (attempt_body env url headers p w).2 = slept w
  ∧ stdout (attempt_body env url headers p w).2 = stdout w
  ∧ fs w ⊆ fs (attempt_body env url headers p w).2
  ∧ match (attempt_body env url headers p w).1.1 with
    | Return (PyTuple line status size) =>
        Str.startswith "[✓] " line = true
        ∧ ∃ filename content,
            size = Z.of_nat (Str.len content)
            ∧ fs w !! os_path_join (output_dir p) filename = None
            ∧ fs (attempt_body env url headers p w).2
              = <[os_path_join (output_dir p) filename := content]> (fs w)
    | Return (PyStr line) =>
        Str.startswith "[!] Skipped (" line = true
        ∧ fs (attempt_body env url headers p w).2 = fs w
    | Return PyNone => False
    | Raise _ => writes_succeed env → fs (attempt_body env url headers p w).2 = fs w
    end.
Proof.
  destruct (pick_user_agent_world env (random_ua p) headers w) as (Hsent & Hslept & Hout & Hfs).
  pose proof (pick_user_agent_dirs env (random_ua p) headers w) as Hdirs.
  unfold attempt_body.
  destruct (pick_user_agent env (random_ua p) headers w) as [h0 w0]. cbn [snd] in *.
  assert (length (sent (record_request url h0 w0)) = S (length (sent w))) as Hlen.
  { cbn. rewrite length_app, Hsent. cbn. lia. }
  assert (fs (record_request url h0 w0) = fs w) as Hfs' by (cbn; by rewrite Hfs).
  destruct (requests_get _ _ _ _ _) as [status content|e]; [|by (cbn [negb fst snd fs make_dir]; rewrite ?Hfs')].
  destruct (too_small _ _); [by (cbn [negb fst snd fs make_dir]; rewrite ?Hfs')|].
  destruct (too_large _ _); [by (cbn [negb fst snd fs make_dir]; rewrite ?Hfs')|].
  destruct (urlparse_path env url) as [e|path]; [by (cbn [negb fst snd fs make_dir]; rewrite ?Hfs')|].
  case_bool_decide; [by (cbn [negb fst snd fs make_dir]; rewrite ?Hfs')|].
  destruct (allowed_extension _ _ _); [|by (cbn [negb fst snd fs make_dir]; rewrite ?Hfs')]. cbn [negb].
  destruct (os_makedirs env _); [by (cbn [negb fst snd fs make_dir]; rewrite ?Hfs')|].
  match goal with |- context [get_unique_filename (entries ?w1) ?d ?f] =>
    assert (fs w !! os_path_join d (get_unique_filename (entries w1) d f) = None) as Hfree
  end.
  { rewrite <- Hfs. change (fs w0) with (fs (make_dir (output_dir p) (record_request url h0 w0))).
    apply entries_None, not_exists_lookup, get_unique_filename_fresh. }
  destruct (open_error env _); [by (cbn [negb fst snd fs make_dir]; rewrite ?Hfs')|].
  destruct (write_error env _ _) as [[e partial]|] eqn:Hwrite.
  - cbn [fst snd fs sent slept stdout write_file make_dir record_request] in *.
    rewrite Hfs. split; [done|]. split; [done|]. split; [done|].
    split; [by apply insert_subseteq|].
    intros Hw. by rewrite Hw in Hwrite.
  - cbn [fst snd fs sent slept stdout write_file make_dir record_request] in *.
    rewrite Hfs. split; [done|]. split; [done|]. split; [done|].
    split; [by apply insert_subseteq|].
    split; [reflexivity|]. by eexists _, content.
Qed.

(** The loop: [n + 1] passes are left, numbered from [attempt] to
    [retries].  It makes [j + 1] requests and sleeps after each but the
    last; no file is changed or removed, and the body that comes with the
    triple is in a file that was not there. *)
Lemma attempts_effects env url p n :
  ∀ attempt headers w,
    attempt + Z.of_nat n = retries p →
    ∃ j : nat,
      (j ≤ n)%nat
      ∧ length (sent (attempts (S n) attempt env url headers p w).2) = (length (sent w) + S j)%nat
      ∧ slept (attempts (S n) attempt env url headers p w).2
        = slept w ++ ((λ a, 2 ^ a) <$> seqZ attempt (Z.of_nat j))
      ∧ stdout (attempts (S n) attempt env url headers p w).2 = stdout w
      ∧ fs w ⊆ fs (attempts (S n) attempt env url headers p w).2
      ∧ match (attempts (S n) attempt env url headers p w).1 with
        | PyTuple line status size =>
            Str.startswith "[✓] " line = true
            ∧ ∃ filename content,
                size = Z.of_nat (Str.len content)
                ∧ fs w !! os_path_join (output_dir p) filename = None
                ∧ fs (attempts (S n) attempt env url headers p w).2
                    !! os_path_join (output_dir p) filename = Some content
                ∧ (writes_succeed env →
                   fs (attempts (S n) attempt env url headers p w).2
                   = <[os_path_join (output_dir p) filename := content]> (fs w))
        | PyStr line =>
            (Str.startswith "[!] Skipped (" line = true
             ∨ Str.startswith "[✗] Failed to download " line = true)
            ∧ (writes_succeed env → fs (attempts (S n) attempt env url headers p w).2 = fs w)
        | PyNone => False
        end.
Proof.
  induction n as [|n IH]; intros attempt headers w Hn.
  - pose proof (attempt_body_effects env url headers p w) as (Hlen & Hslept & Hout & Hsub & Hv).
    cbn [attempts].
    destruct (attempt_body env url headers p w) as [[[v|e] h'] w']; cbn [fst snd] in *.
    + exists 0%nat. rewrite Hlen, Hslept, Hout, app_nil_r.
      split; [lia|]. split; [lia|]. split; [done|]. split; [done|]. split; [done|].
      destruct v as [line status size|line|]; [| |done].
      * destruct Hv as (Hline & filename & content & Hsize & Hfree & Hfs).
        split; [done|]. exists filename, content.
        split; [done|]. split; [done|]. split; [|done].
        by rewrite Hfs, lookup_insert_eq.
      * destruct Hv as [Hline Hfs]. split; [by left|done].
    + assert ((attempt <? retries p) = false) as -> by (apply Z.ltb_ge; lia).
      exists 0%nat. cbn [fst snd]. rewrite Hlen, Hslept, Hout, app_nil_r.
      split; [lia|]. split; [lia|]. split; [done|]. split; [done|]. split; [done|].
      split; [by right|done].
  - pose proof (attempt_body_effects env url headers p w) as (Hlen & Hslept & Hout & Hsub & Hv).
    change (attempts (S (S n)) attempt env url headers p w)
      with (match attempt_body env url headers p w with
            | (Return v, _, w) => (v, w)
            | (Raise e, headers, w) =>
                if attempt <? retries p then
                  attempts (S n) (attempt + 1) env url headers p (time_sleep (2 ^ attempt) w)
                else
                  (PyStr ("[✗] Failed to download " +:+ url +:+ " after "
                          +:+ Str.of_Z (retries p) +:+ " attempt(s): " +:+ e), w)
            end).
    destruct (attempt_body env url headers p w) as [[[v|e] h'] w']; cbn [fst snd] in *.
    + exists 0%nat. rewrite Hlen, Hslept, Hout, app_nil_r.
      split; [lia|]. split; [lia|]. split; [done|]. split; [done|]. split; [done|].
      destruct v as [line status size|line|]; [| |done].
      * destruct Hv as (Hline & filename & content & Hsize & Hfree & Hfs).
        split; [done|]. exists filename, content.
        split; [done|]. split; [done|]. split; [|done].
        by rewrite Hfs, lookup_insert_eq.
      * destruct Hv as [Hline Hfs]. split; [by left|done].
    + assert ((attempt <? retries p) = true) as -> by (apply Z.ltb_lt; lia).
      destruct (IH (attempt + 1) h' (time_sleep (2 ^ attempt) w'))
        as (j & Hj & Hlen' & Hslept' & Hout' & Hsub' & Hv'); [lia|].
      exists (S j). cbn [sent slept stdout fs time_sleep] in *.
      rewrite Hlen', Hslept', Hout', Hlen, Hslept, Hout.
      split; [lia|]. split; [lia|]. split.
      { rewrite (seqZ_cons attempt) by lia. cbn [fmap list_fmap].
        rewrite <- app_assoc. cbn [app].
        replace (Z.pred (Z.of_nat (S j))) with (Z.of_nat j) by lia.
        by replace (Z.succ attempt) with (attempt + 1) by lia. }
      split; [done|]. split; [by etrans|].
      destruct (attempts (S n) (attempt + 1) env url h' p (time_sleep (2 ^ attempt) w')).1
        as [line status size|line|]; [| |done].
      * destruct Hv' as (Hline & filename & content & Hsize & Hfree & Hin & Hfs).
        split; [done|]. exists filename, content.
        split; [done|]. split; [by eapply lookup_weaken_None|]. split; [done|].
        intros Hw. by rewrite (Hfs Hw), (Hv Hw).
      * destruct Hv' as [Hline Hfs]. split; [done|].
        intros Hw. by rewrite (Hfs Hw), (Hv Hw).
Qed.

Lemma startswith_app p q s :
  Str.startswith (p +:+ q) s = true → Str.startswith p s = true.
Proof.
  revert s. induction p as [|a p IH]; intros s; [done|].
  rewrite append_cons. destruct s as [|b s]; cbn; [done|].
  intros [-> H]%andb_true_iff. by rewrite (IH s H).
Qed.

Lemma download_file_no_retries env url headers p w :
  retries p ≤ 0 → download_file env url headers p w = (PyNone, w).
Proof.
  intros Hr. unfold download_file.
  by replace (Z.to_nat (retries p)) with 0%nat by lia.
Qed.

Lemma download_file_effects env url headers p w :
  1 ≤ retries p →
  ∃ m : Z,
    1 ≤ m ≤ retries p
    ∧ Z.of_nat (length (sent (download_file env url headers p w).2))
      = Z.of_nat (length (sent w)) + m
    ∧ slept (download_file env url headers p w).2 = slept w ++ backoff m
    ∧ stdout (download_file env url headers p w).2 = stdout w
    ∧ fs w ⊆ fs (download_file env url headers p w).2
    ∧ match (download_file env url headers p w).1 with
      | PyTuple line status size =>
          Str.startswith "[✓] " line = true
          ∧ ∃ filename content,
              size = Z.of_nat (Str.len content)
              ∧ fs w !! os_path_join (output_dir p) filename = None
              ∧ fs (download_file env url headers p w).2
                  !! os_path_join (output_dir p) filename = Some content
              ∧ (writes_succeed env →
                 fs (download_file env url headers p w).2
                 = <[os_path_join (output_dir p) filename := content]> (fs w))
      | PyStr line =>
          (Str.startswith "[!] Skipped (" line = true
           ∨ Str.startswith "[✗] Failed to download " line = true)
          ∧ (writes_succeed env → fs (download_file env url headers p w).2 = fs w)
      | PyNone => False
      end.
Proof.
  intros Hr. unfold download_file.
  destruct (Z.to_nat (retries p)) as [|n] eqn:En; [lia|].
  destruct (attempts_effects env url p n 1 headers w)
    as (j & Hj & Hlen & Hslept & Hout & Hsub & Hv); [lia|].
  exists (Z.of_nat (S j)). split; [lia|]. split; [lia|]. split; [|done].
  rewrite Hslept. unfold backoff. by replace (Z.of_nat (S j) - 1) with (Z.of_nat j) by lia.
Qed.

(** X6: what [download_file] can return.  With a retry count of 0 or less
    the loop body never runs: the function returns [None] and makes no
    request.  With a retry count of at least 1 it never returns [None]: the
    value is the triple, whose line starts with the success mark, or a [str]
    that starts with the mark of a skip or of a failure, the three prefixes
    by which the report sorts the lines. *)
Theorem download_file_value env url headers p w :
  ((download_file env url headers p w).1 = PyNone ↔ retries p ≤ 0)
  ∧ (retries p ≤ 0 → (download_file env url headers p w).2 = w)
  ∧ match (download_file env url headers p w).1 with
    | PyTuple line _ _ => Str.startswith "[✓]" line = true
    | PyStr line => Str.startswith "[!]" line = true ∨ Str.startswith "[✗]" line = true
    | PyNone => True
    end.
Proof.
  destruct (decide (retries p ≤ 0)) as [Hr|Hr].
  - rewrite (download_file_no_retries _ _ _ _ _ Hr). done.
  - destruct (download_file_effects env url headers p w) as (m & _ & _ & _ & _ & _ & Hv); [lia|].
    destruct (download_file env url headers p w).1 as [line status size|line|]; [| |done].
    + destruct Hv as [Hline _]. split; [done|]. split; [lia|].
      by apply (startswith_app "[✓]" " ").
    + destruct Hv as [Hline _]. split; [done|]. split; [lia|].
      destruct Hline as [Hline|Hline]; [left|right].
      * by apply (startswith_app "[!]" " Skipped (").
      * by apply (startswith_app "[✗]" " Failed to download ").
Qed.

Example download_file_zero_retries :
  download_file Demo.env "http://example.com/a.js" ∅ (Demo.with_retries 0 Demo.plain) Demo.w0
  = (PyNone, Demo.w0).
Proof. reflexivity. Qed.




(** A write that stops half-way: the file [open] created stays with what
    reached it, the task sleeps and tries again, and the second attempt
    saves the body under the next free name. *)
Example failed_write_leaves_file :
  let r := download_file Scene.full_disk "http://example.com/a.js" ∅ Demo.plain Demo.w0 in
  r.1 = PyTuple "[✓] a_1.js                         → 200 (500.0 B)  (http://example.com/a.js)" 200 500
  ∧ fs r.2 = {["downloads/a.js" := Demo.blob 100; "downloads/a_1.js" := Demo.blob 500]}
  ∧ length (sent r.2) = 2%nat ∧ slept r.2 = [2].
Proof. vm_compute. done. Qed.

(** The name is padded to 30 characters, not bytes: [é.js] has four
    characters in five bytes and gets 26 spaces. *)
Example accented_name_padded :
  (download_file Demo.env "http://example.com/é.js" ∅ Demo.plain Demo.w0).1
  = PyTuple "[✓] é.js                           → 404 (9.0 B)  (http://example.com/é.js)" 404 9.
Proof. vm_compute. reflexivity. Qed.

(** A last path segment of [.] names the output directory itself, which
    exists, so the file is saved under the next free name. *)
Example dot_segment_renamed :
  (download_file Demo.env "http://example.com/a/." ∅ (Demo.with_types {["*"]} Demo.plain) Demo.w0).1
  = PyTuple "[✓] ._1                            → 404 (9.0 B)  (http://example.com/a/.)" 404 9.
Proof. vm_compute. reflexivity. Qed.

(** X9: the status code plays no part in what a task does with a response.
    Whatever the status (a 404 page as well), a body that passes the size
    checks, with a filename of an allowed type, is written under a free name
    of the output directory after one request and without any sleep, when
    the directory can be made and the file opened and written; the task
    returns the success line, with the name padded to 30 characters, that
    status and the length of the body. *)
Theorem response_saved_whatever_status env url headers p w status content path :
  1 ≤ retries p →
  attempt_response env url headers p w = Response status content →
  too_small (min_size p) (Z.of_nat (Str.len content)) = false →
  too_large (max_size p) (Z.of_nat (Str.len content)) = false →
  urlparse_path env url = inr path →
  os_path_basename path ≠ "" →
  allowed_extension env (os_path_basename path) (allowed_types p) = true →
  os_makedirs env (output_dir p) = None →
  open_error env (os_path_join (output_dir p) (saved_as p w (os_path_basename path))) = None →
  write_error env (os_path_join (output_dir p) (saved_as p w (os_path_basename path))) content
  = None →
  (download_file env url headers p w).1
  = PyTuple ("[✓] "
             +:+ (saved_as p w (os_path_basename path)
                  +:+ Str.spaces (30 - Str.chars (saved_as p w (os_path_basename path))))
             +:+ " → " +:+ colorize_status status (color p)
             +:+ " (" +:+ format_size (Z.of_nat (Str.len content)) +:+ ")  (" +:+ url +:+ ")")
            status (Z.of_nat (Str.len content))
  ∧ fs w !! os_path_join (output_dir p) (saved_as p w (os_path_basename path)) = None
  ∧ fs (download_file env url headers p w).2
    = <[os_path_join (output_dir p) (saved_as p w (os_path_basename path)) := content]> (fs w)
  ∧ length (sent (download_file env url headers p w).2) = S (length (sent w))
  ∧ slept (download_file env url headers p w).2 = slept w.
Proof.
  intros Hr H Hs Hl Hp Hb Ha Hmk Hopen Hwrite.
  destruct (pick_user_agent_world env (random_ua p) headers w) as (Hsent & Hslept & _ & Hfs).
  pose proof (pick_user_agent_dirs env (random_ua p) headers w) as Hdirs.
  split; [|split; [apply saved_as_free|]].
  all: assert (∃ h' w',
    attempt_body env url headers p w
    = (Return (PyTuple ("[✓] "
                 +:+ Str.ljust 30 (saved_as p w (os_path_basename path))
                 +:+ " → " +:+ colorize_status status (color p)
                 +:+ " (" +:+ format_size (Z.of_nat (Str.len content)) +:+ ")  (" +:+ url +:+ ")")
                status (Z.of_nat (Str.len content))), h', w')
    ∧ fs w' = <[os_path_join (output_dir p) (saved_as p w (os_path_basename path)) := content]> (fs w)
    ∧ length (sent w') = S (length (sent w)) ∧ slept w' = slept w) as (h' & w' & Hbody & Hw');
  [ unfold attempt_body, attempt_response in *;
    destruct (pick_user_agent env (random_ua p) headers w) as [h0 w0]; cbn [snd] in *;
    rewrite H, Hs, Hl, Hp, Ha, Hmk; rewrite bool_decide_eq_false_2 by done;
    cbn [negb];
    assert (entries (make_dir (output_dir p) (record_request url h0 w0))
            = entries (make_dir (output_dir p) w)) as ->
      by (unfold entries; cbn [fs dirs make_dir record_request]; by rewrite Hfs, Hdirs);
    fold (saved_as p w (os_path_basename path));
    rewrite Hopen, Hwrite;
    eexists _, _; split; [reflexivity|]; cbn; rewrite Hfs, Hslept, length_app, Hsent; cbn;
    split; [done|]; split; [lia|done]
  | rewrite (download_file_returns _ _ _ _ _ _ _ _ Hr Hbody); done ].
Qed.

Lemma response_saved_whatever_status_witness :
  (download_file Demo.env "http://example.com/missing.js" ∅ Demo.plain Scene.after_a_run).1
  = PyTuple ("[✓] "
             +:+ (saved_as Demo.plain Scene.after_a_run (os_path_basename "/missing.js")
                  +:+ Str.spaces
                        (30 - Str.chars (saved_as Demo.plain Scene.after_a_run
                                           (os_path_basename "/missing.js"))))
             +:+ " → " +:+ colorize_status 404 (color Demo.plain)
             +:+ " (" +:+ format_size (Z.of_nat (Str.len "Not Found")) +:+ ")  ("
             +:+ "http://example.com/missing.js" +:+ ")")
            404 (Z.of_nat (Str.len "Not Found"))
  ∧ fs Scene.after_a_run
      !! os_path_join (output_dir Demo.plain)
           (saved_as Demo.plain Scene.after_a_run (os_path_basename "/missing.js")) = None
  ∧ fs (download_file Demo.env "http://example.com/missing.js" ∅ Demo.plain Scene.after_a_run).2
    = <[os_path_join (output_dir Demo.plain)
          (saved_as Demo.plain Scene.after_a_run (os_path_basename "/missing.js"))
        := "Not Found"]> (fs Scene.after_a_run)
  ∧ length (sent (download_file Demo.env "http://example.com/missing.js" ∅ Demo.plain
                    Scene.after_a_run).2)
    = S (length (sent Scene.after_a_run))
  ∧ slept (download_file Demo.env "http://example.com/missing.js" ∅ Demo.plain Scene.after_a_run).2
    = slept Scene.after_a_run.
Proof.
  apply (response_saved_whatever_status Demo.env "http://example.com/missing.js" ∅
           Demo.plain Scene.after_a_run 404 "Not Found" "/missing.js");
    reflexivity || (vm_compute; congruence).
Defined.

Example error_page_saved :
  download_file Demo.env "http://example.com/missing.js" ∅ Demo.plain Demo.w0
  = (PyTuple "[✓] missing.js                     → 404 (9.0 B)  (http://example.com/missing.js)" 404 9,
     write_file "downloads/missing.js" "Not Found"
       (make_dir "downloads" (record_request "http://example.com/missing.js" ∅ Demo.w0))).
Proof. vm_compute. reflexivity. Qed.

(** A task whose every attempt raises the same exception: [n + 1] passes
    are left, numbered from [attempt] to [retries]. *)
Lemma attempts_raising env url p e :
  (∀ headers w,
     (attempt_body env url headers p w).1.1 = Raise e
     ∧ fs (attempt_body env url headers p w).2 = fs w) →
  ∀ n attempt headers w,
    attempt + Z.of_nat n = retries p →
    (attempts (S n) attempt env url headers p w).1
    = PyStr ("[✗] Failed to download " +:+ url +:+ " after "
             +:+ Str.of_Z (retries p) +:+ " attempt(s): " +:+ e)
    ∧ length (sent (attempts (S n) attempt env url headers p w).2) = (length (sent w) + S n)%nat
    ∧ slept (attempts (S n) attempt env url headers p w).2
      = slept w ++ ((λ a, 2 ^ a) <$> seqZ attempt (Z.of_nat n))
    ∧ fs (attempts (S n) attempt env url headers p w).2 = fs w.
Proof.
  intros Hraise n. induction n as [|n IH]; intros attempt headers w Hn.
  - pose proof (attempt_body_effects env url headers p w) as (Hlen & Hslept & _).
    destruct (Hraise headers w) as [Hc Hv]. cbn [attempts].
    destruct (attempt_body env url headers p w) as [[c h'] w']; cbn [fst snd] in *. subst c.
    assert ((attempt <? retries p) = false) as -> by (apply Z.ltb_ge; lia).
    cbn [fst snd]. rewrite Hlen, Hslept, app_nil_r. repeat split; [lia|done].
  - pose proof (attempt_body_effects env url headers p w) as (Hlen & Hslept & _).
    destruct (Hraise headers w) as [Hc Hv].
    change (attempts (S (S n)) attempt env url headers p w)
      with (match attempt_body env url headers p w with
            | (Return v, _, w) => (v, w)
            | (Raise e, headers, w) =>
                if attempt <? retries p then
                  attempts (S n) (attempt + 1) env url headers p (time_sleep (2 ^ attempt) w)
                else
                  (PyStr ("[✗] Failed to download " +:+ url +:+ " after "
                          +:+ Str.of_Z (retries p) +:+ " attempt(s): " +:+ e), w)
            end).
    destruct (attempt_body env url headers p w) as [[c h'] w']; cbn [fst snd] in *. subst c.
    assert ((attempt <? retries p) = true) as -> by (apply Z.ltb_lt; lia).
    destruct (IH (attempt + 1) h' (time_sleep (2 ^ attempt) w')) as (-> & Hlen' & Hslept' & Hfs'); [lia|].
    cbn [sent slept fs time_sleep] in *. rewrite Hlen', Hslept', Hfs', Hlen, Hslept, Hv.
    split; [done|]. split; [lia|]. split; [|done].
    rewrite (seqZ_cons attempt) by lia. cbn [fmap list_fmap].
    rewrite <- app_assoc. cbn [app].
    replace (Z.pred (Z.of_nat (S n))) with (Z.of_nat n) by lia.
    by replace (Z.succ attempt) with (attempt + 1) by lia.
Qed.

(** X10: an error of the file system is retried like an error of the
    transport.  When the output directory cannot be created, a task whose
    requests all bring a body that passes the filters downloads that body
    [r] times, sleeps [2^1, ..., 2^(r-1)] seconds, writes nothing and returns
    the failure line with the text of the [OSError]. *)
Theorem makedirs_error_is_retried env url headers p w r status content path e :
  retries p = r → 1 ≤ r →
  (∀ headers n, requests_get env url headers (proxies p) n = Response status content) →
  too_small (min_size p) (Z.of_nat (Str.len content)) = false →
  too_large (max_size p) (Z.of_nat (Str.len content)) = false →
  urlparse_path env url = inr path →
  os_path_basename path ≠ "" →
  allowed_extension env (os_path_basename path) (allowed_types p) = true →
  os_makedirs env (output_dir p) = Some e →
  (download_file env url headers p w).1
  = PyStr ("[✗] Failed to download " +:+ url +:+ " after " +:+ Str.of_Z r
           +:+ " attempt(s): " +:+ e)
  ∧ length (sent (download_file env url headers p w).2) = (length (sent w) + Z.to_nat r)%nat
  ∧ slept (download_file env url headers p w).2 = slept w ++ backoff r
  ∧ fs (download_file env url headers p w).2 = fs w.
Proof.
  intros Hr Hpos Hget Hs Hl Hp Hb Ha Hmk.
  assert (∀ headers w,
            (attempt_body env url headers p w).1.1 = Raise e
            ∧ fs (attempt_body env url headers p w).2 = fs w) as Hraise.
  { intros h0 w0.
    destruct (pick_user_agent_world env (random_ua p) h0 w0) as (_ & _ & _ & Hfs).
    unfold attempt_body.
    destruct (pick_user_agent env (random_ua p) h0 w0) as [h1 w1].
    rewrite Hget, Hs, Hl, Hp, Ha, Hmk. by rewrite bool_decide_eq_false_2. }
  unfold download_file. destruct (Z.to_nat (retries p)) as [|n] eqn:En; [lia|].
  destruct (attempts_raising env url p e Hraise n 1 headers w) as (-> & Hlen & Hslept & Hfs); [lia|].
  rewrite Hlen, Hslept, Hfs, <- Hr, En. unfold backoff.
  by replace (retries p - 1) with (Z.of_nat n) by lia.
Qed.

Lemma makedirs_error_is_retried_witness :
  (download_file Scene.read_only "http://example.com/a.js" ∅ Demo.plain Demo.w0).1
  = PyStr ("[✗] Failed to download " +:+ "http://example.com/a.js" +:+ " after " +:+ Str.of_Z 3
           +:+ " attempt(s): " +:+ "[Errno 13] Permission denied: 'downloads'")
  ∧ length (sent (download_file Scene.read_only "http://example.com/a.js" ∅ Demo.plain Demo.w0).2)
    = (length (sent Demo.w0) + Z.to_nat 3)%nat
  ∧ slept (download_file Scene.read_only "http://example.com/a.js" ∅ Demo.plain Demo.w0).2
    = slept Demo.w0 ++ backoff 3
  ∧ fs (download_file Scene.read_only "http://example.com/a.js" ∅ Demo.plain Demo.w0).2
    = fs Demo.w0.
Proof.
  apply (makedirs_error_is_retried Scene.read_only "http://example.com/a.js" ∅ Demo.plain Demo.w0
           3 200 (Demo.blob 500) "/a.js" "[Errno 13] Permission denied: 'downloads'");
    try reflexivity; try lia; try (vm_compute; congruence).
Defined.

(** ** More on extensions and names *)

Lemma splitext_ext_shape p :
  (os_path_splitext p).2 = ""
  ∨ ∃ e, (os_path_splitext p).2 = String "." e ∧ Str.contains "." e = false.
Proof.
  unfold os_path_splitext.
  destruct (Str.rpartition "/" p) as [[h n]|];
    (match goal with |- context [Str.rpartition "." ?x] =>
       destruct (Str.rpartition "." x) as [[stem e]|] eqn:E end; [|by left]);
    (destruct (all_dots stem); [by left|]);
    apply rpartition_Some in E as [_ He]; right; by exists e.
Qed.

(** The extension the filter looks up is lower-case and holds no dot. *)
Lemma file_extension_shape env filename :
  Str.contains "." (file_extension env filename) = false
  ∧ str_lower env (file_extension env filename) = file_extension env filename.
Proof.
  unfold file_extension.
  destruct (splitext_ext_shape filename) as [->|(e & -> & He)].
  - by rewrite !str_lower_empty.
  - rewrite lstrip_lower_dot by done.
    split; [by apply str_lower_no_dot|apply str_lower_lower].
Qed.

(** X11: an entry of the allowed set that holds a dot or an upper-case
    letter matches no filename: with a set made of such entries only (from
    [--types .js] for instance, where the set is not the wildcard) every
    filename is rejected. *)
Theorem dotted_types_match_nothing env (filename : string) (S : gset string) :
  S ≠ {["*"]} →
  (∀ t, t ∈ S → Str.contains "." t = true ∨ str_lower env t ≠ t) →
  allowed_extension env filename S = false.
Proof.
  intros HS Hall. rewrite allowed_extension_not_wildcard by done.
  apply bool_decide_eq_false_2. intros Hin.
  destruct (file_extension_shape env filename) as [Hdot Hlow].
  destruct (Hall _ Hin) as [H|H]; congruence.
Qed.

Lemma dotted_types_match_nothing_witness :
  allowed_extension Demo.env "archive.tar.gz" {[".gz"; "tar.gz"; "GZ"]} = false.
Proof.
  apply (dotted_types_match_nothing Demo.env "archive.tar.gz" {[".gz"; "tar.gz"; "GZ"]}).
  - intros E. apply (f_equal (λ S : gset string, bool_decide ("GZ" ∈ S))) in E.
    vm_compute in E. discriminate.
  - intros t Ht. apply elem_of_union in Ht as [Ht|Ht]; [apply elem_of_union in Ht as [Ht|Ht]|];
      apply elem_of_singleton in Ht; subst t.
    + by left.
    + by left.
    + right. discriminate.
Defined.

(** X12: the loop of [get_unique_filename] ends for every directory, after
    at most two passes more than there are files.  It returns a name that
    does not exist in the directory: the base filename itself when that is
    free, and otherwise the numbered name with the least counter [k >= 1]
    that is free. *)
Theorem get_unique_filename_least (files : gmap string string) (output_dir filename : string) :
  unique_loop (S (S (size files))) files output_dir
    (os_path_splitext filename).1 (os_path_splitext filename).2 1 filename
  = Some (get_unique_filename files output_dir filename)
  ∧ os_path_exists files (os_path_join output_dir (get_unique_filename files output_dir filename))
    = false
  ∧ (os_path_exists files (os_path_join output_dir filename) = false →
     get_unique_filename files output_dir filename = filename)
  ∧ (os_path_exists files (os_path_join output_dir filename) = true →
     ∃ k, 1 ≤ k
       ∧ get_unique_filename files output_dir filename
         = numbered (os_path_splitext filename).1 (os_path_splitext filename).2 k
       ∧ ∀ j, 1 ≤ j < k →
           os_path_exists files
             (os_path_join output_dir
                (numbered (os_path_splitext filename).1 (os_path_splitext filename).2 j)) = true).
Proof.
  split; [apply get_unique_filename_loop|].
  split; [apply get_unique_filename_fresh|].
  split; [apply get_unique_filename_free|apply get_unique_filename_taken].
Qed.

Example unique_skips_taken_numbers :
  get_unique_filename
    {["downloads/app.js" := "a"; "downloads/app_1.js" := "b"; "downloads/app_3.js" := "c"]}
    "downloads" "app.js" = "app_2.js".
Proof. vm_compute. reflexivity. Qed.

Lemma string_of_uint_plain d :
  Str.contains "." (NilEmpty.string_of_uint d) = false
  ∧ Str.contains "/" (NilEmpty.string_of_uint d) = false.
Proof. induction d; done. Qed.

Lemma of_Z_plain k :
  Str.contains "." (Str.of_Z k) = false ∧ Str.contains "/" (Str.of_Z k) = false.
Proof.
  unfold Str.of_Z. destruct (Z.to_int k) as [d|d]; cbn; apply string_of_uint_plain.
Qed.

Lemma all_dots_append s t : all_dots (s +:+ t) = all_dots s && all_dots t.
Proof.
  induction s as [|a s IH]; [done|]. rewrite append_cons. cbn.
  by rewrite IH, andb_assoc.
Qed.

(** A numbered name has the extension of the name it comes from. *)
Lemma splitext_numbered filename k :
  Str.contains "/" filename = false →
  os_path_splitext (numbered (os_path_splitext filename).1 (os_path_splitext filename).2 k)
  = ((os_path_splitext filename).1 +:+ "_" +:+ Str.of_Z k, (os_path_splitext filename).2).
Proof.
  intros Hs. destruct (of_Z_plain k) as [Hkd Hks].
  rewrite (splitext_plain filename Hs).
  destruct (Str.rpartition "." filename) as [[stem e]|] eqn:E.
  - apply rpartition_Some in E as [-> He].
    rewrite contains_append in Hs. apply orb_false_iff in Hs as [Hstem Hes].
    cbn in Hes. apply orb_false_iff in Hes as [_ Hes].
    destruct (all_dots stem) eqn:Hdots; cbn [fst snd]; unfold numbered.
    + rewrite append_nil_r.
      replace ((stem +:+ String "." e) +:+ "_" +:+ Str.of_Z k)
        with (stem +:+ String "." (e +:+ "_" +:+ Str.of_Z k))
        by (by rewrite !append_assoc).
      rewrite splitext_plain
        by (by rewrite contains_append, Hstem; cbn; rewrite !contains_append, Hes, Hks).
      rewrite rpartition_append
        by (by rewrite !contains_append, He, Hkd).
      by rewrite Hdots.
    + replace (stem +:+ "_" +:+ Str.of_Z k +:+ String "." e)
        with ((stem +:+ "_" +:+ Str.of_Z k) +:+ String "." e)
        by (by rewrite !append_assoc).
      rewrite splitext_plain
        by (by rewrite !contains_append, Hstem, Hks; cbn; rewrite Hes).
      rewrite rpartition_append by done.
      by rewrite all_dots_append, Hdots.
  - apply rpartition_None in E. cbn [fst snd]. unfold numbered.
    rewrite append_nil_r. apply splitext_no_dot.
    by rewrite !contains_append, E, Hkd.
Qed.

(** X13: renaming to avoid a collision keeps the extension.  For a
    filename without directory part (as [os.path.basename] gives it) the
    name returned by [get_unique_filename] has the extension of the
    filename, so it passes the extension filter exactly when the filename
    does. *)
Theorem get_unique_filename_keeps_extension env (files : gmap string string)
    (output_dir filename : string) (S : gset string) :
  Str.contains "/" filename = false →
  (os_path_splitext (get_unique_filename files output_dir filename)).2
  = (os_path_splitext filename).2
  ∧ allowed_extension env (get_unique_filename files output_dir filename) S
    = allowed_extension env filename S.
Proof.
  intros Hs.
  assert ((os_path_splitext (get_unique_filename files output_dir filename)).2
          = (os_path_splitext filename).2) as Hext.
  { destruct (os_path_exists files (os_path_join output_dir filename)) eqn:E.
    - apply get_unique_filename_taken in E as (k & _ & -> & _).
      by rewrite splitext_numbered.
    - by rewrite get_unique_filename_free. }
  split; [done|]. unfold allowed_extension, file_extension. by rewrite Hext.
Qed.

Lemma get_unique_filename_keeps_extension_witness :
  (os_path_splitext (get_unique_filename {["downloads/lib.min.JS" := "x"]} "downloads" "lib.min.JS")).2
  = (os_path_splitext "lib.min.JS").2
  ∧ allowed_extension Demo.env
      (get_unique_filename {["downloads/lib.min.JS" := "x"]} "downloads" "lib.min.JS") {["js"]}
    = allowed_extension Demo.env "lib.min.JS" {["js"]}.
Proof.
  apply (get_unique_filename_keeps_extension Demo.env {["downloads/lib.min.JS" := "x"]}
           "downloads" "lib.min.JS" {["js"]}).
  reflexivity.
Defined.

(** ** [parse_size] *)

Lemma rev_app_append s acc : String.rev_app s acc = String.rev s +:+ acc.
Proof.
  unfold String.rev. revert acc. induction s as [|a s IH]; intros acc; [done|].
  cbn. rewrite (IH (String a acc)), (IH (String a "")).
  by rewrite append_assoc.
Qed.

Lemma rev_cons a s : String.rev (String a s) = String.rev s +:+ String a "".
Proof. unfold String.rev at 1. cbn. apply rev_app_append. Qed.

Lemma rev_append s t : String.rev (s +:+ t) = String.rev t +:+ String.rev s.
Proof.
  induction s as [|a s IH].
  - by rewrite append_nil_l, append_nil_r.
  - by rewrite append_cons, !rev_cons, IH, append_assoc.
Qed.

Lemma rev_involutive s : String.rev (String.rev s) = s.
Proof.
  induction s as [|a s IH]; [done|]. by rewrite rev_cons, rev_append, IH.
Qed.

Lemma drop_end_two t a b : Str.drop_end 2 (t +:+ String a (String b "")) = t.
Proof.
  unfold Str.drop_end. rewrite rev_append.
  change (String.rev (String a (String b ""))) with (String b (String a "")).
  rewrite !append_cons, append_nil_l. cbn. apply rev_involutive.
Qed.

Lemma endswith_two t a b c d :
  Str.endswith (String a (String b "")) (t +:+ String c (String d ""))
  = bool_decide (b = d) && bool_decide (a = c).
Proof.
  unfold Str.endswith. rewrite rev_append.
  change (String.rev (String a (String b ""))) with (String b (String a "")).
  change (String.rev (String c (String d ""))) with (String d (String c "")).
  rewrite !append_cons, append_nil_l. cbn. by rewrite andb_true_r.
Qed.

(** X14: a size with the suffix [KB], [MB] or [GB], in any letter case and
    with white space around it ([str.strip] and [str.upper] come first), is
    the float value of the text before the suffix times 1024, 1024^2 or
    1024^3, cut to an integer; an exception of the conversion is the
    exception of [parse_size]. *)
Theorem parse_size_suffix env (size_str number : string) :
  size_str ≠ "" →
  (str_upper env (Str.strip size_str) = number +:+ "KB" →
   parse_size env (Some size_str)
   = match int_float_times env number 1024 with inl e => inl e | inr n => inr (Some n) end)
  ∧ (str_upper env (Str.strip size_str) = number +:+ "MB" →
     parse_size env (Some size_str)
     = match int_float_times env number (1024 * 1024) with inl e => inl e | inr n => inr (Some n) end)
  ∧ (str_upper env (Str.strip size_str) = number +:+ "GB" →
     parse_size env (Some size_str)
     = match int_float_times env number (1024 * 1024 * 1024) with
       | inl e => inl e | inr n => inr (Some n) end).
Proof.
  intros Hne. unfold parse_size, given.
  rewrite (bool_decide_eq_false_2 (size_str = "")) by done.
  change (default "" (Some size_str)) with size_str. cbn [negb].
  split; [|split]; intros ->; rewrite !endswith_two; by rewrite drop_end_two.
Qed.

Lemma parse_size_suffix_witness :
  (str_upper Demo.env (Str.strip (" 10kb" +:+ String "194" (String "160" ""))) = "10" +:+ "KB" →
   parse_size Demo.env (Some (" 10kb" +:+ String "194" (String "160" "")))
   = match int_float_times Demo.env "10" 1024 with inl e => inl e | inr n => inr (Some n) end)
  ∧ (str_upper Demo.env (Str.strip (" 10kb" +:+ String "194" (String "160" ""))) = "10" +:+ "MB" →
     parse_size Demo.env (Some (" 10kb" +:+ String "194" (String "160" "")))
     = match int_float_times Demo.env "10" (1024 * 1024) with
       | inl e => inl e | inr n => inr (Some n) end)
  ∧ (str_upper Demo.env (Str.strip (" 10kb" +:+ String "194" (String "160" ""))) = "10" +:+ "GB" →
     parse_size Demo.env (Some (" 10kb" +:+ String "194" (String "160" "")))
     = match int_float_times Demo.env "10" (1024 * 1024 * 1024) with
       | inl e => inl e | inr n => inr (Some n) end).
Proof.
  apply (parse_size_suffix Demo.env (" 10kb" +:+ String "194" (String "160" "")) "10").
  discriminate.
Defined.

(** Whatever the interpreter's case mapping does outside ASCII. *)
Example parse_size_any env :
  parse_size env (Some " 10kb ")
  = match int_float_times env "10" 1024 with inl e => inl e | inr n => inr (Some n) end.
Proof.
  unfold parse_size. cbn [given negb bool_decide decide_rel default].
  change (Str.strip " 10kb ") with "10kb". by rewrite str_upper_ascii.
Qed.

(** A size followed by a no-break space, U+00A0. *)
Example parse_size_no_break_space :
  parse_size Demo.env (Some ("10KB" +:+ String "194" (String "160" ""))) = inr (Some 10240).
Proof. vm_compute. reflexivity. Qed.

Example parse_size_units :
  parse_size Demo.env (Some " 10kb ") = inr (Some 10240)
  ∧ parse_size Demo.env (Some "5Mb") = inr (Some 5242880)
  ∧ parse_size Demo.env (Some "2gb") = inr (Some 2147483648)
  ∧ parse_size Demo.env (Some "512") = inr (Some 512).
Proof. vm_compute. done. Qed.

(** ** [main]: the pool and what follows *)

Lemma download_file_quiet env url headers p w :
  stdout (download_file env url headers p w).2 = stdout w
  ∧ Z.of_nat (length (sent w)) ≤ Z.of_nat (length (sent (download_file env url headers p w).2))
    ≤ Z.of_nat (length (sent w)) + Z.max 0 (retries p).
Proof.
  destruct (decide (retries p ≤ 0)) as [Hr|Hr].
  - rewrite (download_file_no_retries _ _ _ _ _ Hr). cbn [snd]. split; [done|lia].
  - destruct (download_file_effects env url headers p w) as (m & Hm & Hlen & _ & Hout & _); [lia|].
    split; [done|]. lia.
Qed.

(** The pool gives one value per URL, in the order of submission, prints
    nothing and makes at most [retries] requests per URL. *)
Lemma run_tasks_effects env urls headers p :
  ∀ w,
    length (run_tasks env urls headers p w).1 = length urls
    ∧ stdout (run_tasks env urls headers p w).2 = stdout w
    ∧ Z.of_nat (length (sent w)) ≤ Z.of_nat (length (sent (run_tasks env urls headers p w).2))
      ≤ Z.of_nat (length (sent w)) + Z.of_nat (length urls) * Z.max 0 (retries p).
Proof.
  induction urls as [|url urls IH]; intros w; cbn [run_tasks].
  - cbn [fst snd length]. split; [done|]. split; [done|]. lia.
  - pose proof (download_file_quiet env url headers p w) as (Hout & Hsent).
    destruct (download_file env url headers p w) as [v w1]. cbn [fst snd] in *.
    specialize (IH w1). destruct (run_tasks env urls headers p w1) as [vs w2].
    cbn [fst snd length] in *. destruct IH as (Hlen & Hout' & Hsent').
    split; [by rewrite Hlen|]. split; [congruence|]. nia.
Qed.

(** The loop over the futures only appends to the log file. *)
Lemma consume_quiet futures log_path :
  ∀ acc w,
    stdout (consume futures log_path acc w).2 = stdout w
    ∧ sent (consume futures log_path acc w).2 = sent w
    ∧ slept (consume futures log_path acc w).2 = slept w.
Proof.
  induction futures as [|[line status size|line|] futures IH]; intros acc w; cbn [consume]; [done| |done|done].
  match goal with |- context [consume futures log_path ?a ?x] => destruct (IH a x) as (-> & -> & ->) end.
  done.
Qed.

Lemma print_all_world lines w :
  sent (print_all lines w) = sent w ∧ fs (print_all lines w) = fs w
  ∧ slept (print_all lines w) = slept w
  ∧ stdout (print_all lines w) = stdout w ++ lines.
Proof.
  revert w. induction lines as [|line lines IH]; intros w.
  - cbn. by rewrite app_nil_r.
  - change (print_all (line :: lines) w) with (print_all lines (print line w)).
    destruct (IH (print line w)) as (-> & -> & -> & ->). cbn.
    by rewrite <- app_assoc.
Qed.

Lemma print_group_world heading lines w :
  sent (print_group heading lines w) = sent w ∧ fs (print_group heading lines w) = fs w
  ∧ slept (print_group heading lines w) = slept w
  ∧ stdout (print_group heading lines w)
    = stdout w ++ match lines with [] => [] | _ => heading :: lines ++ [""] end.
Proof.
  unfold print_group. destruct lines as [|l lines]; [by rewrite app_nil_r|].
  destruct (print_all_world (l :: lines) (print heading w)) as (Hs & Hf & Hsl & Ho).
  cbn [sent fs slept stdout print] in *. rewrite Hs, Hf, Hsl, Ho.
  by rewrite <- !app_assoc.
Qed.

Lemma print_group_sent heading lines w : sent (print_group heading lines w) = sent w.
Proof. apply print_group_world. Qed.

Lemma print_group_fs heading lines w : fs (print_group heading lines w) = fs w.
Proof. apply print_group_world. Qed.

Lemma print_group_slept heading lines w : slept (print_group heading lines w) = slept w.
Proof. apply print_group_world. Qed.

Lemma print_group_stdout heading lines w :
  stdout (print_group heading lines w)
  = stdout w ++ match lines with [] => [] | _ => heading :: lines ++ [""] end.
Proof. apply print_group_world. Qed.

(** The report only prints. *)
Lemma report_quiet args color log_name acc w :
  sent (report args color log_name acc w) = sent w
  ∧ fs (report args color log_name acc w) = fs w
  ∧ slept (report args color log_name acc w) = slept w.
Proof.
  unfold report. case_bool_decide; cbn [print sent fs slept];
    by rewrite !print_group_sent, !print_group_fs, !print_group_slept.
Qed.

Lemma setup_log_file_world env log_path w name w' :
  setup_log_file env log_path w = (inr name, w') →
  stdout w' = stdout w ∧ sent w' = sent w ∧ slept w' = slept w
  ∧ fs w' = <[name := ""]> (fs w).
Proof.
  unfold setup_log_file. destruct (os_makedirs env "logs"); [done|].
  destruct (open_error env _); [done|]. by intros [= <- <-].
Qed.

Lemma read_urls_world env filepath w :
  sent (read_urls_from_file env filepath w).2 = sent w
  ∧ fs (read_urls_from_file env filepath w).2 = fs w
  ∧ slept (read_urls_from_file env filepath w).2 = slept w.
Proof. unfold read_urls_from_file. by destruct (file_lines env filepath). Qed.

(** The shape of a run that reaches the pool: the URLs are not empty, the
    line that announces the downloads is the last one printed before the
    tasks run, and [main] ends with the loop over the futures, followed by
    the report when the loop ends without an exception. *)
Lemma main_pool env args w :
  outcomes (main env args w) ≠ [] →
  ∃ urls headers p log_file w1 futures w2,
    urls ≠ []
    ∧ retries p = args_retries args
    ∧ last (stdout w1)
      = Some (nl +:+ "📥 Downloading " +:+ Str.of_Z (Z.of_nat (length urls))
              +:+ " file(s) with " +:+ Str.of_Z (args_threads args) +:+ " threads..." +:+ nl)
    ∧ sent w1 = sent w
    ∧ slept w1 = slept w
    ∧ (log_file = (if given (args_log_file args) then default "" (args_log_file args)
                   else "logs/filescooper_" +:+ timestamp env +:+ ".log")
       ∧ fs w1 !! log_file = Some "")
    ∧ run_tasks env urls headers p w1 = (futures, w2)
    ∧ main env args w
      = match consume (as_completed env futures) log_file
                {| results := []; total_downloaded := 0; total_bytes := 0 |} w2 with
        | (Some e, acc, w3) =>
            {| final := w3; submitted := urls; outcomes := futures;
               aggregate := Some acc; raised := Some e |}
        | (None, acc, w3) =>
            {| final := report args (Color_init (negb (args_no_color args))) log_file acc w3;
               submitted := urls; outcomes := futures; aggregate := Some acc; raised := None |}
        end.
Proof.
  unfold main.
  set (urls0 := if given (args_file args) then _ else _).
  assert (sent urls0.2 = sent w ∧ slept urls0.2 = slept w) as Hw0.
  { unfold urls0. destruct (given (args_file args)); [|done].
    pose proof (read_urls_world env (default "" (args_file args)) w) as (? & _ & ?).
    by destruct (read_urls_from_file env _ w). }
  destruct urls0 as [urls w0]. cbn [snd] in Hw0. destruct Hw0 as [Hsent0 Hslept0].
  destruct (args_random_useragent args && args_mobile_useragent args); [done|].
  destruct (parse_size env (args_min_size args)) as [e|lo]; [done|].
  destruct (parse_size env (args_max_size args)) as [e|hi]; [done|].
  destruct urls as [|url urls]; [done|].
  destruct (setup_log_file env (args_log_file args) _) as [[e|log_file] w1] eqn:Hlog; [done|].
  assert (log_file = (if given (args_log_file args) then default "" (args_log_file args)
                      else "logs/filescooper_" +:+ timestamp env +:+ ".log")) as Hname.
  { unfold setup_log_file in Hlog. destruct (os_makedirs env "logs"); [done|].
    destruct (open_error env _); [done|]. injection Hlog as <- _.
    by destruct (given (args_log_file args)). }
  apply setup_log_file_world in Hlog as (Hout1 & Hsent1 & Hslept1 & Hfs1).
  destruct (args_threads args <=? 0); [done|].
  match goal with |- context [run_tasks env ?u ?h ?p w1] =>
    destruct (run_tasks env u h p w1) as [futures w2] eqn:Hrun;
    intros _; exists u, h, p, log_file, w1, futures, w2 end.
  split; [done|]. split; [done|]. split.
  { rewrite Hout1. cbn [stdout print]. by rewrite last_snoc. }
  split; [by rewrite Hsent1|]. split; [by rewrite Hslept1|].
  split; [split; [done|by rewrite Hfs1, lookup_insert_eq]|]. split; [done|].
  by destruct (consume _ _ _ _) as [[[e|] acc] w3].
Qed.

(** X15: once the pool has run, [main] ends without an exception exactly
    when every future holds the triple of a success: a single skip, failure
    or [None] among the outcomes ends the run with an exception. *)
Theorem main_finishes_iff_all_succeed env args w :
  outcomes (main env args w) ≠ [] →
  (raised (main env args w) = None
   ↔ Forall (λ v, is_success v = true) (as_completed env (outcomes (main env args w)))).
Proof.
  intros Hpool.
  destruct (main_pool env args w Hpool)
    as (urls & headers & p & log_file & w1 & futures & w2 & _ & _ & _ & _ & _ & _ & _ & Hmain).
  pose proof (consume_completes (as_completed env futures) log_file
                {| results := []; total_downloaded := 0; total_bytes := 0 |} w2) as Hiff.
  rewrite Hmain.
  destruct (consume _ _ _ _) as [[[e|] acc] w3]; cbn [fst snd outcomes raised] in *.
  - split; [done|]. intros H. by apply Hiff in H.
  - split; [|done]. intros _. by apply Hiff.
Qed.

Lemma main_finishes_iff_all_succeed_witness :
  raised (main Demo.env (Demo.args Demo.scenario) Demo.w0) = None
  ↔ Forall (λ v, is_success v = true)
      (as_completed Demo.env (outcomes (main Demo.env (Demo.args Demo.scenario) Demo.w0))).
Proof.
  apply (main_finishes_iff_all_succeed Demo.env (Demo.args Demo.scenario) Demo.w0).
  vm_compute. discriminate.
Defined.

(** X16: when the loop over the futures raises, nothing is printed after
    the line that announces the downloads: no summary, no list, no totals. *)
Theorem main_prints_no_report_on_exception env args w :
  outcomes (main env args w) ≠ [] →
  raised (main env args w) ≠ None →
  last (stdout (final (main env args w)))
  = Some (nl +:+ "📥 Downloading "
          +:+ Str.of_Z (Z.of_nat (length (submitted (main env args w))))
          +:+ " file(s) with " +:+ Str.of_Z (args_threads args) +:+ " threads..." +:+ nl).
Proof.
  intros Hpool Hraised.
  destruct (main_pool env args w Hpool)
    as (urls & headers & p & log_file & w1 & futures & w2 & _ & _ & Hlast & _ & _ & _ & Hrun & Hmain).
  pose proof (run_tasks_effects env urls headers p w1) as (_ & Hout & _).
  rewrite Hrun in Hout. cbn [snd] in Hout.
  pose proof (consume_quiet (as_completed env futures) log_file
                {| results := []; total_downloaded := 0; total_bytes := 0 |} w2) as (Hout' & _).
  rewrite Hmain in Hraised |- *.
  destruct (consume _ _ _ _) as [[[e|] acc] w3]; cbn [fst snd final submitted raised] in *; [|done].
  by rewrite Hout', Hout.
Qed.

Lemma main_prints_no_report_on_exception_witness :
  last (stdout (final (main Demo.env (Demo.args Demo.mixed) Demo.w0)))
  = Some (nl +:+ "📥 Downloading "
          +:+ Str.of_Z (Z.of_nat (length (submitted (main Demo.env (Demo.args Demo.mixed) Demo.w0))))
          +:+ " file(s) with " +:+ Str.of_Z (args_threads (Demo.args Demo.mixed))
          +:+ " threads..." +:+ nl).
Proof.
  apply (main_prints_no_report_on_exception Demo.env (Demo.args Demo.mixed) Demo.w0);
    vm_compute; discriminate.
Defined.

(** X17: when every future holds a success, [main] keeps the lines in the
    order [as_completed] gave them, counts the successes with status 200 and
    a body that is not empty, adds up their sizes, and, when that count is
    not 0, ends its output with the line of the totals. *)
Theorem main_totals_of_successes env args w :
  outcomes (main env args w) ≠ [] →
  Forall (λ v, is_success v = true) (as_completed env (outcomes (main env args w))) →
  ∃ acc,
    aggregate (main env args w) = Some acc
    ∧ results acc = line_of <$> as_completed env (outcomes (main env args w))
    ∧ total_downloaded acc
      = Z.of_nat (length (filter (λ v, qualifies v = true)
                            (as_completed env (outcomes (main env args w)))))
    ∧ total_bytes acc
      = total (byte_size <$> filter (λ v, qualifies v = true)
                 (as_completed env (outcomes (main env args w))))
    ∧ (total_downloaded acc ≠ 0 →
       last (stdout (final (main env args w)))
       = Some ("📦 Total downloaded: " +:+ Str.of_Z (total_downloaded acc) +:+ " file(s), "
               +:+ format_size (total_bytes acc))).
Proof.
  intros Hpool Hall.
  destruct (main_pool env args w Hpool)
    as (urls & headers & p & log_file & w1 & futures & w2 & _ & _ & _ & _ & _ & _ & _ & Hmain).
  rewrite Hmain in Hall |- *.
  assert (Forall (λ v, is_success v = true) (as_completed env futures)) as Hall'.
  { by destruct (consume _ _ _ _) as [[[e|] acc] w3]. }
  destruct (consume_successes (as_completed env futures) log_file
              {| results := []; total_downloaded := 0; total_bytes := 0 |} w2 Hall')
    as (acc & w3 & -> & Hres & Hcount & Hbytes & _).
  cbn [results total_downloaded total_bytes app] in *.
  exists acc. cbn [aggregate outcomes final]. rewrite Hres, Hcount, Hbytes.
  split; [done|]. split; [done|]. split; [lia|]. split; [lia|].
  intros Hne. unfold report. rewrite Hcount. rewrite bool_decide_eq_false_2 by lia.
  cbn [stdout print]. rewrite last_snoc. repeat f_equal; lia.
Qed.

Lemma main_totals_of_successes_witness :
  ∃ acc,
    aggregate (main Demo.env (Demo.args ["http://example.com/c.js"; "http://example.com/a.js"]) Demo.w0)
    = Some acc
    ∧ results acc
      = line_of <$> as_completed Demo.env
          (outcomes (main Demo.env (Demo.args ["http://example.com/c.js"; "http://example.com/a.js"]) Demo.w0))
    ∧ total_downloaded acc
      = Z.of_nat (length (filter (λ v, qualifies v = true)
          (as_completed Demo.env
             (outcomes (main Demo.env (Demo.args ["http://example.com/c.js"; "http://example.com/a.js"]) Demo.w0)))))
    ∧ total_bytes acc
      = total (byte_size <$> filter (λ v, qualifies v = true)
          (as_completed Demo.env
             (outcomes (main Demo.env (Demo.args ["http://example.com/c.js"; "http://example.com/a.js"]) Demo.w0))))
    ∧ (total_downloaded acc ≠ 0 →
       last (stdout (final (main Demo.env (Demo.args ["http://example.com/c.js"; "http://example.com/a.js"]) Demo.w0)))
       = Some ("📦 Total downloaded: " +:+ Str.of_Z (total_downloaded acc) +:+ " file(s), "
               +:+ format_size (total_bytes acc))).
Proof.
  apply (main_totals_of_successes Demo.env
           (Demo.args ["http://example.com/c.js"; "http://example.com/a.js"]) Demo.w0).
  - vm_compute. discriminate.
  - vm_compute. repeat constructor.
Defined.

Lemma setup_log_file_error env log_path w e w' :
  setup_log_file env log_path w = (inl e, w') →
  sent w' = sent w ∧ slept w' = slept w ∧ fs w' = fs w.
Proof.
  unfold setup_log_file. destruct (os_makedirs env "logs"); [by intros [= _ <-]|].
  destruct (open_error env _); [by intros [= _ <-]|done].
Qed.

(** A run without outcomes never reached the pool. *)
Lemma main_stopped env args w :
  outcomes (main env args w) = [] →
  submitted (main env args w) = []
  ∧ aggregate (main env args w) = None
  ∧ sent (final (main env args w)) = sent w
  ∧ slept (final (main env args w)) = slept w
  ∧ (raised (main env args w) = None → fs (final (main env args w)) = fs w).
Proof.
  unfold main.
  set (urls0 := if given (args_file args) then _ else _).
  assert (sent urls0.2 = sent w ∧ slept urls0.2 = slept w ∧ fs urls0.2 = fs w) as Hw0.
  { unfold urls0. destruct (given (args_file args)); [|done].
    pose proof (read_urls_world env (default "" (args_file args)) w) as (? & ? & ?).
    by destruct (read_urls_from_file env _ w). }
  destruct urls0 as [urls w0]. cbn [snd] in Hw0. destruct Hw0 as (Hsent0 & Hslept0 & Hfs0).
  destruct (args_random_useragent args && args_mobile_useragent args); [done|].
  destruct (parse_size env (args_min_size args)) as [e|lo]; [done|].
  destruct (parse_size env (args_max_size args)) as [e|hi]; [done|].
  destruct urls as [|url urls]; [done|].
  destruct (setup_log_file env (args_log_file args) _) as [[e|log_file] w1] eqn:Hlog.
  { apply setup_log_file_error in Hlog as (Hsent1 & Hslept1 & _). cbn.
    intros _. by rewrite Hsent1, Hslept1. }
  apply setup_log_file_world in Hlog as (Hout1 & Hsent1 & Hslept1 & _).
  destruct (args_threads args <=? 0).
  { cbn. intros _. rewrite Hsent1, Hslept1. done. }
  match goal with |- context [run_tasks env ?u ?h ?p w1] =>
    pose proof (run_tasks_effects env u h p w1) as (Hlen & _);
    destruct (run_tasks env u h p w1) as [futures w2] end.
  cbn [fst length] in Hlen.
  destruct (consume _ _ _ _) as [[[e|] acc] w3]; cbn [outcomes]; intros ->; done.
Qed.

(** X18: [main] has one outcome per submitted URL and makes at most
    [retries] requests for each of them; a run that submits nothing makes
    no request. *)
Theorem main_requests_bounded env args w :
  length (outcomes (main env args w)) = length (submitted (main env args w))
  ∧ Z.of_nat (length (sent w)) ≤ Z.of_nat (length (sent (final (main env args w))))
    ≤ Z.of_nat (length (sent w))
      + Z.of_nat (length (submitted (main env args w))) * Z.max 0 (args_retries args).
Proof.
  destruct (decide (outcomes (main env args w) = [])) as [Hnone|Hpool].
  - destruct (main_stopped env args w Hnone) as (-> & _ & -> & _). rewrite Hnone. cbn. lia.
  - destruct (main_pool env args w Hpool)
      as (urls & headers & p & log_file & w1 & futures & w2 & _ & Hr & _ & Hsent1 & _ & _ & Hrun & Hmain).
    pose proof (run_tasks_effects env urls headers p w1) as (Hlen & _ & Hsent).
    rewrite Hrun in Hlen, Hsent. cbn [fst snd] in Hlen, Hsent.
    pose proof (consume_quiet (as_completed env futures) log_file
                  {| results := []; total_downloaded := 0; total_bytes := 0 |} w2) as (_ & Hsent' & _).
    rewrite Hmain.
    destruct (consume _ _ _ _) as [[[e|] acc] w3];
      cbn [fst snd final submitted outcomes] in *.
    + rewrite Hsent', <- Hsent1, <- Hr. split; [done|lia].
    + destruct (report_quiet args (Color_init (negb (args_no_color args))) log_file acc w3) as (-> & _).
      rewrite Hsent', <- Hsent1, <- Hr. split; [done|lia].
Qed.

(** X19: a run that produces no outcome has submitted nothing, made no
    request and slept no second; when it also ends without an exception
    (both user-agent flags, or no URL) it has written no file, not even the
    log. *)
Theorem main_without_tasks env args w :
  outcomes (main env args w) = [] →
  submitted (main env args w) = []
  ∧ aggregate (main env args w) = None
  ∧ sent (final (main env args w)) = sent w
  ∧ slept (final (main env args w)) = slept w
  ∧ (raised (main env args w) = None → fs (final (main env args w)) = fs w).
Proof. apply main_stopped. Qed.

Lemma main_without_tasks_witness :
  submitted (main Demo.env (Demo.args []) Scene.after_a_run) = []
  ∧ aggregate (main Demo.env (Demo.args []) Scene.after_a_run) = None
  ∧ sent (final (main Demo.env (Demo.args []) Scene.after_a_run)) = sent Scene.after_a_run
  ∧ slept (final (main Demo.env (Demo.args []) Scene.after_a_run)) = slept Scene.after_a_run
  ∧ (raised (main Demo.env (Demo.args []) Scene.after_a_run) = None →
     fs (final (main Demo.env (Demo.args []) Scene.after_a_run)) = fs Scene.after_a_run).
Proof. apply (main_without_tasks Demo.env (Demo.args []) Scene.after_a_run). reflexivity. Defined.

Example main_no_urls :
  main Demo.env (Demo.args []) Scene.after_a_run
  = stopped (print "[!] No URLs provided. Use -u or -f." Scene.after_a_run) None.
Proof. reflexivity. Qed.

(** X20: a size that cannot be converted ends [main] with the exception of
    the conversion, whether or not there are URLs: nothing is submitted, no
    request is made and no file is written.  Only the conflict of the two
    user-agent flags is checked before the sizes. *)
Theorem main_invalid_size env args w e :
  args_random_useragent args && args_mobile_useragent args = false →
  parse_size env (args_min_size args) = inl e
  ∨ (∃ lo, parse_size env (args_min_size args) = inr lo)
    ∧ parse_size env (args_max_size args) = inl e →
  raised (main env args w) = Some e
  ∧ submitted (main env args w) = []
  ∧ outcomes (main env args w) = []
  ∧ sent (final (main env args w)) = sent w
  ∧ fs (final (main env args w)) = fs w.
Proof.
  intros Hflags Hsize.
  assert (raised (main env args w) = Some e ∧ outcomes (main env args w) = []
          ∧ fs (final (main env args w)) = fs w) as (Hraised & Hnone & Hfs).
  { unfold main.
    set (urls0 := if given (args_file args) then _ else _).
    assert (fs urls0.2 = fs w) as Hw0.
    { unfold urls0. destruct (given (args_file args)); [|done].
      pose proof (read_urls_world env (default "" (args_file args)) w) as (_ & ? & _).
      by destruct (read_urls_from_file env _ w). }
    destruct urls0 as [urls w0]. cbn [snd] in Hw0. rewrite Hflags.
    destruct Hsize as [->|[[lo ->] ->]]; done. }
  destruct (main_stopped env args w Hnone) as (Hsub & _ & Hsent & _). done.
Qed.

Lemma main_invalid_size_witness :
  raised (main Demo.env (Scene.sized (Some "ten") None (Demo.args [])) Demo.w0)
  = Some "ValueError: could not convert string to float: 'TEN'"
  ∧ submitted (main Demo.env (Scene.sized (Some "ten") None (Demo.args [])) Demo.w0) = []
  ∧ outcomes (main Demo.env (Scene.sized (Some "ten") None (Demo.args [])) Demo.w0) = []
  ∧ sent (final (main Demo.env (Scene.sized (Some "ten") None (Demo.args [])) Demo.w0)) = sent Demo.w0
  ∧ fs (final (main Demo.env (Scene.sized (Some "ten") None (Demo.args [])) Demo.w0)) = fs Demo.w0.
Proof.
  apply (main_invalid_size Demo.env (Scene.sized (Some "ten") None (Demo.args [])) Demo.w0).
  - reflexivity.
  - left. reflexivity.
Defined.

(** ** The report and the log *)

Lemma success_mark_exclusive r :
  Str.startswith "[✓]" r = true →
  Str.startswith "[!]" r = false ∧ Str.startswith "[✗]" r = false.
Proof.
  destruct r as [|a0 [|a1 [|a2 [|a3 r]]]]; cbn; try done;
    rewrite ?andb_true_iff, ?bool_decide_eq_true; intros H;
    repeat match type of H with _ ∧ _ => destruct H as [<- H] end; done.
Qed.

Lemma filter_all {A} (P : A → Prop) `{∀ x, Decision (P x)} (l : list A) :
  Forall P l → filter P l = l.
Proof.
  induction 1 as [|x l Hx Hl IH]; [done|].
  by rewrite filter_cons, decide_True, IH.
Qed.

Lemma filter_none {A} (P : A → Prop) `{∀ x, Decision (P x)} (l : list A) :
  Forall (λ x, ¬ P x) l → filter P l = [].
Proof.
  induction 1 as [|x l Hx Hl IH]; [done|].
  by rewrite filter_cons, decide_False, IH.
Qed.

(** X21: on the lines of successes the report prints, after what was
    printed before: the summary heading; the heading of the successes, every
    line once and in order, and an empty line, when there is a line at all;
    no heading for skips or failures; the output directory and the name of
    the log; and the totals when the count is not 0. *)
Theorem report_lists_successes args color log_name acc w :
  Forall (λ r, Str.startswith "[✓]" r = true) (results acc) →
  stdout (report args color log_name acc w)
  = stdout w
    ++ [nl +:+ "📄 " +:+ BOLD color +:+ "Download Summary:" +:+ RESET color +:+ nl]
    ++ match results acc with
       | [] => []
       | _ => (GREEN color +:+ "✅ Successfully downloaded:" +:+ RESET color +:+ nl)
              :: results acc ++ [""]
       end
    ++ ["📁 Saved to: " +:+ args_output args +:+ "/"; "📝 Log saved to: " +:+ log_name]
    ++ (if bool_decide (total_downloaded acc = 0) then []
        else ["📦 Total downloaded: " +:+ Str.of_Z (total_downloaded acc) +:+ " file(s), "
              +:+ format_size (total_bytes acc)]).
Proof.
  intros Hall. unfold report.
  rewrite (filter_all _ _ Hall).
  rewrite (filter_none (λ r, Str.startswith "[!]" r = true))
    by (eapply Forall_impl; [exact Hall|]; intros r Hr;
        destruct (success_mark_exclusive r Hr) as [-> _]; done).
  rewrite (filter_none (λ r, Str.startswith "[✗]" r = true))
    by (eapply Forall_impl; [exact Hall|]; intros r Hr;
        destruct (success_mark_exclusive r Hr) as [_ ->]; done).
  case_bool_decide; cbn [stdout print]; rewrite !print_group_stdout; cbn [stdout print];
    rewrite !app_nil_r, <- !app_assoc; reflexivity.
Qed.

Lemma report_lists_successes_witness :
  stdout (report (Demo.args []) (Color_init false) "run.log"
            {| results := ["[✓] a.js"; "[✓] b.js"]; total_downloaded := 2; total_bytes := 2048 |}
            Demo.w0)
  = stdout Demo.w0
    ++ [nl +:+ "📄 " +:+ BOLD (Color_init false) +:+ "Download Summary:"
        +:+ RESET (Color_init false) +:+ nl]
    ++ match results {| results := ["[✓] a.js"; "[✓] b.js"]; total_downloaded := 2;
                        total_bytes := 2048 |} with
       | [] => []
       | _ => (GREEN (Color_init false) +:+ "✅ Successfully downloaded:"
               +:+ RESET (Color_init false) +:+ nl)
              :: results {| results := ["[✓] a.js"; "[✓] b.js"]; total_downloaded := 2;
                            total_bytes := 2048 |} ++ [""]
       end
    ++ ["📁 Saved to: " +:+ args_output (Demo.args []) +:+ "/"; "📝 Log saved to: " +:+ "run.log"]
    ++ (if bool_decide (total_downloaded {| results := ["[✓] a.js"; "[✓] b.js"];
                                            total_downloaded := 2; total_bytes := 2048 |} = 0)
        then []
        else ["📦 Total downloaded: "
              +:+ Str.of_Z (total_downloaded {| results := ["[✓] a.js"; "[✓] b.js"];
                                                total_downloaded := 2; total_bytes := 2048 |})
              +:+ " file(s), "
              +:+ format_size (total_bytes {| results := ["[✓] a.js"; "[✓] b.js"];
                                              total_downloaded := 2; total_bytes := 2048 |})]).
Proof.
  apply (report_lists_successes (Demo.args []) (Color_init false) "run.log"
           {| results := ["[✓] a.js"; "[✓] b.js"]; total_downloaded := 2; total_bytes := 2048 |}
           Demo.w0).
  repeat constructor.
Defined.

(** The loop over successes followed by more futures. *)
Lemma consume_app done_before rest log_path :
  Forall (λ v, is_success v = true) done_before →
  ∀ acc w,
    consume (done_before ++ rest) log_path acc w
    = consume rest log_path (consume done_before log_path acc w).1.2
        (consume done_before log_path acc w).2.
Proof.
  induction 1 as [|v futures Hv Hall IH]; intros acc w; [done|].
  destruct v as [line status size| |]; try done. cbn [consume app]. apply IH.
Qed.

(** X22: the loop over the futures stops at the first value that is not a
    triple.  The lines of the successes before it are kept and appended to
    the log in order and counted in the totals; the value itself and all
    that follow are neither kept nor logged, and the loop ends with an
    exception. *)
Theorem consume_stops_at_first_failure done_before v rest log_path acc w :
  Forall (λ v, is_success v = true) done_before →
  is_success v = false →
  ∃ e acc' w',
    consume (done_before ++ v :: rest) log_path acc w = (Some e, acc', w')
    ∧ results acc' = results acc ++ (line_of <$> done_before)
    ∧ total_downloaded acc'
      = total_downloaded acc + Z.of_nat (length (filter (λ v, qualifies v = true) done_before))
    ∧ total_bytes acc'
      = total_bytes acc + total (byte_size <$> filter (λ v, qualifies v = true) done_before)
    ∧ file_content w' log_path
      = file_content w log_path
        +:+ foldr (λ v rest, line_of v +:+ nl +:+ rest) "" done_before.
Proof.
  intros Hall Hv. rewrite (consume_app _ _ _ Hall).
  destruct (consume_successes done_before log_path acc w Hall)
    as (acc' & w' & -> & Hres & Hcount & Hbytes & Hlog). cbn [fst snd].
  destruct v as [line status size|line|]; [done| |]; cbn [consume]; by eexists _, acc', w'.
Qed.

Lemma consume_stops_at_first_failure_witness :
  ∃ e acc' w',
    consume ([PyTuple "[✓] a.js" 200 500; PyTuple "[✓] c.js" 201 300]
             ++ PyStr "[!] Skipped (no filename): http://example.com/"
             :: [PyTuple "[✓] d.js" 200 100])
       "run.log" {| results := []; total_downloaded := 0; total_bytes := 0 |} Demo.w0
    = (Some e, acc', w')
    ∧ results acc'
      = results {| results := []; total_downloaded := 0; total_bytes := 0 |}
        ++ (line_of <$> [PyTuple "[✓] a.js" 200 500; PyTuple "[✓] c.js" 201 300])
    ∧ total_downloaded acc'
      = total_downloaded {| results := []; total_downloaded := 0; total_bytes := 0 |}
        + Z.of_nat (length (filter (λ v, qualifies v = true)
                              [PyTuple "[✓] a.js" 200 500; PyTuple "[✓] c.js" 201 300]))
    ∧ total_bytes acc'
      = total_bytes {| results := []; total_downloaded := 0; total_bytes := 0 |}
        + total (byte_size <$> filter (λ v, qualifies v = true)
                   [PyTuple "[✓] a.js" 200 500; PyTuple "[✓] c.js" 201 300])
    ∧ file_content w' "run.log"
      = file_content Demo.w0 "run.log"
        +:+ foldr (λ v rest, line_of v +:+ nl +:+ rest) ""
              [PyTuple "[✓] a.js" 200 500; PyTuple "[✓] c.js" 201 300].
Proof.
  apply (consume_stops_at_first_failure
           [PyTuple "[✓] a.js" 200 500; PyTuple "[✓] c.js" 201 300]
           (PyStr "[!] Skipped (no filename): http://example.com/")
           [PyTuple "[✓] d.js" 200 100] "run.log"
           {| results := []; total_downloaded := 0; total_bytes := 0 |} Demo.w0).
  - repeat constructor.
  - reflexivity.
Defined.

Lemma download_file_preserves env url headers p w path content :
  fs w !! path = Some content →
  fs (download_file env url headers p w).2 !! path = Some content.
Proof.
  intros Hpath. destruct (decide (retries p ≤ 0)) as [Hr|Hr].
  - by rewrite (download_file_no_retries _ _ _ _ _ Hr).
  - destruct (download_file_effects env url headers p w) as (m & _ & _ & _ & _ & Hsub & _); [lia|].
    by eapply lookup_weaken.
Qed.

Lemma run_tasks_preserves env urls headers p path content :
  ∀ w, fs w !! path = Some content →
       fs (run_tasks env urls headers p w).2 !! path = Some content.
Proof.
  induction urls as [|url urls IH]; intros w Hpath; cbn [run_tasks]; [done|].
  pose proof (download_file_preserves env url headers p w path content Hpath) as H1.
  destruct (download_file env url headers p w) as [v w1]. cbn [snd] in H1.
  specialize (IH w1 H1). by destruct (run_tasks env urls headers p w1) as [vs w2].
Qed.

(** X23: the log of a run in which every task succeeds.  The log file is
    the one named by [--log-file], or [logs/filescooper_<timestamp>.log]; it
    is opened anew, so whatever it held before the run is gone, and at the
    end it holds exactly the lines of the outcomes, one per line, in the
    order [as_completed] gave them. *)
Theorem main_log_of_successes env args w :
  outcomes (main env args w) ≠ [] →
  Forall (λ v, is_success v = true) (as_completed env (outcomes (main env args w))) →
  file_content (final (main env args w))
    (if given (args_log_file args) then default "" (args_log_file args)
     else "logs/filescooper_" +:+ timestamp env +:+ ".log")
  = foldr (λ v rest, line_of v +:+ nl +:+ rest) ""
      (as_completed env (outcomes (main env args w))).
Proof.
  intros Hpool Hall.
  destruct (main_pool env args w Hpool)
    as (urls & headers & p & log_file & w1 & futures & w2 & _ & _ & _ & _ & _
        & [<- Hlog] & Hrun & Hmain).
  pose proof (run_tasks_preserves env urls headers p log_file "" w1 Hlog) as Hlog2.
  rewrite Hrun in Hlog2. cbn [snd] in Hlog2.
  rewrite Hmain in Hall |- *.
  assert (Forall (λ v, is_success v = true) (as_completed env futures)) as Hall'.
  { by destruct (consume _ _ _ _) as [[[e|] acc] w3]. }
  destruct (consume_successes (as_completed env futures) log_file
              {| results := []; total_downloaded := 0; total_bytes := 0 |} w2 Hall')
    as (acc & w3 & -> & _ & _ & _ & Hcontent).
  cbn [final outcomes]. unfold file_content in *.
  destruct (report_quiet args (Color_init (negb (args_no_color args))) log_file acc w3) as (_ & -> & _).
  by rewrite Hcontent, Hlog2.
Qed.

Lemma main_log_of_successes_witness :
  file_content
    (final (main Demo.env (Demo.args ["http://example.com/c.js"; "http://example.com/a.js"])
              Scene.after_a_run))
    (if given (args_log_file (Demo.args ["http://example.com/c.js"; "http://example.com/a.js"]))
     then default "" (args_log_file (Demo.args ["http://example.com/c.js"; "http://example.com/a.js"]))
     else "logs/filescooper_" +:+ timestamp Demo.env +:+ ".log")
  = foldr (λ v rest, line_of v +:+ nl +:+ rest) ""
      (as_completed Demo.env
         (outcomes (main Demo.env (Demo.args ["http://example.com/c.js"; "http://example.com/a.js"])
                      Scene.after_a_run))).
Proof.
  apply (main_log_of_successes Demo.env
           (Demo.args ["http://example.com/c.js"; "http://example.com/a.js"]) Scene.after_a_run).
  - vm_compute. discriminate.
  - vm_compute. repeat constructor.
Defined.

Example rerun_keeps_old_download :
  let r := main Demo.env (Demo.args ["http://example.com/a.js"]) Scene.after_a_run in
  fs (final r)
  = {["run.log" := "[✓] a_1.js                         → 200 (500.0 B)  (http://example.com/a.js)" +:+ nl;
      "downloads/a.js" := "old";
      "downloads/a_1.js" := Demo.blob 500]}.
Proof. vm_compute. reflexivity. Qed.
